(** * Domain monitor: the monitoring and notification pipeline

    A shallow embedding of [internal/services] (notification dispatcher,
    channel senders, monitor engine, WHOIS lookup) and of the records of
    [internal/models], with the properties of the pipeline proved over it;
    then of what drives the pipeline: the settings [cmd/server] loads over
    the configuration, the job of [internal/scheduler] and the two handlers
    of [internal/api] that run a check or a dispatch.

    Conventions.
    - Go's [int] and [uint] are [Z] and [N]; no arithmetic of the modelled
      code leaves the 64-bit range (it is said where that matters).
    - A Go [error] value is an [error]; a possibly-nil one is [option error].
    - What the code does to the outside world is explicit state passing
      over a [World]; what the outside world answers is read from an [Env]. *)

From Stdlib Require Import ZArith NArith List String Ascii Bool Lia.
From Stdlib Require Import DecimalString DecimalPos DecimalZ.
From Stdlib Require Import Floats Uint63.
Import ListNotations.

Open Scope string_scope.
Open Scope Z_scope.

(** ** Go values *)

(** [errors.New] / [fmt.Errorf] without [%w] give a plain error;
    [fmt.Errorf] with one [%w] gives a [*fmt.wrapError] that keeps the
    formatted message and the wrapped error. *)
Inductive error : Type :=
| errorString (s : string)
| wrapError (msg : string) (err : error).

(** [err.Error()] *)
Definition Error (e : error) : string :=
  match e with
  | errorString s => s
  | wrapError msg _ => msg
  end.

(** [errors.Unwrap(err)] *)
Definition Unwrap (e : error) : option error :=
  match e with
  | errorString _ => None
  | wrapError _ err => Some err
  end.

(** [err != nil] *)
Definition notNil (err : option error) : bool :=
  match err with
  | Some _ => true
  | None => false
  end.

(** [fmt.Errorf(prefix + "%w", err)] *)
Definition Errorf_w (prefix : string) (err : error) : error :=
  wrapError (prefix ++ Error err) err.

(** [fmt.Sprintf("%d", n)] *)
Definition FormatInt (n : Z) : string :=
  NilZero.string_of_int (Z.to_int n).

(** [strings.Join(elems, sep)] *)
Fixpoint Join (elems : list string) (sep : string) : string :=
  match elems with
  | [] => ""
  | [x] => x
  | x :: rest => x ++ sep ++ Join rest sep
  end.

(** [fmt.Sprintf("%v", elems)] for a [[]string] *)
Definition FormatStrings (elems : list string) : string :=
  "[" ++ Join elems " " ++ "]".

(** [strings.HasPrefix(s, p)] *)
Fixpoint HasPrefix (s p : string) {struct p} : bool :=
  match p, s with
  | EmptyString, _ => true
  | String _ _, EmptyString => false
  | String b p', String a s' => Ascii.eqb a b && HasPrefix s' p'
  end.

(** [strings.Contains(s, substr)] *)
Fixpoint Contains (s substr : string) : bool :=
  HasPrefix s substr ||
  match s with
  | EmptyString => false
  | String _ s' => Contains s' substr
  end.

Definition newline : string := String (ascii_of_nat 10) EmptyString.
Definition crlf : string :=
  String (ascii_of_nat 13) (String (ascii_of_nat 10) EmptyString).

(** ** Go's standard library: bytes, SHA-256, HMAC, base64

    A [[]byte] is a list of integers in [0, 256). The three functions below
    are the library's, as their standards define them (FIPS 180-4,
    RFC 2104, RFC 4648); they run, so a signature can be computed. *)

(** [[]byte(s)] *)
Definition bytes_of_string (s : string) : list Z :=
  map (fun c => Z.of_N (N_of_ascii c)) (list_ascii_of_string s).

Module sha256.

Definition BlockSize : Z := 64.

Definition add32 (x y : Z) : Z := (x + y) mod 2 ^ 32.

(** [bits.RotateLeft32(x, -n)] on a 32-bit [x] *)
Definition rotr (n x : Z) : Z :=
  Z.lor (Z.shiftr x n) (Z.shiftl x (32 - n) mod 2 ^ 32).

Definition xor3 (x y z : Z) : Z := Z.lxor (Z.lxor x y) z.

Definition Ch (x y z : Z) : Z :=
  Z.lxor (Z.land x y) (Z.land (Z.lxor x 0xffffffff) z).
Definition Maj (x y z : Z) : Z :=
  xor3 (Z.land x y) (Z.land x z) (Z.land y z).
Definition Sigma0 (x : Z) : Z := xor3 (rotr 2 x) (rotr 13 x) (rotr 22 x).
Definition Sigma1 (x : Z) : Z := xor3 (rotr 6 x) (rotr 11 x) (rotr 25 x).
Definition sigma0 (x : Z) : Z := xor3 (rotr 7 x) (rotr 18 x) (Z.shiftr x 3).
Definition sigma1 (x : Z) : Z := xor3 (rotr 17 x) (rotr 19 x) (Z.shiftr x 10).

(** The primes below [bound], by trial division. *)
Definition primes_below (bound : nat) : list Z :=
  filter
    (fun n => forallb (fun d => negb (n mod d =? 0))
                      (map Z.of_nat (seq 2 (Z.to_nat n - 2))))
    (map Z.of_nat (seq 2 (bound - 2))).

(** The integer [k]-th root of [n], built from bit [bits - 1] down. *)
Fixpoint iroot (k : Z) (n : Z) (bits : nat) (r : Z) : Z :=
  match bits with
  | O => r
  | S b =>
      let c := r + 2 ^ Z.of_nat b in
      iroot k n b (if c ^ k <=? n then c else r)
  end.

(** The first 32 bits of the fractional part of the [k]-th root of [p]. *)
Definition root_fraction (k p : Z) : Z :=
  iroot k (p * 2 ^ (32 * k)) 40 0 mod 2 ^ 32.

(** The round constants: cube roots of the first 64 primes. *)
Definition _K : list Z :=
  Eval vm_compute in map (root_fraction 3) (firstn 64 (primes_below 320)).

(** The initial hash value: square roots of the first 8 primes. *)
Definition init : list Z :=
  Eval vm_compute in map (root_fraction 2) (firstn 8 (primes_below 320)).

(** Four bytes, big-endian, as one word; the words of a chunk. *)
Fixpoint words (p : list Z) : list Z :=
  match p with
  | b0 :: b1 :: b2 :: b3 :: p' =>
      (((b0 * 256 + b1) * 256 + b2) * 256 + b3) :: words p'
  | _ => []
  end.

(** The message schedule, newest word first: [w] holds
    [W(t-1), W(t-2), ...]; [n] more words are added. *)
Fixpoint schedule (n : nat) (w : list Z) : list Z :=
  match n with
  | O => w
  | S n' =>
      let v1 := sigma1 (nth 1 w 0) in
      let v2 := sigma0 (nth 14 w 0) in
      schedule n' (add32 (add32 (add32 v1 (nth 6 w 0)) v2) (nth 15 w 0) :: w)
  end.

Definition round (s : list Z) (kw : Z * Z) : list Z :=
  match s with
  | [a; b; c; d; e; f; g; h] =>
      let t1 :=
        add32 (add32 (add32 (add32 h (Sigma1 e)) (Ch e f g)) (fst kw))
              (snd kw) in
      let t2 := add32 (Sigma0 a) (Maj a b c) in
      [add32 t1 t2; a; b; c; add32 d t1; e; f; g]
  | _ => s
  end.

(** One 64-byte chunk folded into the chaining value [h]. *)
Definition block (h : list Z) (chunk : list Z) : list Z :=
  let w := rev (schedule 48 (rev (words chunk))) in
  let s := fold_left round (combine _K w) h in
  map (fun p => add32 (fst p) (snd p)) (combine h s).

(** [block(d, p)] over the whole chunks of [p], in order. *)
Definition blocks (h : list Z) (p : list Z) : list Z :=
  fold_left
    (fun h i => block h (firstn 64 (skipn (64 * i) p)))
    (seq 0 (List.length p / 64))
    h.

(** [n] as [k] bytes, big-endian. *)
Fixpoint be_bytes (k : nat) (n : Z) : list Z :=
  match k with
  | O => []
  | S k' => (be_bytes k' (n / 256) ++ [n mod 256])%list
  end.

(** The padding of a message of [len] bytes. *)
Definition padding (len : Z) : list Z :=
  let t := if len mod 64 <? 56 then 56 - len mod 64
           else 64 + 56 - len mod 64 in
  ((0x80 :: repeat 0 (Z.to_nat (t - 1))) ++ be_bytes 8 (len * 8 mod 2 ^ 64))%list.

(** [sha256.Sum256(data)] *)
Definition Sum256 (data : list Z) : list Z :=
  let p := (data ++ padding (Z.of_nat (List.length data)))%list in
  flat_map (be_bytes 4) (blocks init p).

End sha256.

Module hmac.

Definition xor_pad (c : Z) (key : list Z) : list Z :=
  map (fun k => Z.lxor k c)
      (key ++ repeat 0 (Z.to_nat sha256.BlockSize - List.length key))%list.

(** The MAC of [msg] under [key], over SHA-256. *)
Definition Sum_sha256 (key msg : list Z) : list Z :=
  let key :=
    if sha256.BlockSize <? Z.of_nat (List.length key) then sha256.Sum256 key
    else key in
  sha256.Sum256
    (xor_pad 0x5c key ++ sha256.Sum256 (xor_pad 0x36 key ++ msg))%list.

(** The [hash.Hash] that [hmac.New(sha256.New, key)] returns: its key,
    and what has been written to it. *)
Record t : Type := mk { key : list Z; written : list Z }.

(** [hmac.New(sha256.New, key)] *)
Definition New (key : list Z) : t := mk key [].
(** [h.Write(p)] *)
Definition Write (h : t) (p : list Z) : t := mk (key h) (written h ++ p)%list.
(** [h.Sum(b)] *)
Definition Sum (h : t) (b : list Z) : list Z :=
  (b ++ Sum_sha256 (key h) (written h))%list.

End hmac.

Module base64.

Definition encodeStd : string :=
  "ABCDEFGHIJKLMNOPQRSTUVWXYZabcdefghijklmnopqrstuvwxyz0123456789+/".

Definition digit (n : Z) : string :=
  match String.get (Z.to_nat n) encodeStd with
  | Some c => String c EmptyString
  | None => ""
  end.

(** [base64.StdEncoding.EncodeToString(src)] *)
Fixpoint EncodeToString (src : list Z) : string :=
  match src with
  | [] => ""
  | [b0] =>
      digit (b0 / 4) ++ digit (b0 mod 4 * 16) ++ "=="
  | [b0; b1] =>
      digit (b0 / 4) ++ digit (b0 mod 4 * 16 + b1 / 16)
        ++ digit (b1 mod 16 * 4) ++ "="
  | b0 :: b1 :: b2 :: src' =>
      digit (b0 / 4) ++ digit (b0 mod 4 * 16 + b1 / 16)
        ++ digit (b1 mod 16 * 4 + b2 / 64) ++ digit (b2 mod 64)
        ++ EncodeToString src'
  end.

End base64.

(** ** Time

    A [time.Time] without monotonic reading is an instant, counted here in
    nanoseconds since the zero Time (January 1, year 1, 00:00:00 UTC). A
    [time.Duration] is an [int64] count of nanoseconds. *)
Definition Time := Z.
Definition Duration := Z.

Definition Second : Duration := 1000000000.
Definition Hour : Duration := 3600 * Second.

Definition minDuration : Duration := - 2 ^ 63.
Definition maxDuration : Duration := 2 ^ 63 - 1.

(** [t.IsZero()] *)
Definition IsZero (t : Time) : bool := t =? 0.

(** [t.Sub(u)]: the difference, or the nearest Duration when it does not
    fit in one. *)
Definition Sub (t u : Time) : Duration :=
  let d := t - u in
  if (minDuration <=? d) && (d <=? maxDuration) then d
  else if t <? u then minDuration
  else maxDuration.

(** ** [float64]

    A [float64] is a primitive (IEEE 754 binary64) float, so [Hours] below
    rounds exactly as the compiled code does. *)

(** [float64(n)] for an integer [n] with [|n| < 2^63] *)
Definition float64_of_int (n : Z) : float :=
  if n <? 0 then PrimFloat.opp (PrimFloat.of_uint63 (Uint63.of_Z (- n)))
  else PrimFloat.of_uint63 (Uint63.of_Z n).

(** [2^63] as a [float64] *)
Definition two63 : float := 9223372036854775808%float.

(** The integer part of [a], for [0 <= a < 2^63]: with [a = m * 2^k] and
    [1/2 <= m < 1], the 53-bit mantissa [m * 2^53] moved by [k - 53] bits
    ([frshiftexp] gives [k + 2101]). *)
Definition trunc_magnitude (a : float) : PrimInt63.int :=
  if PrimFloat.ltb a 1 then 0%uint63
  else
    let (m, e) := PrimFloat.frshiftexp a in
    let mant := PrimFloat.normfr_mantissa m in
    if Uint63.leb e 2154 then Uint63.lsr mant (2154 - e)
    else Uint63.lsl mant (e - 2154).

(** [int(f)] for a [float64] [f]: the fraction is discarded (truncation
    toward zero). Outside the [int] range, and for a NaN, Go leaves the
    result to the platform; it is amd64's here. *)
Definition int_of_float64 (f : float) : Z :=
  let a := PrimFloat.abs f in
  if PrimFloat.ltb a two63 then
    let n := Uint63.to_Z (trunc_magnitude a) in
    if PrimFloat.ltb f 0 then - n else n
  else - 2 ^ 63.

(** [d.Hours()] *)
Definition Hours (d : Duration) : float :=
  let hour := Z.quot d Hour in
  let nsec := Z.rem d Hour in
  PrimFloat.add
    (float64_of_int hour)
    (PrimFloat.div (float64_of_int nsec)
                   (float64_of_int (60 * 60 * 1000000000))).

(** [int(d.Hours() / 24)] *)
Definition days_of (d : Duration) : Z :=
  int_of_float64 (PrimFloat.div (Hours d) (float64_of_int 24)).




(** ** [internal/models] *)

Module Domain.
Record t : Type := mk {
  ID : N;
  Name : string;
  Registrar : string;
  ExpiryDate : Time;
  CreatedDate : Time;
  UpdatedDate : Time;
  Status : string;
  DaysRemaining : Z;
  Tags : string;
  LastChecked : Time;
  IsActive : bool;
  CreatedAt : Time;
  UpdatedAt : Time
}.

(** Field assignments [domain.F = v]. *)
Definition set_Registrar (v : string) (d : t) : t :=
  mk (ID d) (Name d) v (ExpiryDate d) (CreatedDate d) (UpdatedDate d)
     (Status d) (DaysRemaining d) (Tags d) (LastChecked d) (IsActive d)
     (CreatedAt d) (UpdatedAt d).
Definition set_ExpiryDate (v : Time) (d : t) : t :=
  mk (ID d) (Name d) (Registrar d) v (CreatedDate d) (UpdatedDate d)
     (Status d) (DaysRemaining d) (Tags d) (LastChecked d) (IsActive d)
     (CreatedAt d) (UpdatedAt d).
Definition set_CreatedDate (v : Time) (d : t) : t :=
  mk (ID d) (Name d) (Registrar d) (ExpiryDate d) v (UpdatedDate d)
     (Status d) (DaysRemaining d) (Tags d) (LastChecked d) (IsActive d)
     (CreatedAt d) (UpdatedAt d).
Definition set_UpdatedDate (v : Time) (d : t) : t :=
  mk (ID d) (Name d) (Registrar d) (ExpiryDate d) (CreatedDate d) v
     (Status d) (DaysRemaining d) (Tags d) (LastChecked d) (IsActive d)
     (CreatedAt d) (UpdatedAt d).
Definition set_Status (v : string) (d : t) : t :=
  mk (ID d) (Name d) (Registrar d) (ExpiryDate d) (CreatedDate d)
     (UpdatedDate d) v (DaysRemaining d) (Tags d) (LastChecked d)
     (IsActive d) (CreatedAt d) (UpdatedAt d).
Definition set_DaysRemaining (v : Z) (d : t) : t :=
  mk (ID d) (Name d) (Registrar d) (ExpiryDate d) (CreatedDate d)
     (UpdatedDate d) (Status d) v (Tags d) (LastChecked d) (IsActive d)
     (CreatedAt d) (UpdatedAt d).
Definition set_LastChecked (v : Time) (d : t) : t :=
  mk (ID d) (Name d) (Registrar d) (ExpiryDate d) (CreatedDate d)
     (UpdatedDate d) (Status d) (DaysRemaining d) (Tags d) v (IsActive d)
     (CreatedAt d) (UpdatedAt d).
End Domain.

(** What GORM manages itself in a [Domain] row and writes through the
    pointer it is handed: the primary key, the flag that has a [default]
    tag, and the two time stamps. *)
Module Managed.
Record t : Type := mk {
  ID : N;
  IsActive : bool;
  CreatedAt : Time;
  UpdatedAt : Time
}.
End Managed.

Module Notification.
Record t : Type := mk {
  ID : N;
  DomainID : N;
  Type_ : string;            (* the field [Type] *)
  Content : string;
  Status : string;
  SentAt : Time
}.
End Notification.

(** [services.DomainInfo], the result of a WHOIS query. *)
Module DomainInfo.
Record t : Type := mk {
  Domain : string;
  Registrar : string;
  ExpiryDate : Time;
  CreatedDate : Time;
  UpdatedDate : Time;
  Status : string;
  NameServers : list string;
  RawData : string
}.
End DomainInfo.

(** ** [internal/config]: the channel configurations *)

Module EmailConfig.
Record t : Type := mk {
  Enabled : bool;
  SMTPHost : string;
  SMTPPort : Z;
  From : string;
  Password : string;
  To : list string
}.
End EmailConfig.

Module WebhookConfig.
Record t : Type := mk { Enabled : bool; URL : string }.
End WebhookConfig.

Module TelegramConfig.
Record t : Type := mk { Enabled : bool; BotToken : string; ChatID : string }.
End TelegramConfig.

Module DingDingConfig.
Record t : Type := mk { Enabled : bool; Webhook : string; Secret : string }.
End DingDingConfig.

Module NotificationsConfig.
Record t : Type := mk {
  Email : EmailConfig.t;
  Webhook : WebhookConfig.t;
  Telegram : TelegramConfig.t;
  DingDing : DingDingConfig.t
}.
End NotificationsConfig.

(** ** The outside world

    [Sys] is what a channel sender can touch: the wall clock, standard
    output and the network. [World] adds what only the services touch: the
    process log and the database, seen through the rows the services hand
    to it (the store itself is GORM's). *)

(** A JSON document handed to [json.Marshal]. *)
#[local] Set Warnings "-register-all".
Inductive json : Type :=
| JString (s : string)
| JNumber (n : Z)
| JObject (fields : list (string * json)).

(** The HTTP client a request goes through. *)
Inductive HttpClient : Type :=
| DefaultClient                       (* [http.Post] *)
| TimeoutClient (timeout : Duration)  (* [&http.Client{Timeout: ...}] *)
| Socks5Client (timeout : Duration) (proxyAddr : string).

(** One outbound call. *)
Inductive Outbound : Type :=
| OutSendMail (addr from : string) (to : list string) (msg : string)
| OutHttpPost (client : HttpClient) (url contentType : string) (body : json).

Record HttpResponse : Type := mkHttpResponse {
  StatusCode : Z;
  Body : string
}.

Record Sys : Type := mkSys {
  ticks : nat;               (* readings of [time.Now()] taken so far *)
  stdout : list string;      (* what [fmt.Printf] wrote, oldest first *)
  outbox : list Outbound     (* outbound calls made, oldest first *)
}.

Record World : Type := mkWorld {
  sys : Sys;
  logged : list string;      (* messages given to [log.Printf], oldest first *)
  saved : list Domain.t;     (* records [db.Save] stored, as they were
                                handed to it, oldest first *)
  notifications : list Notification.t
                             (* rows handed to [db.Create], oldest first *)
}.

(** What the outside world answers. *)
Record Env : Type := mkEnv {
  (** the [n]-th reading of [time.Now()] *)
  clock : nat -> Time;
  (** [t.Format(layout)] *)
  time_Format : Time -> string -> string;
  (** [whoisService.QueryDomain(name)] *)
  QueryDomain : string -> DomainInfo.t + error;
  (** [db.Where("is_active = ?", true).Find(&domains)] *)
  db_FindActive : list Domain.t + error;
  (** [db.Save(domain).Error] *)
  db_Save_Error : Domain.t -> option error;
  (** what [db.Save(domain)] leaves in the fields GORM manages of the
      record behind the pointer *)
  db_Save_writes : Domain.t -> Managed.t;
  (** [smtp.SendMail(addr, auth, from, to, msg)], [auth] being
      [smtp.PlainAuth("", user, password, host)] *)
  smtp_SendMail :
    string -> string * string * string -> string -> list string -> string ->
    option error;
  (** [client.Post(url, contentType, body)] *)
  http_Post : HttpClient -> string -> string -> json -> HttpResponse + error;
  (** [proxy.SOCKS5("tcp", addr, nil, proxy.Direct)]: its error *)
  proxy_SOCKS5 : string -> option error;
  (** [url.Parse(rawURL)]: its error *)
  url_Parse_Error : string -> option error;
  (** the URL [rawURL] with the parameters added to its query, re-encoded *)
  url_AddQuery : string -> list (string * string) -> string;
  (** [json.NewDecoder(body).Decode(&result)], then [result["errcode"]] as a
      [float64] different from zero, with [fmt.Sprintf("%v", result["errmsg"])] *)
  json_errcode : string -> option string
}.

(** ** State passing *)

Definition State (S A : Type) : Type := S -> A * S.

Definition ret {S A : Type} (a : A) : State S A := fun s => (a, s).

Definition bind {S A B : Type} (m : State S A) (k : A -> State S B)
  : State S B :=
  fun s => let (a, s') := m s in k a s'.

Declare Scope state_scope.
Delimit Scope state_scope with state.
Notation "x <- m ;; k" := (bind m (fun x => k))
  (at level 100, m at next level, right associativity) : state_scope.
Notation "m ;; k" := (bind m (fun _ => k))
  (at level 100, right associativity) : state_scope.
Open Scope state_scope.

(** A sender's effect, seen from a service. *)
Definition liftSys {A : Type} (m : State Sys A) : State World A :=
  fun w =>
    let (a, s') := m (sys w) in
    (a, mkWorld s' (logged w) (saved w) (notifications w)).

(** [fmt.Printf(line)] *)
Definition Printf (line : string) : State Sys unit :=
  fun s => (tt, mkSys (ticks s) (stdout s ++ [line]) (outbox s)).

(** [log.Printf(msg)] *)
Definition log_Printf (msg : string) : State World unit :=
  fun w => (tt, mkWorld (sys w) (logged w ++ [msg]) (saved w) (notifications w)).

(** [db.Create(notification)]; the code drops its result. *)
Definition db_Create (n : Notification.t) : State World unit :=
  fun w => (tt, mkWorld (sys w) (logged w) (saved w) (notifications w ++ [n])).

Section Services.

Variable env : Env.

(** [time.Now()] *)
Definition Now : State Sys Time :=
  fun s => (clock env (ticks s), mkSys (S (ticks s)) (stdout s) (outbox s)).

(** [time.Until(t)], for a [t] without monotonic reading *)
Definition Until (t : Time) : State Sys Duration :=
  now <- Now ;;
  ret (Sub t now).

(** The record behind the pointer once [db.Save(domain)] has run: the
    fields GORM manages are what the store wrote, the others are as they
    were. *)
Definition written_back (domain : Domain.t) : Domain.t :=
  let m := db_Save_writes env domain in
  Domain.mk (Managed.ID m) (Domain.Name domain) (Domain.Registrar domain)
            (Domain.ExpiryDate domain) (Domain.CreatedDate domain)
            (Domain.UpdatedDate domain) (Domain.Status domain)
            (Domain.DaysRemaining domain) (Domain.Tags domain)
            (Domain.LastChecked domain) (Managed.IsActive m)
            (Managed.CreatedAt m) (Managed.UpdatedAt m).

(** [db.Save(domain)]: the record behind the pointer afterwards, and the
    [Error] of the result. *)
Definition db_Save (domain : Domain.t)
  : State World (Domain.t * option error) :=
  fun w =>
    match db_Save_Error env domain with
    | Some err => ((written_back domain, Some err), w)
    | None =>
        ((written_back domain, None),
         mkWorld (sys w) (logged w) (saved w ++ [domain]) (notifications w))
    end.

(** An outbound call, noted in the outbox. *)
Definition outbound (o : Outbound) : State Sys unit :=
  fun s => (tt, mkSys (ticks s) (stdout s) (outbox s ++ [o])).

(** *** [Notifier] and [NotifyService] *)

(** The [Notifier] interface: [Send(domain, daysRemaining) error], with
    the dynamic type of the value as [fmt.Sprintf("%T", notifier)]
    prints it. *)
Record Notifier : Type := mkNotifier {
  TypeName : string;
  Send : Domain.t -> Z -> State Sys (option error)
}.

Record NotifyService : Type := mkNotifyService {
  notifiers : list Notifier
}.

(** [recordNotification] *)
Definition recordNotification
    (domain : Domain.t) (notifier : Notifier) (status : string)
  : State World unit :=
  now <- liftSys Now ;;
  let notification :=
    Notification.mk
      0%N
      (Domain.ID domain)
      (TypeName notifier)
      ("Domain " ++ Domain.Name domain ++ " expires in "
         ++ FormatInt (Domain.DaysRemaining domain) ++ " days")
      status
      now in
  db_Create notification.

(** The [for _, notifier := range s.notifiers] loop of
    [SendNotification], with its two loop-carried variables. *)
Fixpoint SendNotification_loop
    (rest : list Notifier) (domain : Domain.t) (daysRemaining : Z)
    (lastErr : option error) (successCount : Z)
  : State World (option error * Z) :=
  match rest with
  | [] => ret (lastErr, successCount)
  | notifier :: rest' =>
      let notifierType := TypeName notifier in
      r <- liftSys (Send notifier domain daysRemaining) ;;
      match r with
      | Some err =>
          liftSys (Printf ("[ERROR] " ++ notifierType
                             ++ " notification failed: " ++ Error err
                             ++ newline)) ;;
          recordNotification domain notifier "failed" ;;
          SendNotification_loop rest' domain daysRemaining
                                (Some err) successCount
      | None =>
          recordNotification domain notifier "success" ;;
          liftSys (Printf ("[SUCCESS] " ++ notifierType
                             ++ " notification sent" ++ newline)) ;;
          SendNotification_loop rest' domain daysRemaining
                                lastErr (successCount + 1)
      end
  end.

(** [SendNotification] *)
Definition SendNotification
    (s : NotifyService) (domain : Domain.t) (daysRemaining : Z)
  : State World (option error) :=
  r <- SendNotification_loop (notifiers s) domain daysRemaining None 0 ;;
  let (lastErr, successCount) := (r : option error * Z) in
  if (successCount >? 0) && notNil lastErr then
    ret None
  else
    ret lastErr.

(** *** Channel senders *)

(** [http.StatusOK] *)
Definition StatusOK : Z := 200.

(** [t.UnixMilli()]; the Unix epoch is 62135596800 s after the zero Time. *)
Definition UnixMilli (t : Time) : Z :=
  (t - 62135596800 * Second) / 1000000.

(** [EmailNotifier.Send] *)
Definition EmailNotifier_Send
    (config : EmailConfig.t) (domain : Domain.t) (daysRemaining : Z)
  : State Sys (option error) :=
  let subject :=
    "域名到期提醒：" ++ Domain.Name domain ++ " 还有 "
      ++ FormatInt daysRemaining ++ " 天到期" in
  let statusEmoji :=
    if daysRemaining <=? 7 then "🔴 紧急"
    else if daysRemaining <=? 30 then "🟡 警告"
    else "🟢 正常" in
  now <- Now ;;
  let body :=
    newline ++ "域名到期提醒" ++ newline ++ newline
      ++ "状态：" ++ statusEmoji ++ newline
      ++ "域名：" ++ Domain.Name domain ++ newline
      ++ "剩余天数：" ++ FormatInt daysRemaining ++ " 天" ++ newline
      ++ "到期日期："
      ++ time_Format env (Domain.ExpiryDate domain) "2006-01-02" ++ newline
      ++ "注册商：" ++ Domain.Registrar domain ++ newline
      ++ "域名状态：" ++ Domain.Status domain ++ newline
      ++ "最后检查：" ++ time_Format env now "2006-01-02 15:04:05"
      ++ newline ++ newline
      ++ "请及时续费以避免域名过期！" ++ newline in
  let message :=
    "From: " ++ EmailConfig.From config ++ crlf
      ++ "To: " ++ Join (EmailConfig.To config) "," ++ crlf
      ++ "Subject: " ++ subject ++ crlf
      ++ "Content-Type: text/plain; charset=UTF-8" ++ crlf
      ++ crlf
      ++ body in
  let auth :=
    (EmailConfig.From config, EmailConfig.Password config,
     EmailConfig.SMTPHost config) in
  let addr :=
    EmailConfig.SMTPHost config ++ ":"
      ++ FormatInt (EmailConfig.SMTPPort config) in
  let sent :=
    Printf ("[EMAIL] Successfully sent notification for domain "
              ++ Domain.Name domain ++ " to "
              ++ FormatStrings (EmailConfig.To config) ++ newline) ;;
    ret None in
  outbound (OutSendMail addr (EmailConfig.From config)
                        (EmailConfig.To config) message) ;;
  match smtp_SendMail env addr auth (EmailConfig.From config)
                      (EmailConfig.To config) message with
  | Some err =>
      let errMsg := Error err in
      if negb (Contains errMsg "short response") then
        ret (Some (Errorf_w "failed to send email: " err))
      else
        Printf ("[EMAIL] Email sent (ignoring 'short response' error "
                  ++ "from SMTP server)" ++ newline) ;;
        sent
  | None => sent
  end.

(** [WebhookNotifier.Send]; [json.Marshal] cannot fail on this payload. *)
Definition WebhookNotifier_Send
    (config : WebhookConfig.t) (domain : Domain.t) (daysRemaining : Z)
  : State Sys (option error) :=
  let payload :=
    JObject
      [ ("domain", JString (Domain.Name domain));
        ("days_remaining", JNumber daysRemaining);
        ("expiry_date",
          JString (time_Format env (Domain.ExpiryDate domain) "2006-01-02"));
        ("registrar", JString (Domain.Registrar domain));
        ("status", JString (Domain.Status domain)) ] in
  outbound (OutHttpPost DefaultClient (WebhookConfig.URL config)
                        "application/json" payload) ;;
  match http_Post env DefaultClient (WebhookConfig.URL config)
                  "application/json" payload with
  | inr err => ret (Some err)
  | inl resp =>
      if negb (StatusCode resp =? StatusOK) then
        ret (Some (errorString ("webhook returned status "
                                  ++ FormatInt (StatusCode resp))))
      else ret None
  end.

(** [TelegramNotifier.Send] *)
Definition TelegramNotifier_Send
    (config : TelegramConfig.t) (domain : Domain.t) (daysRemaining : Z)
  : State Sys (option error) :=
  let message :=
    "⚠️ 域名到期提醒" ++ newline ++ newline
      ++ "Domain: " ++ Domain.Name domain ++ newline
      ++ "剩余天数: " ++ FormatInt daysRemaining ++ newline
      ++ "到期日: "
      ++ time_Format env (Domain.ExpiryDate domain) "2006-01-02" ++ newline
      ++ "注册商: " ++ Domain.Registrar domain in
  let apiURL :=
    "https://api.telegram.org/bot" ++ TelegramConfig.BotToken config
      ++ "/sendMessage" in
  let payload :=
    JObject [ ("chat_id", JString (TelegramConfig.ChatID config));
              ("text", JString message) ] in
  client <-
    match proxy_SOCKS5 env "127.0.0.1:7890" with
    | Some err =>
        Printf ("[TELEGRAM] Failed to create SOCKS5 proxy: " ++ Error err
                  ++ newline) ;;
        ret (TimeoutClient (30 * Second))
    | None =>
        Printf ("[TELEGRAM] Using SOCKS5 proxy: 127.0.0.1:7890" ++ newline) ;;
        ret (Socks5Client (30 * Second) "127.0.0.1:7890")
    end ;;
  outbound (OutHttpPost client apiURL "application/json" payload) ;;
  match http_Post env client apiURL "application/json" payload with
  | inr err => ret (Some err)
  | inl resp =>
      if negb (StatusCode resp =? StatusOK) then
        ret (Some (errorString ("telegram API returned status "
                                  ++ FormatInt (StatusCode resp))))
      else ret None
  end.

(** [DingDingNotifier.generateSign] *)
Definition generateSign (timestamp secret : string) : string :=
  let stringToSign := timestamp ++ newline ++ secret in
  let h := hmac.New (bytes_of_string secret) in
  let h := hmac.Write h (bytes_of_string stringToSign) in
  base64.EncodeToString (hmac.Sum h []).

(** [DingDingNotifier.Send] *)
Definition DingDingNotifier_Send
    (config : DingDingConfig.t) (domain : Domain.t) (daysRemaining : Z)
  : State Sys (option error) :=
  let statusEmoji :=
    if daysRemaining <=? 7 then "🔴"
    else if daysRemaining <=? 30 then "🟡"
    else "🟢" in
  let message :=
    "## " ++ statusEmoji ++ " 域名到期提醒" ++ newline ++ newline
      ++ "**域名**: " ++ Domain.Name domain ++ newline ++ newline
      ++ "**剩余天数**: " ++ FormatInt daysRemaining ++ " 天"
      ++ newline ++ newline
      ++ "**到期日期**: "
      ++ time_Format env (Domain.ExpiryDate domain) "2006-01-02"
      ++ newline ++ newline
      ++ "**注册商**: " ++ Domain.Registrar domain ++ newline ++ newline
      ++ "**状态**: " ++ Domain.Status domain in
  let payload :=
    JObject
      [ ("msgtype", JString "markdown");
        ("markdown",
          JObject [ ("title", JString "域名到期提醒");
                    ("text", JString message) ]) ] in
  let post (webhookURL : string) : State Sys (option error) :=
    outbound (OutHttpPost DefaultClient webhookURL "application/json"
                          payload) ;;
    match http_Post env DefaultClient webhookURL "application/json"
                    payload with
    | inr err => ret (Some err)
    | inl resp =>
        if negb (StatusCode resp =? StatusOK) then
          ret (Some (errorString ("dingding webhook returned status "
                                    ++ FormatInt (StatusCode resp))))
        else
          match json_errcode env (Body resp) with
          | Some errmsg =>
              ret (Some (errorString ("dingding API error: " ++ errmsg)))
          | None => ret None
          end
    end in
  let webhookURL := DingDingConfig.Webhook config in
  if negb (DingDingConfig.Secret config =? "")%string then
    now <- Now ;;
    let timestamp := FormatInt (UnixMilli now) in
    let sign := generateSign timestamp (DingDingConfig.Secret config) in
    match url_Parse_Error env webhookURL with
    | Some err => ret (Some (Errorf_w "invalid webhook URL: " err))
    | None =>
        post (url_AddQuery env webhookURL
                           [("timestamp", timestamp); ("sign", sign)])
    end
  else post webhookURL.

(** The four senders as [Notifier] values. *)
Definition NewEmailNotifier (cfg : EmailConfig.t) : Notifier :=
  mkNotifier "*services.EmailNotifier" (EmailNotifier_Send cfg).
Definition NewWebhookNotifier (cfg : WebhookConfig.t) : Notifier :=
  mkNotifier "*services.WebhookNotifier" (WebhookNotifier_Send cfg).
Definition NewTelegramNotifier (cfg : TelegramConfig.t) : Notifier :=
  mkNotifier "*services.TelegramNotifier" (TelegramNotifier_Send cfg).
Definition NewDingDingNotifier (cfg : DingDingConfig.t) : Notifier :=
  mkNotifier "*services.DingDingNotifier" (DingDingNotifier_Send cfg).

(** [NewNotifyService] *)
Definition NewNotifyService (cfg : NotificationsConfig.t) : NotifyService :=
  let ns := [] in
  let ns :=
    if EmailConfig.Enabled (NotificationsConfig.Email cfg)
    then (ns ++ [NewEmailNotifier (NotificationsConfig.Email cfg)])%list
    else ns in
  let ns :=
    if WebhookConfig.Enabled (NotificationsConfig.Webhook cfg)
    then (ns ++ [NewWebhookNotifier (NotificationsConfig.Webhook cfg)])%list
    else ns in
  let ns :=
    if TelegramConfig.Enabled (NotificationsConfig.Telegram cfg)
    then (ns ++ [NewTelegramNotifier (NotificationsConfig.Telegram cfg)])%list
    else ns in
  let ns :=
    if DingDingConfig.Enabled (NotificationsConfig.DingDing cfg)
    then (ns ++ [NewDingDingNotifier (NotificationsConfig.DingDing cfg)])%list
    else ns in
  mkNotifyService ns.

(** *** [MonitorService] *)

(** The [whoisService] of the source is [QueryDomain env]. *)
Record MonitorService : Type := mkMonitorService {
  notifyService : option NotifyService;   (* nil when there is none *)
  alertDays : list Z
}.

(** The [for _, threshold := range s.alertDays] loop of
    [CheckAndNotify]. *)
Fixpoint CheckAndNotify_loop
    (ns : NotifyService) (thresholds : list Z) (domain : Domain.t)
  : State World unit :=
  match thresholds with
  | [] => ret tt
  | threshold :: rest =>
      if Domain.DaysRemaining domain =? threshold then
        log_Printf ("Sending notification for domain "
                      ++ Domain.Name domain ++ " ("
                      ++ FormatInt (Domain.DaysRemaining domain)
                      ++ " days remaining)") ;;
        r <- SendNotification ns domain threshold ;;
        match r with
        | Some err =>
            log_Printf ("Failed to send notification for "
                          ++ Domain.Name domain ++ ": " ++ Error err)
        | None => ret tt
        end
        (* break *)
      else CheckAndNotify_loop ns rest domain
  end.

(** [CheckAndNotify] *)
Definition CheckAndNotify (s : MonitorService) (domain : Domain.t)
  : State World unit :=
  match notifyService s with
  | None => ret tt
  | Some ns => CheckAndNotify_loop ns (alertDays s) domain
  end.

(** [CheckDomain]. The record is passed by pointer: the result carries
    the record as the call leaves it, with the returned error. *)
Definition CheckDomain (s : MonitorService) (domain : Domain.t)
  : State World (Domain.t * option error) :=
  match QueryDomain env (Domain.Name domain) with
  | inr err => ret (domain, Some (Errorf_w "WHOIS query failed: " err))
  | inl info =>
      let domain := Domain.set_Registrar (DomainInfo.Registrar info) domain in
      let domain := Domain.set_ExpiryDate (DomainInfo.ExpiryDate info) domain in
      let domain := Domain.set_CreatedDate (DomainInfo.CreatedDate info) domain in
      let domain := Domain.set_UpdatedDate (DomainInfo.UpdatedDate info) domain in
      let domain := Domain.set_Status (DomainInfo.Status info) domain in
      now <- liftSys Now ;;
      let domain := Domain.set_LastChecked now domain in
      domain <-
        (if negb (IsZero (DomainInfo.ExpiryDate info)) then
           d <- liftSys (Until (DomainInfo.ExpiryDate info)) ;;
           ret (Domain.set_DaysRemaining (days_of d) domain)
         else ret domain) ;;
      r <- db_Save domain ;;
      let domain := fst r in
      match snd r with
      | Some err =>
          ret (domain, Some (Errorf_w "failed to save domain: " err))
      | None =>
          log_Printf ("Updated domain " ++ Domain.Name domain ++ ": "
                        ++ FormatInt (Domain.DaysRemaining domain)
                        ++ " days remaining") ;;
          CheckAndNotify s domain ;;
          ret (domain, None)
      end
  end.

(** The [for _, domain := range domains] loop of [CheckAllDomains]. *)
Fixpoint CheckAllDomains_loop (s : MonitorService) (domains : list Domain.t)
  : State World unit :=
  match domains with
  | [] => ret tt
  | domain :: rest =>
      r <- CheckDomain s domain ;;
      match snd r with
      | Some err =>
          log_Printf ("Error checking domain " ++ Domain.Name (fst r)
                        ++ ": " ++ Error err)
      | None => ret tt
      end ;;
      CheckAllDomains_loop s rest
  end.

(** [CheckAllDomains] *)
Definition CheckAllDomains (s : MonitorService) : State World (option error) :=
  match db_FindActive env with
  | inr err => ret (Some (Errorf_w "failed to fetch domains: " err))
  | inl domains =>
      log_Printf ("Checking " ++ FormatInt (Z.of_nat (List.length domains))
                    ++ " domains...") ;;
      CheckAllDomains_loop s domains ;;
      ret None
  end.

(** [TriggerNotification] *)
Definition TriggerNotification (s : MonitorService) (domain : Domain.t)
  : State World (option error) :=
  match notifyService s with
  | None => ret (Some (errorString "notification service not available"))
  | Some ns =>
      log_Printf ("Triggering test notification for domain "
                    ++ Domain.Name domain ++ " ("
                    ++ FormatInt (Domain.DaysRemaining domain)
                    ++ " days remaining)") ;;
      SendNotification ns domain (Domain.DaysRemaining domain)
  end.

End Services.

(** ** The dispatch, as the specification words it

    One attempt per sender, in order, whatever the earlier attempts gave;
    after each attempt its record. [attempts] returns what each sender
    returned. The source's loop is compared with it below. *)

Definition status_of (r : option error) : string :=
  match r with
  | Some _ => "failed"
  | None => "success"
  end.

Definition attempt
    (env : Env) (notifier : Notifier) (domain : Domain.t) (daysRemaining : Z)
  : State World (option error) :=
  r <- liftSys (Send notifier domain daysRemaining) ;;
  match r with
  | Some err =>
      liftSys (Printf ("[ERROR] " ++ TypeName notifier
                         ++ " notification failed: " ++ Error err
                         ++ newline))
  | None => ret tt
  end ;;
  recordNotification env domain notifier (status_of r) ;;
  match r with
  | Some _ => ret tt
  | None =>
      liftSys (Printf ("[SUCCESS] " ++ TypeName notifier
                         ++ " notification sent" ++ newline))
  end ;;
  ret r.

Fixpoint attempts
    (env : Env) (ns : list Notifier) (domain : Domain.t) (daysRemaining : Z)
  : State World (list (option error)) :=
  match ns with
  | [] => ret []
  | notifier :: rest =>
      r <- attempt env notifier domain daysRemaining ;;
      rs <- attempts env rest domain daysRemaining ;;
      ret (r :: rs)
  end.

(** The last error among the results, [init] when there is none. *)
Definition last_error (init : option error) (rs : list (option error))
  : option error :=
  fold_left (fun acc r => match r with Some e => Some e | None => acc end)
            rs init.

(** The number of successes among the results. *)
Definition successes (rs : list (option error)) : Z :=
  Z.of_nat (List.length (filter (fun r => negb (notNil r)) rs)).

(** The content of an audit record for [domain], were it to report [days]
    days. *)
Definition audit_content (domain : Domain.t) (days : Z) : string :=
  "Domain " ++ Domain.Name domain ++ " expires in "
    ++ FormatInt days ++ " days".

(** The record [recordNotification] writes for [notifier], given the
    attempt's result and the clock reading. *)
Definition record_of
    (domain : Domain.t) (notifier : Notifier) (r : option error) (now : Time)
  : Notification.t :=
  Notification.mk
    0%N (Domain.ID domain) (TypeName notifier)
    ("Domain " ++ Domain.Name domain ++ " expires in "
       ++ FormatInt (Domain.DaysRemaining domain) ++ " days")
    (status_of r) now.

(** A sender for examples: its attempt is one call to the address [name],
    carrying the day count, and always gives [r]. *)
Definition probe_notifier (name : string) (r : option error) : Notifier :=
  mkNotifier name
    (fun _ daysRemaining =>
       outbound (OutHttpPost DefaultClient name "" (JNumber daysRemaining)) ;;
       ret r).

(** ** The monitor engine, as the specification words it *)


(** One dispatch from [CheckAndNotify]: its announcement in the log, the
    call of [SendNotification] with the threshold, and the failure of that
    call in the log. *)
Definition dispatch
    (env : Env) (ns : NotifyService) (domain : Domain.t) (threshold : Z)
  : State World unit :=
  log_Printf ("Sending notification for domain "
                ++ Domain.Name domain ++ " ("
                ++ FormatInt (Domain.DaysRemaining domain)
                ++ " days remaining)") ;;
  r <- SendNotification env ns domain threshold ;;
  match r with
  | Some err =>
      log_Printf ("Failed to send notification for "
                    ++ Domain.Name domain ++ ": " ++ Error err)
  | None => ret tt
  end.

(** The line that announces a dispatch for [domain] in the log. *)
Definition announcement (domain : Domain.t) : string :=
  "Sending notification for domain "
    ++ Domain.Name domain ++ " ("
    ++ FormatInt (Domain.DaysRemaining domain) ++ " days remaining)".

(** The log lines that announce a dispatch. *)
Definition announces_dispatch (line : string) : bool :=
  HasPrefix line "Sending notification for domain ".

(** The dispatches announced in the log since [w]. *)
Definition dispatches_since (w w' : World) : nat :=
  List.length
    (filter announces_dispatch (skipn (List.length (logged w)) (logged w'))).

(** [d'] carries the facts of [info], and what a check leaves alone of [d]. *)
Definition carries_facts (info : DomainInfo.t) (d d' : Domain.t) : Prop :=
  Domain.Registrar d' = DomainInfo.Registrar info /\
  Domain.ExpiryDate d' = DomainInfo.ExpiryDate info /\
  Domain.CreatedDate d' = DomainInfo.CreatedDate info /\
  Domain.UpdatedDate d' = DomainInfo.UpdatedDate info /\
  Domain.Status d' = DomainInfo.Status info /\
  Domain.ID d' = Domain.ID d /\
  Domain.Name d' = Domain.Name d /\
  Domain.Tags d' = Domain.Tags d /\
  Domain.IsActive d' = Domain.IsActive d.

(** [d'] holds what a check assigns from [info]. *)
Definition looked_up_facts (info : DomainInfo.t) (d' : Domain.t) : Prop :=
  Domain.Registrar d' = DomainInfo.Registrar info /\
  Domain.ExpiryDate d' = DomainInfo.ExpiryDate info /\
  Domain.CreatedDate d' = DomainInfo.CreatedDate info /\
  Domain.UpdatedDate d' = DomainInfo.UpdatedDate info /\
  Domain.Status d' = DomainInfo.Status info.

(** The record as a successful lookup leaves it: the facts of [info], the
    first clock reading as last-checked time and, unless the expiry is
    unset, the days until the expiry at the second clock reading. It is
    the record [CheckDomain] hands to [db.Save]. *)
Definition checked_record
    (env : Env) (info : DomainInfo.t) (domain : Domain.t) (w : World)
  : Domain.t :=
  let domain := Domain.set_Registrar (DomainInfo.Registrar info) domain in
  let domain := Domain.set_ExpiryDate (DomainInfo.ExpiryDate info) domain in
  let domain := Domain.set_CreatedDate (DomainInfo.CreatedDate info) domain in
  let domain := Domain.set_UpdatedDate (DomainInfo.UpdatedDate info) domain in
  let domain := Domain.set_Status (DomainInfo.Status info) domain in
  let domain :=
    Domain.set_LastChecked (clock env (ticks (sys w))) domain in
  if IsZero (DomainInfo.ExpiryDate info) then domain
  else
    Domain.set_DaysRemaining
      (days_of (Sub (DomainInfo.ExpiryDate info)
                    (clock env (S (ticks (sys w))))))
      domain.

(** [w'] holds the log and the saved rows of [w], and what came after. *)
Definition extends (w w' : World) : Prop :=
  (exists l, logged w' = (logged w ++ l)%list) /\
  (exists l, saved w' = (saved w ++ l)%list).

(** One turn of the batch: the check of one domain, and its failure in the
    log. *)
Definition check_and_log
    (env : Env) (s : MonitorService) (domain : Domain.t)
  : State World unit :=
  r <- CheckDomain env s domain ;;
  match snd r with
  | Some err =>
      log_Printf ("Error checking domain " ++ Domain.Name (fst r)
                    ++ ": " ++ Error err)
  | None => ret tt
  end.

(** ** Sample values, for the examples below *)

(** An outside world in which the clock stands at the zero Time, every
    lookup times out, and every other call goes through; the store leaves
    in a record what it finds there. *)
Definition sample_env : Env :=
  mkEnv (fun _ => 0)
        (fun _ _ => "")
        (fun _ => inr (errorString "timeout"))
        (inl [])
        (fun _ => None)
        (fun d =>
           Managed.mk (Domain.ID d) (Domain.IsActive d) (Domain.CreatedAt d)
                      (Domain.UpdatedAt d))
        (fun _ _ _ _ _ => None)
        (fun _ _ _ _ => inl (mkHttpResponse 200 ""))
        (fun _ => None)
        (fun _ => None)
        (fun rawURL _ => rawURL)
        (fun _ => None).

Definition sample_domain : Domain.t :=
  Domain.mk 1 "example.com" "" 0 0 0 "" 7 "" 0 true 0 0.

Definition empty_world : World := mkWorld (mkSys 0 [] []) [] [] [].

(** Two channels, both failing. *)
Definition failing_channels : NotifyService :=
  mkNotifyService
    [ probe_notifier "mail" (Some (errorString "mailbox full"));
      probe_notifier "hook" (Some (errorString "connection refused")) ].

(** Three channels, the second of which fails. *)
Definition three_channels : NotifyService :=
  mkNotifyService
    [ probe_notifier "mail" None;
      probe_notifier "hook" (Some (errorString "connection refused"));
      probe_notifier "bot" None ].

Definition sample_monitor : MonitorService :=
  mkMonitorService (Some three_channels) [30; 7; 1].

(** Facts with an unset expiry. *)
Definition sample_info : DomainInfo.t :=
  DomainInfo.mk "example.com" "Example Registrar" 0 0 0 "ok" [] "{}".

(** [sample_env], with lookups answered by [answer]. *)
Definition env_with_lookup (answer : string -> DomainInfo.t + error) : Env :=
  mkEnv (clock sample_env) (time_Format sample_env) answer
        (db_FindActive sample_env) (db_Save_Error sample_env)
        (db_Save_writes sample_env)
        (smtp_SendMail sample_env) (http_Post sample_env)
        (proxy_SOCKS5 sample_env) (url_Parse_Error sample_env)
        (url_AddQuery sample_env) (json_errcode sample_env).

(** [sample_env] with lookups that succeed, over a store that stamps
    every record it is handed with the time of the update, one day after
    the zero Time, and leaves the other fields it manages as they are. *)
Definition stamping_env : Env :=
  mkEnv (clock sample_env) (time_Format sample_env)
        (fun _ => inl sample_info)
        (db_FindActive sample_env) (db_Save_Error sample_env)
        (fun d =>
           Managed.mk (Domain.ID d) (Domain.IsActive d) (Domain.CreatedAt d)
                      (86400 * Second))
        (smtp_SendMail sample_env) (http_Post sample_env)
        (proxy_SOCKS5 sample_env) (url_Parse_Error sample_env)
        (url_AddQuery sample_env) (json_errcode sample_env).

(** A batch of five active domains; the lookup of the third one fails. *)
Definition batch_domain (id : N) (name : string) : Domain.t :=
  Domain.mk id name "" 0 0 0 "" 0 "" 0 true 0 0.

Definition batch : list Domain.t :=
  [ batch_domain 1 "one.example"; batch_domain 2 "two.example";
    batch_domain 3 "three.example"; batch_domain 4 "four.example";
    batch_domain 5 "five.example" ].

Definition batch_env : Env :=
  mkEnv (clock sample_env) (time_Format sample_env)
        (fun name =>
           if (name =? "three.example")%string
           then inr (errorString "timeout")
           else inl sample_info)
        (inl batch) (db_Save_Error sample_env)
        (db_Save_writes sample_env)
        (smtp_SendMail sample_env) (http_Post sample_env)
        (proxy_SOCKS5 sample_env) (url_Parse_Error sample_env)
        (url_AddQuery sample_env) (json_errcode sample_env).

Definition sample_email : EmailConfig.t :=
  EmailConfig.mk true "smtp.example" 465 "monitor@example" "secret"
                 ["ops@example"].

(** [sample_env], with every SMTP call answered by [answer]. *)
Definition env_with_smtp (answer : option error) : Env :=
  mkEnv (clock sample_env) (time_Format sample_env) (QueryDomain sample_env)
        (db_FindActive sample_env) (db_Save_Error sample_env)
        (db_Save_writes sample_env)
        (fun _ _ _ _ _ => answer) (http_Post sample_env)
        (proxy_SOCKS5 sample_env) (url_Parse_Error sample_env)
        (url_AddQuery sample_env) (json_errcode sample_env).

Definition sample_webhook : WebhookConfig.t :=
  WebhookConfig.mk true "https://hooks.example/notify".



(** ** The batch, seen from its log and its rows *)

(** The log lines with which the batch reports a failed check. *)
Definition reports_failed_check (line : string) : bool :=
  HasPrefix line "Error checking domain ".

(** Whether the lookup of a domain's name succeeds. *)
Definition lookup_succeeds (env : Env) (d : Domain.t) : bool :=
  match QueryDomain env (Domain.Name d) with
  | inl _ => true
  | inr _ => false
  end.


(** ** The urgency of a day count, as the senders show it *)

Inductive Urgency : Type := Critical | Warning | Normal.

Definition urgency_of (daysRemaining : Z) : Urgency :=
  if daysRemaining <=? 7 then Critical
  else if daysRemaining <=? 30 then Warning
  else Normal.

(** The status line of the mail and the mark in the DingTalk title. *)
Definition mail_status (u : Urgency) : string :=
  match u with
  | Critical => "🔴 紧急"
  | Warning => "🟡 警告"
  | Normal => "🟢 正常"
  end.

Definition dingtalk_mark (u : Urgency) : string :=
  match u with
  | Critical => "🔴"
  | Warning => "🟡"
  | Normal => "🟢"
  end.

(** ** [internal/services/whois.go]: the WHOIS lookup

    [Env] holds the lookup as one answer per name; this is the service
    that gives those answers, over what the HTTP API, [encoding/json] and
    [time.Parse] answer. *)

(** A value [encoding/json] decodes into an [interface{}]: nil, [bool],
    [float64], [string], [[]interface{}] or [map[string]interface{}]. A map
    is the list of its entries, each key once. *)
Inductive jsonValue : Type :=
| VNull
| VBool (b : bool)
| VNumber (f : float)
| VString (s : string)
| VArray (elems : list jsonValue)
| VObject (entries : list (string * jsonValue)).

(** [m[key]], nil when the key is absent *)
Fixpoint map_index (m : list (string * jsonValue)) (key : string)
  : jsonValue :=
  match m with
  | [] => VNull
  | (k, v) :: rest => if (k =? key)%string then v else map_index rest key
  end.

(** The type assertions [v.(string)], [v.([]interface{})] and
    [v.(map[string]interface{})], with their [ok]. *)
Definition assert_string (v : jsonValue) : option string :=
  match v with
  | VString s => Some s
  | _ => None
  end.

Definition assert_array (v : jsonValue) : option (list jsonValue) :=
  match v with
  | VArray elems => Some elems
  | _ => None
  end.

Definition assert_map (v : jsonValue) : option (list (string * jsonValue)) :=
  match v with
  | VObject entries => Some entries
  | _ => None
  end.

(** The anonymous struct [apiResponse] of [QueryDomain]; [Data] is nil when
    the document has no data or a null one. *)
Record ApiResponse : Type := mkApiResponse {
  Code : Z;
  Msg : string;
  Data : option (list (string * jsonValue))
}.

Record WhoisService : Type := mkWhoisService {
  APIURL : string;
  Timeout : Duration
}.

(** [NewWhoisService] *)
Definition NewWhoisService (apiURL : string) (timeout : Duration)
  : WhoisService :=
  mkWhoisService apiURL timeout.

(** What the outside world answers to a lookup. *)
Record WhoisEnv : Type := mkWhoisEnv {
  (** [url.Parse(rawURL)]: its error *)
  api_url_Parse_Error : string -> option error;
  (** the URL [rawURL] with [RawQuery] set to the encoding of the
      parameters, as [String()] prints it *)
  url_SetQuery : string -> list (string * string) -> string;
  (** [(&http.Client{Timeout: timeout}).Get(url)] *)
  http_Get : Duration -> string -> HttpResponse + error;
  (** [json.NewDecoder(body).Decode(&apiResponse)] *)
  json_Decode : string -> ApiResponse + error;
  (** [json.Marshal(result)] *)
  json_Marshal : list (string * jsonValue) -> string + error;
  (** [time.Parse(layout, value)] *)
  time_Parse : string -> string -> Time + error
}.

(** [time.RFC3339] *)
Definition RFC3339 : string := "2006-01-02T15:04:05Z07:00".

Section Whois.

Variable wenv : WhoisEnv.

(** The [for _, format := range formats] loop of [parseDate]. *)
Fixpoint parseDate_loop (formats : list string) (dateStr : string)
  : Time * option error :=
  match formats with
  | [] => (0, Some (errorString ("unable to parse date: " ++ dateStr)))
  | format :: rest =>
      match time_Parse wenv format dateStr with
      | inl t => (t, None)
      | inr _ => parseDate_loop rest dateStr
      end
  end.

(** [parseDate] *)
Definition parseDate (dateStr : string) : Time * option error :=
  let formats :=
    [ RFC3339;
      "2006-01-02T15:04:05Z";
      "2006-01-02 15:04:05";
      "2006-01-02" ] in
  parseDate_loop formats dateStr.

(** [if s, ok := result[key].(string); ok { if t, err := parseDate(s);
    err == nil { field = t } }], for a [field] that holds the zero Time. *)
Definition date_field (result : list (string * jsonValue)) (key : string)
  : Time :=
  match assert_string (map_index result key) with
  | Some dateStr =>
      match parseDate dateStr with
      | (t, None) => t
      | (_, Some _) => 0
      end
  | None => 0
  end.

(** The [for _, ns := range nameServers] loop of [QueryDomain]. *)
Fixpoint nameServers_loop (nameServers : list jsonValue) (acc : list string)
  : list string :=
  match nameServers with
  | [] => acc
  | ns :: rest =>
      match assert_string ns with
      | Some nsStr => nameServers_loop rest (acc ++ [nsStr])%list
      | None => nameServers_loop rest acc
      end
  end.

(** [WhoisService.QueryDomain] *)
Definition WhoisService_QueryDomain (s : WhoisService) (domain : string)
  : DomainInfo.t + error :=
  match api_url_Parse_Error wenv (APIURL s) with
  | Some err => inr (Errorf_w "invalid API URL: " err)
  | None =>
      let apiURL := url_SetQuery wenv (APIURL s) [("domain", domain)] in
      match http_Get wenv (Timeout s) apiURL with
      | inr err => inr (Errorf_w "failed to query WHOIS: " err)
      | inl resp =>
          if negb (StatusCode resp =? StatusOK) then
            inr (errorString ("WHOIS API returned status "
                                ++ FormatInt (StatusCode resp)))
          else
            match json_Decode wenv (Body resp) with
            | inr err => inr (Errorf_w "failed to parse WHOIS response: " err)
            | inl apiResponse =>
                if negb (Code apiResponse =? 0) then
                  inr (errorString ("WHOIS API error: " ++ Msg apiResponse))
                else
                  match Data apiResponse with
                  | None => inr (errorString "no data in WHOIS response")
                  | Some result =>
                      let registrar :=
                        match assert_string (map_index result "registrar") with
                        | Some registrar => registrar
                        | None => ""
                        end in
                      let status :=
                        match assert_array (map_index result "status") with
                        | Some (first :: _) =>
                            match assert_map first with
                            | Some statusObj =>
                                match assert_string
                                        (map_index statusObj "text") with
                                | Some statusText => statusText
                                | None => ""
                                end
                            | None => ""
                            end
                        | _ => ""
                        end in
                      let expiryDate := date_field result "expirationDate" in
                      let createdDate := date_field result "creationDate" in
                      let updatedDate := date_field result "updatedDate" in
                      let nameServers :=
                        match assert_array (map_index result "nameServers") with
                        | Some nameServers => nameServers_loop nameServers []
                        | None => []
                        end in
                      let rawData :=
                        match json_Marshal wenv result with
                        | inl rawData => rawData
                        | inr _ => ""
                        end in
                      inl (DomainInfo.mk domain registrar expiryDate
                                         createdDate updatedDate status
                                         nameServers rawData)
                  end
            end
      end
  end.

End Whois.

(** [env], its lookups being those of the WHOIS service [s] over [wenv]:
    the [whoisService] a [MonitorService] is built with. *)
Definition with_whois (env : Env) (wenv : WhoisEnv) (s : WhoisService) : Env :=
  mkEnv (clock env) (time_Format env) (WhoisService_QueryDomain wenv s)
        (db_FindActive env) (db_Save_Error env)
        (db_Save_writes env)
        (smtp_SendMail env) (http_Post env)
        (proxy_SOCKS5 env) (url_Parse_Error env)
        (url_AddQuery env) (json_errcode env).

(** The strings among decoded values, in order. *)
Definition strings_of (vs : list jsonValue) : list string :=
  flat_map (fun v => match v with VString s => [s] | _ => [] end) vs.

(** Whether the answer of the API is one [QueryDomain] takes facts from:
    status 200, a body that decodes, code 0 and data. *)
Definition envelope_ok (wenv : WhoisEnv) (s : WhoisService) (domain : string)
  : bool :=
  match api_url_Parse_Error wenv (APIURL s) with
  | Some _ => false
  | None =>
      match http_Get wenv (Timeout s)
                     (url_SetQuery wenv (APIURL s) [("domain", domain)]) with
      | inr _ => false
      | inl resp =>
          (StatusCode resp =? 200) &&
          match json_Decode wenv (Body resp) with
          | inr _ => false
          | inl apiResponse =>
              (Code apiResponse =? 0) &&
              match Data apiResponse with
              | Some _ => true
              | None => false
              end
          end
      end
  end.

(** The layouts [parseDate] tries, in its order. *)
Definition date_layouts : list string :=
  [ RFC3339; "2006-01-02T15:04:05Z"; "2006-01-02 15:04:05"; "2006-01-02" ].

(** Whether [time.Parse] accepts [dateStr] under [layout]. *)
Definition accepted_by (wenv : WhoisEnv) (dateStr layout : string) : bool :=
  match time_Parse wenv layout dateStr with
  | inl _ => true
  | inr _ => false
  end.

(** [t] is what a date field holding [v] reads as: the parse of a string
    under the first layout that accepts it, the zero Time otherwise. *)
Definition date_read (wenv : WhoisEnv) (v : jsonValue) (t : Time) : Prop :=
  match v with
  | VString dateStr =>
      match find (accepted_by wenv dateStr) date_layouts with
      | Some layout => time_Parse wenv layout dateStr = inl t
      | None => t = 0
      end
  | _ => t = 0
  end.

(** An API that answers every query with the same facts; [time.Parse]
    reads one date, 1 January 2030, in the date-only layout. *)
Definition sample_data : list (string * jsonValue) :=
  [ ("registrar", VString "Example Registrar");
    ("status",
      VArray [ VObject [("text", VString "clientTransferProhibited")];
               VObject [("text", VString "ok")] ]);
    ("expirationDate", VString "2030-01-01");
    ("creationDate", VString "n/a");
    ("nameServers",
      VArray [VString "ns1.example"; VNull; VString "ns2.example"]) ].

Definition whois_env_with_data (data : list (string * jsonValue)) : WhoisEnv :=
  mkWhoisEnv
    (fun _ => None)
    (fun rawURL params =>
       rawURL ++ "?"
         ++ Join (map (fun p => fst p ++ "=" ++ snd p) params) "&")
    (fun _ _ => inl (mkHttpResponse 200 ""))
    (fun _ => inl (mkApiResponse 0 "success" (Some data)))
    (fun _ => inl "{}")
    (fun layout value =>
       if ((layout =? "2006-01-02") && (value =? "2030-01-01"))%string
       then inl (741077 * 24 * Hour)
       else inr (errorString "parsing time: cannot parse")).

Definition sample_whois : WhoisService :=
  NewWhoisService "https://whois.example/api" (30 * Second).

(** ** Go's standard library: [strings] and [strconv] *)

(** [strings.Split(s, sep)] for a non-empty [sep]: [s] is cut at each
    occurrence of [sep], from the left and without overlap. [skip] counts
    the bytes of an occurrence still to pass, [piece] is the piece being
    read. *)
Fixpoint Split_from (s sep : string) (skip : nat) (piece : string)
  : list string :=
  match s with
  | EmptyString => [piece]
  | String c s' =>
      match skip with
      | S skip' => Split_from s' sep skip' piece
      | O =>
          if HasPrefix s sep
          then piece :: Split_from s' sep (String.length sep - 1) ""
          else Split_from s' sep 0 (piece ++ String c "")
      end
  end.

Definition Split (s sep : string) : list string := Split_from s sep 0 "".

(** The bytes [strings.TrimSpace] takes for white space: the six ASCII
    ones and the UTF-8 encodings of the other runes of [unicode.IsSpace]
    (U+0085, U+00A0, U+1680, U+2000 to U+200A, U+2028, U+2029, U+202F,
    U+205F, U+3000). *)
Definition asciiSpace (c : ascii) : bool :=
  let b := N_of_ascii c in
  ((9 <=? b) && (b <=? 13) || (b =? 32))%N.

Definition space2 (c1 c2 : ascii) : bool :=
  let b1 := N_of_ascii c1 in
  let b2 := N_of_ascii c2 in
  ((b1 =? 0xC2) && ((b2 =? 0x85) || (b2 =? 0xA0)))%N.

Definition space3 (c1 c2 c3 : ascii) : bool :=
  let b1 := N_of_ascii c1 in
  let b2 := N_of_ascii c2 in
  let b3 := N_of_ascii c3 in
  ((b1 =? 0xE1) && (b2 =? 0x9A) && (b3 =? 0x80)
   || (b1 =? 0xE2) && (b2 =? 0x80)
      && ((0x80 <=? b3) && (b3 <=? 0x8A)
          || (b3 =? 0xA8) || (b3 =? 0xA9) || (b3 =? 0xAF))
   || (b1 =? 0xE2) && (b2 =? 0x81) && (b3 =? 0x9F)
   || (b1 =? 0xE3) && (b2 =? 0x80) && (b3 =? 0x80))%N.

(** The bytes left once the white space runes at the head are dropped.
    A byte that begins no white space rune stops the scan (a malformed
    sequence decodes to U+FFFD, which is no white space). *)
Fixpoint trim_head (l : list ascii) : list ascii :=
  match l with
  | [] => []
  | c1 :: l1 =>
      if asciiSpace c1 then trim_head l1
      else
        match l1 with
        | c2 :: l2 =>
            if space2 c1 c2 then trim_head l2
            else
              match l2 with
              | c3 :: l3 => if space3 c1 c2 c3 then trim_head l3 else l
              | [] => l
              end
        | [] => l
        end
  end.

(** The same from the end, over the bytes in reverse order. *)
Fixpoint trim_tail_rev (l : list ascii) : list ascii :=
  match l with
  | [] => []
  | c1 :: l1 =>
      if asciiSpace c1 then trim_tail_rev l1
      else
        match l1 with
        | c2 :: l2 =>
            if space2 c2 c1 then trim_tail_rev l2
            else
              match l2 with
              | c3 :: l3 => if space3 c3 c2 c1 then trim_tail_rev l3 else l
              | [] => l
              end
        | [] => l
        end
  end.

(** [strings.TrimSpace(s)] *)
Definition TrimSpace (s : string) : string :=
  string_of_list_ascii
    (rev (trim_tail_rev (rev (trim_head (list_ascii_of_string s))))).

(** The range of [int] on a 64-bit platform. *)
Definition minInt : Z := - 9223372036854775808.
Definition maxInt : Z := 9223372036854775807.

(** [strconv.Atoi(s)], [None] standing for its error (the callers read no
    more of it than [err == nil]): an optional sign, then decimal digits,
    at least one, and a value in the range of [int]. *)
Definition Atoi (s : string) : option Z :=
  let parsed :=
    match s with
    | String "+"%char digits =>
        option_map Decimal.Pos (NilZero.uint_of_string digits)
    | _ => NilZero.int_of_string s
    end in
  match parsed with
  | Some d =>
      let n := Z.of_int d in
      if (minInt <=? n) && (n <=? maxInt) then Some n else None
  | None => None
  end.

(** [strconv.ParseUint(s, 10, 32)], [None] standing for its error:
    decimal digits, at least one, no sign, and a value below 2^32. *)
Definition ParseUint32 (s : string) : option Z :=
  match NilZero.uint_of_string s with
  | Some d =>
      let n := Z.of_uint d in
      if n <=? 4294967295 then Some n else None
  | None => None
  end.

(** ** [internal/models] and [internal/config], the rest *)

Module Setting.
Record t : Type := mk { Key : string; Value : string }.
End Setting.

Module ServerConfig.
Record t : Type := mk { Port : string; Mode : string }.
End ServerConfig.

Module DatabaseConfig.
Record t : Type := mk {
  Type_ : string;            (* the field [Type] *)
  Path : string;
  Host : string;
  Port : Z;
  User : string;
  Password : string;
  DBName : string
}.
End DatabaseConfig.

Module WhoisConfig.
Record t : Type := mk { APIURL : string; Timeout : string }.
End WhoisConfig.

Module MonitorConfig.
Record t : Type := mk { CheckInterval : string; AlertDays : list Z }.
End MonitorConfig.

Module Config.
Record t : Type := mk {
  Server : ServerConfig.t;
  Database : DatabaseConfig.t;
  Whois : WhoisConfig.t;
  Monitor : MonitorConfig.t;
  Notifications : NotificationsConfig.t
}.

(** Assignments [cfg.Monitor.F = v] and [cfg.Notifications.C.F = v]. *)
Definition set_Monitor (v : MonitorConfig.t) (cfg : t) : t :=
  mk (Server cfg) (Database cfg) (Whois cfg) v (Notifications cfg).
Definition set_Notifications (v : NotificationsConfig.t) (cfg : t) : t :=
  mk (Server cfg) (Database cfg) (Whois cfg) (Monitor cfg) v.

Definition set_CheckInterval (v : string) (cfg : t) : t :=
  set_Monitor (MonitorConfig.mk v (MonitorConfig.AlertDays (Monitor cfg))) cfg.
Definition set_AlertDays (v : list Z) (cfg : t) : t :=
  set_Monitor (MonitorConfig.mk (MonitorConfig.CheckInterval (Monitor cfg)) v)
              cfg.

Definition set_Email (v : EmailConfig.t) (cfg : t) : t :=
  let n := Notifications cfg in
  set_Notifications
    (NotificationsConfig.mk v (NotificationsConfig.Webhook n)
                            (NotificationsConfig.Telegram n)
                            (NotificationsConfig.DingDing n)) cfg.
Definition set_Webhook (v : WebhookConfig.t) (cfg : t) : t :=
  let n := Notifications cfg in
  set_Notifications
    (NotificationsConfig.mk (NotificationsConfig.Email n) v
                            (NotificationsConfig.Telegram n)
                            (NotificationsConfig.DingDing n)) cfg.
Definition set_Telegram (v : TelegramConfig.t) (cfg : t) : t :=
  let n := Notifications cfg in
  set_Notifications
    (NotificationsConfig.mk (NotificationsConfig.Email n)
                            (NotificationsConfig.Webhook n) v
                            (NotificationsConfig.DingDing n)) cfg.
Definition set_DingDing (v : DingDingConfig.t) (cfg : t) : t :=
  let n := Notifications cfg in
  set_Notifications
    (NotificationsConfig.mk (NotificationsConfig.Email n)
                            (NotificationsConfig.Webhook n)
                            (NotificationsConfig.Telegram n) v) cfg.

Definition Email (cfg : t) : EmailConfig.t :=
  NotificationsConfig.Email (Notifications cfg).
Definition Webhook (cfg : t) : WebhookConfig.t :=
  NotificationsConfig.Webhook (Notifications cfg).
Definition Telegram (cfg : t) : TelegramConfig.t :=
  NotificationsConfig.Telegram (Notifications cfg).
Definition DingDing (cfg : t) : DingDingConfig.t :=
  NotificationsConfig.DingDing (Notifications cfg).
End Config.

(** ** [cmd/server]: the settings of the database over the configuration *)

(** A [map[string]string]: [m key] is [Some val] when the key is there. *)
Definition StringMap : Type := string -> option string.

(** [make(map[string]string)] and [m[key] = val] *)
Definition make_map : StringMap := fun _ => None.

Definition map_set (m : StringMap) (key val : string) : StringMap :=
  fun k => if (k =? key)%string then Some val else m k.

(** The [for _, s := range settings] loop of [loadSettingsFromDB], from
    an empty map: a later row of the same key replaces the earlier one. *)
Definition settings_map (settings : list Setting.t) : StringMap :=
  fold_left (fun m s => map_set m (Setting.Key s) (Setting.Value s))
            settings make_map.

(** [if val, ok := settingsMap[key]; ok { assign }] *)
Definition if_set
    (settingsMap : StringMap) (key : string)
    (assign : string -> Config.t -> Config.t) (cfg : Config.t)
  : Config.t :=
  match settingsMap key with
  | Some val => assign val cfg
  | None => cfg
  end.

(** The [for _, d := range strings.Split(val, ",")] loop of
    [loadSettingsFromDB]. *)
Fixpoint alert_days_loop (pieces : list string) (days : list Z) : list Z :=
  match pieces with
  | [] => days
  | d :: rest =>
      match Atoi (TrimSpace d) with
      | Some day => alert_days_loop rest (days ++ [day])%list
      | None => alert_days_loop rest days
      end
  end.

(** [loadSettingsFromDB]. [db] is the store as the function finds it:
    [None] when [database.GetDB()] is nil, else what
    [db.Find(&settings)] gives. *)
Definition loadSettingsFromDB
    (db : option (list Setting.t + error)) (cfg : Config.t)
  : State World Config.t :=
  match db with
  | None => ret cfg
  | Some (inr err) =>
      log_Printf ("Warning: Failed to load settings from database: "
                    ++ Error err) ;;
      ret cfg
  | Some (inl settings) =>
      let settingsMap := settings_map settings in
      let cfg :=
        if_set settingsMap "monitor.check_interval"
          (fun val cfg =>
             if negb (val =? "")%string then Config.set_CheckInterval val cfg
             else cfg) cfg in
      let cfg :=
        if_set settingsMap "monitor.alert_days"
          (fun val cfg =>
             if negb (val =? "")%string then
               let days := alert_days_loop (Split val ",") [] in
               if Z.of_nat (List.length days) >? 0
               then Config.set_AlertDays days cfg
               else cfg
             else cfg) cfg in
      let cfg :=
        if_set settingsMap "email.enabled"
          (fun val cfg =>
             let e := Config.Email cfg in
             Config.set_Email
               (EmailConfig.mk (val =? "true")%string (EmailConfig.SMTPHost e)
                               (EmailConfig.SMTPPort e) (EmailConfig.From e)
                               (EmailConfig.Password e) (EmailConfig.To e))
               cfg) cfg in
      let cfg :=
        if_set settingsMap "email.smtp_host"
          (fun val cfg =>
             let e := Config.Email cfg in
             Config.set_Email
               (EmailConfig.mk (EmailConfig.Enabled e) val
                               (EmailConfig.SMTPPort e) (EmailConfig.From e)
                               (EmailConfig.Password e) (EmailConfig.To e))
               cfg) cfg in
      let cfg :=
        if_set settingsMap "email.smtp_port"
          (fun val cfg =>
             match Atoi val with
             | Some port =>
                 let e := Config.Email cfg in
                 Config.set_Email
                   (EmailConfig.mk (EmailConfig.Enabled e)
                                   (EmailConfig.SMTPHost e) port
                                   (EmailConfig.From e)
                                   (EmailConfig.Password e) (EmailConfig.To e))
                   cfg
             | None => cfg
             end) cfg in
      let cfg :=
        if_set settingsMap "email.from"
          (fun val cfg =>
             let e := Config.Email cfg in
             Config.set_Email
               (EmailConfig.mk (EmailConfig.Enabled e) (EmailConfig.SMTPHost e)
                               (EmailConfig.SMTPPort e) val
                               (EmailConfig.Password e) (EmailConfig.To e))
               cfg) cfg in
      let cfg :=
        if_set settingsMap "email.password"
          (fun val cfg =>
             let e := Config.Email cfg in
             Config.set_Email
               (EmailConfig.mk (EmailConfig.Enabled e) (EmailConfig.SMTPHost e)
                               (EmailConfig.SMTPPort e) (EmailConfig.From e)
                               val (EmailConfig.To e))
               cfg) cfg in
      let cfg :=
        if_set settingsMap "email.to"
          (fun val cfg =>
             if negb (val =? "")%string then
               let e := Config.Email cfg in
               Config.set_Email
                 (EmailConfig.mk (EmailConfig.Enabled e)
                                 (EmailConfig.SMTPHost e)
                                 (EmailConfig.SMTPPort e) (EmailConfig.From e)
                                 (EmailConfig.Password e) (Split val ","))
                 cfg
             else cfg) cfg in
      let cfg :=
        if_set settingsMap "webhook.enabled"
          (fun val cfg =>
             Config.set_Webhook
               (WebhookConfig.mk (val =? "true")%string
                                 (WebhookConfig.URL (Config.Webhook cfg)))
               cfg) cfg in
      let cfg :=
        if_set settingsMap "webhook.url"
          (fun val cfg =>
             Config.set_Webhook
               (WebhookConfig.mk (WebhookConfig.Enabled (Config.Webhook cfg))
                                 val)
               cfg) cfg in
      let cfg :=
        if_set settingsMap "telegram.enabled"
          (fun val cfg =>
             let t := Config.Telegram cfg in
             Config.set_Telegram
               (TelegramConfig.mk (val =? "true")%string
                                  (TelegramConfig.BotToken t)
                                  (TelegramConfig.ChatID t))
               cfg) cfg in
      let cfg :=
        if_set settingsMap "telegram.bot_token"
          (fun val cfg =>
             let t := Config.Telegram cfg in
             Config.set_Telegram
               (TelegramConfig.mk (TelegramConfig.Enabled t) val
                                  (TelegramConfig.ChatID t))
               cfg) cfg in
      let cfg :=
        if_set settingsMap "telegram.chat_id"
          (fun val cfg =>
             let t := Config.Telegram cfg in
             Config.set_Telegram
               (TelegramConfig.mk (TelegramConfig.Enabled t)
                                  (TelegramConfig.BotToken t) val)
               cfg) cfg in
      let cfg :=
        if_set settingsMap "dingding.enabled"
          (fun val cfg =>
             let d := Config.DingDing cfg in
             Config.set_DingDing
               (DingDingConfig.mk (val =? "true")%string
                                  (DingDingConfig.Webhook d)
                                  (DingDingConfig.Secret d))
               cfg) cfg in
      let cfg :=
        if_set settingsMap "dingding.webhook"
          (fun val cfg =>
             let d := Config.DingDing cfg in
             Config.set_DingDing
               (DingDingConfig.mk (DingDingConfig.Enabled d) val
                                  (DingDingConfig.Secret d))
               cfg) cfg in
      let cfg :=
        if_set settingsMap "dingding.secret"
          (fun val cfg =>
             let d := Config.DingDing cfg in
             Config.set_DingDing
               (DingDingConfig.mk (DingDingConfig.Enabled d)
                                  (DingDingConfig.Webhook d) val)
               cfg) cfg in
      log_Printf "Settings loaded from database and applied to configuration" ;;
      ret cfg
  end.

(** [k] spaces. *)
Fixpoint spaces (k : nat) : string :=
  match k with
  | O => ""
  | S k' => String " " (spaces k')
  end.

(** One entry of an alert-days setting: the day in decimal, with spaces
    before and after it. *)
Definition alert_day_entry (item : nat * Z * nat) : string :=
  spaces (fst (fst item)) ++ FormatInt (snd (fst item)) ++ spaces (snd item).

(** The bytes [FormatInt] prints: the digits and the minus sign. *)
Definition printed_byte (c : ascii) : Prop :=
  In c (list_ascii_of_string "-0123456789").

(** A configuration file with mail and webhook enabled. *)
Definition sample_config : Config.t :=
  Config.mk
    (ServerConfig.mk "8080" "release")
    (DatabaseConfig.mk "sqlite" "data/domains.db" "" 0 "" "" "")
    (WhoisConfig.mk "https://whois.example/api" "30s")
    (MonitorConfig.mk "0 9 * * *" [30; 7; 1])
    (NotificationsConfig.mk
       sample_email sample_webhook
       (TelegramConfig.mk false "" "")
       (DingDingConfig.mk false "" "")).

(** ** [internal/scheduler]: the scheduled job *)

(** The function [Scheduler.Start] hands to [cron.AddFunc]. *)
Definition Scheduler_job (env : Env) (s : MonitorService) : State World unit :=
  log_Printf "Starting scheduled domain check..." ;;
  r <- CheckAllDomains env s ;;
  match r with
  | Some err => log_Printf ("Scheduled check failed: " ++ Error err)
  | None => ret tt
  end ;;
  log_Printf "Scheduled domain check completed".

(** The lines the monitor writes to the log while it checks a batch. *)
Definition monitor_line (line : string) : bool :=
  HasPrefix line "Updated domain "
  || HasPrefix line "Sending notification for domain "
  || HasPrefix line "Failed to send notification for "
  || HasPrefix line "Error checking domain ".

(** ** [internal/api]: the handlers that run a check or a dispatch *)

(** What a handler gives to [c.JSON]: [gin.H{"error": msg}],
    [gin.H{"message": msg}] or a domain record. *)
Inductive ResponseBody : Type :=
| H_error (msg : string)
| H_message (msg : string)
| DomainBody (domain : Domain.t).

Record Response : Type := mkResponse {
  status : Z;
  body : ResponseBody
}.

Section Handlers.

Variable env : Env.

(** [db.First(&domain, id)]: the record, or the error *)
Variable db_First : Z -> Domain.t + error.

(** The [monitorService] of the [Handler]. *)
Variable monitorService : MonitorService.

(** [Handler.RefreshDomain], from [c.Param("id")] *)
Definition RefreshDomain (id_param : string) : State World Response :=
  match ParseUint32 id_param with
  | None => ret (mkResponse 400 (H_error "Invalid domain ID"))
  | Some id =>
      match db_First id with
      | inr _ => ret (mkResponse 404 (H_error "Domain not found"))
      | inl domain =>
          r <- CheckDomain env monitorService domain ;;
          match snd r with
          | Some err => ret (mkResponse 500 (H_error (Error err)))
          | None => ret (mkResponse 200 (DomainBody (fst r)))
          end
      end
  end.

(** [Handler.TestNotification], from [c.Param("id")] *)
Definition TestNotification (id_param : string) : State World Response :=
  match ParseUint32 id_param with
  | None => ret (mkResponse 400 (H_error "Invalid domain ID"))
  | Some id =>
      match db_First id with
      | inr _ => ret (mkResponse 404 (H_error "Domain not found"))
      | inl domain =>
          r <- TriggerNotification env monitorService domain ;;
          match r with
          | Some err => ret (mkResponse 500 (H_error (Error err)))
          | None =>
              ret (mkResponse
                     200 (H_message "Test notification sent successfully"))
          end
      end
  end.

End Handlers.

(** * Properties *)

(** ** State passing *)

Lemma bind_run {S A B : Type} (m : State S A) (k : A -> State S B) (s : S) :
  bind m k s = k (fst (m s)) (snd (m s)).
Proof. unfold bind. destruct (m s); reflexivity. Qed.

Lemma liftSys_run {A : Type} (m : State Sys A) (w : World) :
  liftSys m w =
  (fst (m (sys w)),
   mkWorld (snd (m (sys w))) (logged w) (saved w) (notifications w)).
Proof. unfold liftSys. destruct (m (sys w)); reflexivity. Qed.

(** Runs the binds at the head of a state-passing computation. *)
Ltac run_state :=
  repeat (rewrite ?bind_run, ?liftSys_run; cbn [fst snd ret]).

(** ** The dispatcher *)

Section Dispatcher.

Variable env : Env.

Lemma recordNotification_run domain notifier status w :
  recordNotification env domain notifier status w =
  (tt,
   mkWorld
     (mkSys (S (ticks (sys w))) (stdout (sys w)) (outbox (sys w)))
     (logged w) (saved w)
     (notifications w ++
        [Notification.mk
           0%N (Domain.ID domain) (TypeName notifier)
           ("Domain " ++ Domain.Name domain ++ " expires in "
              ++ FormatInt (Domain.DaysRemaining domain) ++ " days")
           status (clock env (ticks (sys w)))])).
Proof. reflexivity. Qed.

(** One turn of the source's loop is one [attempt]. *)
Lemma SendNotification_loop_cons notifier rest domain n lastErr count w :
  SendNotification_loop env (notifier :: rest) domain n lastErr count w =
  let (r, w') := attempt env notifier domain n w in
  SendNotification_loop env rest domain n
    (match r with Some e => Some e | None => lastErr end)
    (match r with Some _ => count | None => count + 1 end) w'.
Proof.
  cbn [SendNotification_loop]. unfold attempt.
  rewrite !bind_run, !liftSys_run.
  destruct (Send notifier domain n (sys w)) as [[err|] s']; reflexivity.
Qed.

Lemma SendNotification_loop_attempts ns : forall domain n lastErr count w,
  SendNotification_loop env ns domain n lastErr count w =
  let (rs, w') := attempts env ns domain n w in
  ((last_error lastErr rs, count + successes rs), w').
Proof.
  induction ns as [|nf ns IH]; intros domain n lastErr count w.
  - cbn. unfold ret, successes. cbn. rewrite Z.add_0_r. reflexivity.
  - rewrite SendNotification_loop_cons. cbn [attempts].
    rewrite bind_run.
    destruct (attempt env nf domain n w) as [r w1]. cbn [fst snd].
    rewrite IH, bind_run.
    destruct (attempts env ns domain n w1) as [rs w2]. cbn [fst snd ret].
    unfold successes.
    destruct r; cbn [last_error fold_left filter notNil negb List.length].
    + reflexivity.
    + do 2 f_equal. lia.
Qed.

(** What one attempt leaves behind: the sender's effect on [Sys], one
    clock reading, and one record carrying the attempt's result. *)
Lemma attempt_run notifier domain n w :
  exists s' : Sys,
    attempt env notifier domain n w =
    (fst (Send notifier domain n (sys w)),
     mkWorld s' (logged w) (saved w)
       (notifications w ++
          [record_of domain notifier
             (fst (Send notifier domain n (sys w)))
             (clock env (ticks (snd (Send notifier domain n (sys w)))))])).
Proof.
  unfold attempt. rewrite bind_run, liftSys_run.
  destruct (Send notifier domain n (sys w)) as [[err|] s1];
    cbn [fst snd]; run_state; rewrite recordNotification_run; run_state;
    cbn; eexists; reflexivity.
Qed.

Lemma attempts_run ns : forall domain n w,
  exists recs : list Notification.t,
    let rs := fst (attempts env ns domain n w) in
    let w' := snd (attempts env ns domain n w) in
    notifications w' = (notifications w ++ recs)%list /\
    logged w' = logged w /\
    saved w' = saved w /\
    List.length rs = List.length ns /\
    map Notification.Type_ recs = map TypeName ns /\
    map Notification.Status recs = map status_of rs /\
    Forall (fun x =>
              Notification.DomainID x = Domain.ID domain /\
              Notification.Content x =
                "Domain " ++ Domain.Name domain ++ " expires in "
                  ++ FormatInt (Domain.DaysRemaining domain) ++ " days")
           recs.
Proof.
  induction ns as [|nf ns IH]; intros domain n w.
  - exists []. cbn. rewrite app_nil_r. repeat split; constructor.
  - cbn [attempts]. rewrite bind_run.
    destruct (attempt_run nf domain n w) as [s1 E1]. rewrite E1.
    cbn [fst snd]. rewrite bind_run.
    match goal with
    | |- context [attempts env ns domain n ?w1] =>
        destruct (IH domain n w1) as (recs & Hn & Hl & Hs & Hlen & Ht & Hst & Hc)
    end.
    cbn [notifications logged saved] in Hn, Hl, Hs.
    eexists (_ :: recs). cbn [ret fst snd].
    rewrite Hn, Hl, Hs, <- app_assoc. cbn [app map List.length].
    rewrite Hlen, Ht, Hst.
    repeat split; try reflexivity.
    constructor; [split; reflexivity | exact Hc].
Qed.

Lemma SendNotification_run s domain n w :
  SendNotification env s domain n w =
  (let rs := fst (attempts env (notifiers s) domain n w) in
   if (successes rs >? 0) && notNil (last_error None rs) then None
   else last_error None rs,
   snd (attempts env (notifiers s) domain n w)).
Proof.
  unfold SendNotification. rewrite bind_run, SendNotification_loop_attempts.
  destruct (attempts env (notifiers s) domain n w) as [rs w'].
  cbn [fst snd]. rewrite Z.add_0_l.
  destruct ((successes rs >? 0) && notNil (last_error None rs)); reflexivity.
Qed.

(** [last_error] and [successes], read off the list of results. *)
Lemma last_error_all_failed rs : forall init,
  rs <> [] -> (forall x, In x rs -> x <> None) ->
  last_error init rs = last rs None.
Proof.
  induction rs as [|r rs IH]; intros init Hne Hall; [congruence|].
  destruct rs as [|r' rs].
  - cbn. destruct r; [reflexivity|].
    exfalso. apply (Hall None); [left|]; reflexivity.
  - change (last_error init (r :: r' :: rs))
      with (last_error (match r with Some e => Some e | None => init end)
                       (r' :: rs)).
    rewrite IH; [reflexivity | discriminate |].
    intros x Hx. apply Hall. right. exact Hx.
Qed.

Lemma successes_all_failed rs :
  (forall x, In x rs -> x <> None) -> successes rs = 0.
Proof.
  unfold successes. induction rs as [|r rs IH]; intros Hall; [reflexivity|].
  destruct r as [e|].
  - cbn [filter notNil negb]. apply IH. intros x Hx. apply Hall. right. exact Hx.
  - exfalso. apply (Hall None); [left|]; reflexivity.
Qed.

Lemma successes_pos rs : In None rs -> successes rs > 0.
Proof.
  unfold successes. induction rs as [|r rs IH]; intros Hin; [destruct Hin|].
  destruct r as [e|]; cbn [filter notNil negb List.length].
  - destruct Hin as [H|H]; [discriminate | exact (IH H)].
  - lia.
Qed.

End Dispatcher.


(** ** Claims about [SendNotification] *)

(** C2 (as amended). [SendNotification] over any list of senders: if at
    least one attempt succeeds the call returns nil, whatever the others
    did; if there are senders and every attempt fails, it returns the error
    of the last sender; with no sender at all it returns nil, a success.
    Two failing channels give the error of the second one; three channels
    of which only the second fails give nil. *)
Theorem SendNotification_verdict :
  forall (env : Env) (s : NotifyService) (domain : Domain.t) (n : Z) (w : World),
    let rs := fst (attempts env (notifiers s) domain n w) in
    let r := fst (SendNotification env s domain n w) in
    (In None rs -> r = None) /\
    (rs <> [] -> (forall x, In x rs -> x <> None) ->
     r = last rs None /\ r <> None) /\
    (notifiers s = [] -> r = None) /\
    fst (SendNotification env failing_channels domain n empty_world)
      = Some (errorString "connection refused") /\
    fst (SendNotification env three_channels domain n empty_world) = None.
Proof.
  intros env s domain n w rs r. subst r.
  rewrite (SendNotification_run env s domain n w). cbn [fst]. fold rs.
  split; [|split; [|split; [|split; reflexivity]]].
  - intros Hin. apply successes_pos in Hin.
    destruct (Z.gtb_spec (successes rs) 0) as [_|Hle]; [|lia].
    cbn [andb]. destruct (last_error None rs); reflexivity.
  - intros Hne Hall.
    rewrite (successes_all_failed rs Hall). cbn [Z.gtb Z.compare andb].
    rewrite (last_error_all_failed rs None Hne Hall).
    split; [reflexivity|].
    apply Hall. destruct rs as [|x rs']; [congruence|].
    apply (@exists_last _ (x :: rs')) in Hne.
    destruct Hne as (l & a & E). rewrite E, last_last.
    apply in_or_app. right. left. reflexivity.
  - intros Hnil. subst rs. rewrite Hnil. reflexivity.
Qed.

(** C2, as stated, fails with no sender configured: the call does not
    return an error. *)
Lemma SendNotification_no_sender_no_error :
  ~ (exists e : error,
        fst (SendNotification sample_env (mkNotifyService []) sample_domain 7
                              empty_world) = Some e).
Proof. intros [e H]. discriminate H. Qed.

(** C6. [SendNotification] makes one attempt per configured sender, in
    the order of the list and whatever the earlier attempts gave, and
    appends exactly one record per sender, in that order, each with the
    sender's type and the status matching its attempt's result. The
    senders are those enabled in the configuration, in the order mail,
    webhook, Telegram, DingTalk. With three channels of which the second
    fails, each channel gets its one call, in order, the records read
    success, failed, success and the call returns nil. *)
Theorem SendNotification_one_record_per_sender :
  (forall (env : Env) (s : NotifyService) (domain : Domain.t) (n : Z)
          (w : World),
      let rs := fst (attempts env (notifiers s) domain n w) in
      let w' := snd (SendNotification env s domain n w) in
      w' = snd (attempts env (notifiers s) domain n w) /\
      List.length rs = List.length (notifiers s) /\
      exists recs : list Notification.t,
        notifications w' = (notifications w ++ recs)%list /\
        List.length recs = List.length (notifiers s) /\
        map Notification.Type_ recs = map TypeName (notifiers s) /\
        map Notification.Status recs = map status_of rs) /\
  (forall (env : Env) (cfg : NotificationsConfig.t),
      map TypeName (notifiers (NewNotifyService env cfg)) =
      map snd
        (filter fst
           [ (EmailConfig.Enabled (NotificationsConfig.Email cfg),
              "*services.EmailNotifier");
             (WebhookConfig.Enabled (NotificationsConfig.Webhook cfg),
              "*services.WebhookNotifier");
             (TelegramConfig.Enabled (NotificationsConfig.Telegram cfg),
              "*services.TelegramNotifier");
             (DingDingConfig.Enabled (NotificationsConfig.DingDing cfg),
              "*services.DingDingNotifier") ])) /\
  (forall (env : Env) (domain : Domain.t) (n : Z),
      let out := SendNotification env three_channels domain n empty_world in
      fst out = None /\
      outbox (sys (snd out)) =
        [ OutHttpPost DefaultClient "mail" "" (JNumber n);
          OutHttpPost DefaultClient "hook" "" (JNumber n);
          OutHttpPost DefaultClient "bot" "" (JNumber n) ] /\
      map Notification.Type_ (notifications (snd out)) =
        ["mail"; "hook"; "bot"] /\
      map Notification.Status (notifications (snd out)) =
        ["success"; "failed"; "success"]).
Proof.
  split; [|split].
  - intros env s domain n w rs w'. subst w'.
    rewrite SendNotification_run. cbn [snd].
    destruct (attempts_run env (notifiers s) domain n w)
      as (recs & Hn & _ & _ & Hlen & Ht & Hst & _).
    split; [reflexivity|]. split; [exact Hlen|].
    exists recs. repeat split; try assumption.
    rewrite <- (length_map Notification.Type_), Ht, length_map. reflexivity.
  - intros env cfg. unfold NewNotifyService.
    destruct (EmailConfig.Enabled (NotificationsConfig.Email cfg)),
             (WebhookConfig.Enabled (NotificationsConfig.Webhook cfg)),
             (TelegramConfig.Enabled (NotificationsConfig.Telegram cfg)),
             (DingDingConfig.Enabled (NotificationsConfig.DingDing cfg));
      reflexivity.
  - intros env domain n. repeat split.
Qed.


(** ** The monitor engine *)

Section Monitor.

Variable env : Env.

(** A dispatch writes no domain row, and what it logs comes after what was
    logged. *)
Lemma SendNotification_frame s domain n w :
  logged (snd (SendNotification env s domain n w)) = logged w /\
  saved (snd (SendNotification env s domain n w)) = saved w.
Proof.
  rewrite SendNotification_run. cbn [snd].
  destruct (attempts_run env (notifiers s) domain n w)
    as (recs & _ & Hl & Hs & _).
  split; assumption.
Qed.

Lemma dispatch_run ns domain threshold w :
  saved (snd (dispatch env ns domain threshold w)) = saved w /\
  exists failure : list string,
    logged (snd (dispatch env ns domain threshold w)) =
      (logged w ++ announcement domain :: failure)%list /\
    filter announces_dispatch failure = [].
Proof.
  unfold dispatch. rewrite bind_run. cbn [log_Printf fst snd].
  rewrite bind_run.
  match goal with
  | |- context [SendNotification env ns domain threshold ?w1] =>
      destruct (SendNotification_frame ns domain threshold w1) as [Hl Hs];
      destruct (SendNotification env ns domain threshold w1) as [[err|] w2]
  end; cbn [fst snd logged saved log_Printf ret] in *; rewrite Hl, Hs.
  - split; [reflexivity|].
    eexists [_]. rewrite <- app_assoc. split; reflexivity.
  - split; [reflexivity|].
    exists []. split; reflexivity.
Qed.

(** The loop of [CheckAndNotify] makes the dispatch of the first threshold
    equal to the record's days remaining, and nothing else. *)
Lemma CheckAndNotify_loop_find ns domain w : forall thresholds,
  CheckAndNotify_loop env ns thresholds domain w =
  match find (fun t => Domain.DaysRemaining domain =? t) thresholds with
  | Some t => dispatch env ns domain t w
  | None => (tt, w)
  end.
Proof.
  induction thresholds as [|t rest IH]; [reflexivity|].
  cbn [CheckAndNotify_loop find].
  destruct (Domain.DaysRemaining domain =? t); [reflexivity | exact IH].
Qed.

Lemma dispatches_since_app w w' new :
  logged w' = (logged w ++ new)%list ->
  dispatches_since w w' = List.length (filter announces_dispatch new).
Proof.
  intros E. unfold dispatches_since. rewrite E, skipn_app, skipn_all.
  rewrite Nat.sub_diag. reflexivity.
Qed.

Lemma dispatch_dispatches_once ns domain threshold w :
  dispatches_since w (snd (dispatch env ns domain threshold w)) = 1%nat.
Proof.
  destruct (dispatch_run ns domain threshold w) as (_ & failure & Hl & Hf).
  rewrite (dispatches_since_app _ _ _ Hl).
  cbn [filter].
  replace (announces_dispatch (announcement domain)) with true
    by reflexivity.
  cbn [List.length]. rewrite Hf. reflexivity.
Qed.

Lemma dispatches_since_refl w : dispatches_since w w = 0%nat.
Proof.
  rewrite (dispatches_since_app w w []); [reflexivity|].
  rewrite app_nil_r. reflexivity.
Qed.

End Monitor.

Section Checks.

Variable env : Env.

Lemma extends_refl w : extends w w.
Proof. split; exists []; rewrite app_nil_r; reflexivity. Qed.

Lemma extends_trans w1 w2 w3 :
  extends w1 w2 -> extends w2 w3 -> extends w1 w3.
Proof.
  intros [[l1 H1] [m1 G1]] [[l2 H2] [m2 G2]]. split.
  - exists (l1 ++ l2)%list. rewrite H2, H1, app_assoc. reflexivity.
  - exists (m1 ++ m2)%list. rewrite G2, G1, app_assoc. reflexivity.
Qed.

Lemma CheckAndNotify_extends s domain w :
  saved (snd (CheckAndNotify env s domain w)) = saved w /\
  extends w (snd (CheckAndNotify env s domain w)).
Proof.
  unfold CheckAndNotify. destruct (notifyService s) as [ns|].
  - rewrite CheckAndNotify_loop_find.
    destruct (find _ (alertDays s)) as [t|].
    + destruct (dispatch_run env ns domain t w) as (Hs & failure & Hl & _).
      split; [exact Hs|]. split.
      * eexists. exact Hl.
      * exists []. rewrite Hs, app_nil_r. reflexivity.
    + split; [reflexivity | apply extends_refl].
  - split; [reflexivity | apply extends_refl].
Qed.

(** A failed lookup: the wrapped error, and nothing else. *)
Lemma CheckDomain_lookup_failed s domain w err :
  QueryDomain env (Domain.Name domain) = inr err ->
  CheckDomain env s domain w =
  ((domain, Some (wrapError ("WHOIS query failed: " ++ Error err) err)), w).
Proof. intros E. unfold CheckDomain. rewrite E. reflexivity. Qed.

(** A successful lookup, by the outcome of the save: the record that
    comes back is the checked one as the store's write-back leaves it. *)
Lemma CheckDomain_lookup_ok s domain w info :
  QueryDomain env (Domain.Name domain) = inl info ->
  let d1 := checked_record env info domain w in
  let s1 :=
    mkSys (if IsZero (DomainInfo.ExpiryDate info)
           then S (ticks (sys w)) else S (S (ticks (sys w))))
          (stdout (sys w)) (outbox (sys w)) in
  CheckDomain env s domain w =
  match db_Save_Error env d1 with
  | Some e =>
      ((written_back env d1,
        Some (wrapError ("failed to save domain: " ++ Error e) e)),
       mkWorld s1 (logged w) (saved w) (notifications w))
  | None =>
      ((written_back env d1, None),
       snd (CheckAndNotify env s (written_back env d1)
              (mkWorld s1
                 (logged w ++
                    [("Updated domain " ++ Domain.Name d1 ++ ": "
                        ++ FormatInt (Domain.DaysRemaining d1)
                        ++ " days remaining")%string])
                 (saved w ++ [d1])
                 (notifications w))))
  end.
Proof.
  intros E d1 s1. subst d1 s1. unfold CheckDomain, checked_record.
  rewrite E.
  unfold Until, bind, liftSys, Now, ret, db_Save, log_Printf.
  destruct (IsZero (DomainInfo.ExpiryDate info)); cbn [negb];
    cbv beta iota zeta
        delta [fst snd sys logged saved notifications ticks stdout outbox];
    match goal with
    | |- context [db_Save_Error env ?d] => destruct (db_Save_Error env d)
    end;
    cbv beta iota zeta
        delta [fst snd sys logged saved notifications ticks stdout outbox];
    try reflexivity;
    unfold written_back; cbn [Domain.Name Domain.DaysRemaining];
    match goal with
    | |- context [CheckAndNotify env s ?d ?w1] =>
        destruct (CheckAndNotify env s d w1) as [[] w2]
    end; reflexivity.
Qed.

Lemma checked_record_carries_facts info domain w :
  carries_facts info domain (checked_record env info domain w).
Proof.
  unfold checked_record, carries_facts.
  destruct (IsZero (DomainInfo.ExpiryDate info)); cbn; repeat split.
Qed.

(** Whatever a check does, it only adds to the log and to the saved rows;
    its result is decided by the lookup and then by the save. *)
Lemma CheckDomain_outcome s domain w :
  let out := CheckDomain env s domain w in
  extends w (snd out) /\
  match QueryDomain env (Domain.Name domain) with
  | inr err =>
      snd (fst out) =
        Some (wrapError ("WHOIS query failed: " ++ Error err) err)
  | inl info =>
      let d1 := checked_record env info domain w in
      fst (fst out) = written_back env d1 /\
      match db_Save_Error env d1 with
      | Some e =>
          snd (fst out) =
            Some (wrapError ("failed to save domain: " ++ Error e) e)
      | None =>
          snd (fst out) = None /\
          saved (snd out) = (saved w ++ [d1])%list
      end
  end.
Proof.
  intros out. subst out.
  destruct (QueryDomain env (Domain.Name domain)) as [info|err] eqn:E.
  - rewrite (CheckDomain_lookup_ok s domain w info E). cbv zeta.
    destruct (db_Save_Error env (checked_record env info domain w)) as [e|].
    + cbn [fst snd]. split; [|split; reflexivity].
      split; exists []; cbn [logged saved]; symmetry; apply app_nil_r.
    + cbn [fst snd].
      match goal with
      | |- context [CheckAndNotify env s ?d ?w1] =>
          destruct (CheckAndNotify_extends s d w1) as [Hs Hext]
      end.
      split; [|split; [reflexivity | split; [reflexivity | exact Hs]]].
      eapply extends_trans; [|exact Hext].
      split; eexists; reflexivity.
  - rewrite (CheckDomain_lookup_failed s domain w err E). cbn [fst snd].
    split; [apply extends_refl | reflexivity].
Qed.

Lemma check_and_log_extends s domain w :
  extends w (snd (check_and_log env s domain w)).
Proof.
  unfold check_and_log. rewrite bind_run.
  destruct (CheckDomain_outcome s domain w) as [Hext _].
  eapply extends_trans; [exact Hext|].
  destruct (snd (fst (CheckDomain env s domain w))).
  - split; cbn [log_Printf snd logged saved].
    + eexists. reflexivity.
    + exists []. rewrite app_nil_r. reflexivity.
  - apply extends_refl.
Qed.

Lemma CheckAllDomains_loop_cons s d rest w :
  CheckAllDomains_loop env s (d :: rest) w =
  CheckAllDomains_loop env s rest (snd (check_and_log env s d w)).
Proof.
  cbn [CheckAllDomains_loop]. unfold check_and_log.
  rewrite !bind_run. reflexivity.
Qed.

Lemma CheckAllDomains_loop_extends s : forall domains w,
  extends w (snd (CheckAllDomains_loop env s domains w)).
Proof.
  induction domains as [|d rest IH]; intros w; [apply extends_refl|].
  rewrite CheckAllDomains_loop_cons.
  eapply extends_trans; [apply check_and_log_extends | apply IH].
Qed.

(** Every domain of the batch gets its turn, whatever the turns before it
    gave, and what its turn logged and saved is still there at the end. *)
Lemma CheckAllDomains_loop_each s : forall domains w d,
  In d domains ->
  exists w1 : World,
    extends w w1 /\
    extends (snd (check_and_log env s d w1))
            (snd (CheckAllDomains_loop env s domains w)).
Proof.
  induction domains as [|d0 rest IH]; intros w d Hin; [destruct Hin|].
  rewrite CheckAllDomains_loop_cons.
  destruct Hin as [->|Hin].
  - exists w. split; [apply extends_refl|].
    apply CheckAllDomains_loop_extends.
  - destruct (IH (snd (check_and_log env s d0 w)) d Hin) as (w1 & H1 & H2).
    exists w1. split; [|exact H2].
    eapply extends_trans; [apply check_and_log_extends | exact H1].
Qed.

Lemma extends_In_logged w w' line :
  extends w w' -> In line (logged w) -> In line (logged w').
Proof.
  intros [[l E] _] Hin. rewrite E. apply in_or_app. left. exact Hin.
Qed.

Lemma extends_In_saved w w' d :
  extends w w' -> In d (saved w) -> In d (saved w').
Proof.
  intros [_ [l E]] Hin. rewrite E. apply in_or_app. left. exact Hin.
Qed.

End Checks.

(** C3. With a notification service in place, [CheckAndNotify] scans the
    thresholds in their order and makes the dispatch of the first one equal
    to the record's days remaining, with that threshold, and nothing after
    it; it dispatches nothing when no threshold is equal. So one call
    dispatches at most once: with thresholds 30, 7, 1 a record at 14 days
    dispatches nothing and a record at 7 days dispatches once, with 7. *)
Theorem CheckAndNotify_dispatches_first_match :
  (forall (env : Env) (ns : NotifyService) (thresholds : list Z)
          (domain : Domain.t) (w : World),
      let s := mkMonitorService (Some ns) thresholds in
      let w' := snd (CheckAndNotify env s domain w) in
      CheckAndNotify env s domain w =
        match find (fun t => Domain.DaysRemaining domain =? t) thresholds with
        | Some t => dispatch env ns domain t w
        | None => (tt, w)
        end /\
      (dispatches_since w w' <= 1)%nat /\
      (In (Domain.DaysRemaining domain) thresholds ->
       w' = snd (dispatch env ns domain (Domain.DaysRemaining domain) w) /\
       dispatches_since w w' = 1%nat) /\
      (~ In (Domain.DaysRemaining domain) thresholds ->
       w' = w /\ dispatches_since w w' = 0%nat)) /\
  (forall (env : Env) (ns : NotifyService) (domain : Domain.t) (w : World),
      let s := mkMonitorService (Some ns) [30; 7; 1] in
      (Domain.DaysRemaining domain = 14 ->
       snd (CheckAndNotify env s domain w) = w) /\
      (Domain.DaysRemaining domain = 7 ->
       snd (CheckAndNotify env s domain w) = snd (dispatch env ns domain 7 w) /\
       dispatches_since w (snd (CheckAndNotify env s domain w)) = 1%nat)).
Proof.
  assert (main : forall env ns thresholds domain w,
    CheckAndNotify env (mkMonitorService (Some ns) thresholds) domain w =
    match find (fun t => Domain.DaysRemaining domain =? t) thresholds with
    | Some t => dispatch env ns domain t w
    | None => (tt, w)
    end).
  { intros. unfold CheckAndNotify. cbn [notifyService alertDays].
    apply CheckAndNotify_loop_find. }
  split.
  - intros env ns thresholds domain w s w'. subst s w'.
    rewrite main.
    destruct (find (fun t => Domain.DaysRemaining domain =? t) thresholds)
      as [t|] eqn:Hfind.
    + apply find_some in Hfind. destruct Hfind as [Hin Heq].
      apply Z.eqb_eq in Heq. subst t.
      split; [reflexivity|].
      rewrite dispatch_dispatches_once.
      split; [lia|]. split.
      * intros _. split; reflexivity.
      * intros Hnot. contradiction.
    + cbn [snd]. rewrite dispatches_since_refl.
      split; [reflexivity|]. split; [lia|]. split.
      * intros Hin. apply (find_none _ _ Hfind) in Hin.
        rewrite Z.eqb_refl in Hin. discriminate.
      * intros _. split; reflexivity.
  - intros env ns domain w s. subst s. rewrite main. split; intros E.
    + cbn [find]. rewrite E. reflexivity.
    + cbn [find]. rewrite E. cbn [Z.eqb Pos.eqb].
      split; [reflexivity | apply dispatch_dispatches_once].
Qed.

(** ** Claims about [CheckDomain] and [CheckAllDomains] *)

(** C4 (as amended). When the lookup fails, [CheckDomain] returns the
    lookup error wrapped under the message "WHOIS query failed: ..." (the
    lookup error is what [Unwrap] gives back), leaves every field of the
    record as it was, and leaves the world as it was: nothing is saved,
    logged or sent. *)
Theorem CheckDomain_lookup_failure :
  forall (env : Env) (s : MonitorService) (domain : Domain.t) (w : World)
         (err : error),
    QueryDomain env (Domain.Name domain) = inr err ->
    let out := CheckDomain env s domain w in
    (exists e : error,
        snd (fst out) = Some e /\
        Error e = "WHOIS query failed: " ++ Error err /\
        Unwrap e = Some err) /\
    fst (fst out) = domain /\
    snd out = w.
Proof.
  intros env s domain w err E out. subst out.
  rewrite (CheckDomain_lookup_failed env s domain w err E). cbn [fst snd].
  split; [|split; reflexivity].
  eexists. repeat split.
Qed.

(** C4 at a lookup that times out. *)
Lemma CheckDomain_lookup_failure_witness :
  QueryDomain sample_env (Domain.Name sample_domain)
    = inr (errorString "timeout") /\
  snd (CheckDomain sample_env sample_monitor sample_domain empty_world)
    = empty_world.
Proof.
  split; [reflexivity|].
  apply (CheckDomain_lookup_failure sample_env sample_monitor sample_domain
           empty_world (errorString "timeout") eq_refl).
Defined.

(** C4, as stated, fails: the error [CheckDomain] returns is not the lookup
    error itself. *)
Lemma CheckDomain_error_is_not_the_lookup_error :
  QueryDomain sample_env (Domain.Name sample_domain)
    = inr (errorString "timeout") /\
  snd (fst (CheckDomain sample_env sample_monitor sample_domain empty_world))
    <> Some (errorString "timeout").
Proof. split; [reflexivity | discriminate]. Qed.

(** C9. When a successful lookup returns an unset expiry, [CheckDomain]
    leaves the record's days remaining at its previous value, and still
    applies the other facts of the lookup and the last-checked time: the
    record that comes back holds them, with the name and the tags it had.
    The record handed to the store holds them too, with the id and the
    active flag it had; it is the row saved when the store accepts it, and
    what comes back is that record as the store's write-back leaves it. *)
Theorem CheckDomain_unset_expiry_keeps_days :
  forall (env : Env) (s : MonitorService) (domain : Domain.t) (w : World)
         (info : DomainInfo.t),
    QueryDomain env (Domain.Name domain) = inl info ->
    IsZero (DomainInfo.ExpiryDate info) = true ->
    let out := CheckDomain env s domain w in
    let d' := fst (fst out) in
    Domain.DaysRemaining d' = Domain.DaysRemaining domain /\
    looked_up_facts info d' /\
    Domain.LastChecked d' = clock env (ticks (sys w)) /\
    Domain.Name d' = Domain.Name domain /\
    Domain.Tags d' = Domain.Tags domain /\
    exists d1 : Domain.t,
      d' = written_back env d1 /\
      Domain.DaysRemaining d1 = Domain.DaysRemaining domain /\
      carries_facts info domain d1 /\
      Domain.LastChecked d1 = clock env (ticks (sys w)) /\
      (db_Save_Error env d1 = None ->
       snd (fst out) = None /\ saved (snd out) = (saved w ++ [d1])%list).
Proof.
  intros env s domain w info E Hz out d'. subst d' out.
  pose proof (CheckDomain_outcome env s domain w) as H. cbv zeta in H.
  rewrite E in H. destruct H as (_ & Hd & Hsave). rewrite Hd.
  unfold looked_up_facts, checked_record. rewrite Hz.
  split; [reflexivity|]. split; [repeat split|].
  split; [reflexivity|]. split; [reflexivity|]. split; [reflexivity|].
  eexists. split; [reflexivity|].
  split; [reflexivity|]. split; [|split; [reflexivity|]].
  - pose proof (checked_record_carries_facts env info domain w) as Hc.
    unfold checked_record in Hc. rewrite Hz in Hc. exact Hc.
  - intros Hok. unfold checked_record in Hsave. rewrite Hz in Hsave.
    rewrite Hok in Hsave. exact Hsave.
Qed.

(** C9 at a record of 7 days remaining whose lookup returns no expiry. *)
Lemma CheckDomain_unset_expiry_keeps_days_witness :
  Domain.DaysRemaining
    (fst (fst (CheckDomain (env_with_lookup (fun _ => inl sample_info))
                           sample_monitor sample_domain empty_world)))
  = 7.
Proof.
  apply (CheckDomain_unset_expiry_keeps_days
           (env_with_lookup (fun _ => inl sample_info))
           sample_monitor sample_domain empty_world sample_info
           eq_refl eq_refl).
Defined.

(** C5. [CheckAllDomains] checks every domain the query for active
    domains returned, each in its turn and whatever the other checks gave:
    when the fetch succeeds it returns nil, and for every domain of the
    batch either its lookup failed and that error is in the log, or the
    record carrying the looked-up facts was saved, or its save failed and
    that error is in the log. With five domains of which the third one's
    lookup fails, the other four are saved and the third one's error is
    logged. *)
Theorem CheckAllDomains_isolates_failures :
  (forall (env : Env) (s : MonitorService) (domains : list Domain.t)
          (w : World),
      db_FindActive env = inl domains ->
      let out := CheckAllDomains env s w in
      fst out = None /\
      forall d : Domain.t,
        In d domains ->
        match QueryDomain env (Domain.Name d) with
        | inr err =>
            In ("Error checking domain " ++ Domain.Name d
                  ++ ": WHOIS query failed: " ++ Error err)
               (logged (snd out))
        | inl info =>
            exists d' : Domain.t,
              carries_facts info d d' /\
              match db_Save_Error env d' with
              | None => In d' (saved (snd out))
              | Some e =>
                  In ("Error checking domain " ++ Domain.Name d
                        ++ ": failed to save domain: " ++ Error e)
                     (logged (snd out))
              end
        end) /\
  (let out := CheckAllDomains batch_env sample_monitor empty_world in
   fst out = None /\
   map Domain.Name (saved (snd out)) =
     ["one.example"; "two.example"; "four.example"; "five.example"] /\
   filter (fun line => HasPrefix line "Error") (logged (snd out)) =
     ["Error checking domain three.example: WHOIS query failed: timeout"]).
Proof.
  split; [|repeat split].
  intros env s domains w Hfind out. subst out.
  unfold CheckAllDomains. rewrite Hfind. rewrite !bind_run. cbn [ret fst snd].
  split; [reflexivity|].
  intros d Hin.
  match goal with
  | |- context [CheckAllDomains_loop env s domains ?w0] =>
      destruct (CheckAllDomains_loop_each env s domains w0 d Hin)
        as (w1 & _ & Hext)
  end.
  pose proof (CheckDomain_outcome env s d w1) as H. cbv zeta in H.
  destruct H as [_ H].
  destruct (QueryDomain env (Domain.Name d)) as [info|err] eqn:E.
  - destruct H as [Hd Hsave].
    exists (checked_record env info d w1).
    split; [apply checked_record_carries_facts|].
    destruct (db_Save_Error env (checked_record env info d w1)) as [e|] eqn:Es.
    + apply (extends_In_logged _ _ _ Hext).
      unfold check_and_log. rewrite bind_run, Hsave, Hd.
      cbn [log_Printf snd logged Error].
      unfold written_back. cbn [Domain.Name].
      apply in_or_app. right. left.
      destruct (checked_record_carries_facts env info d w1)
        as (_ & _ & _ & _ & _ & _ & Hname & _).
      rewrite Hname. reflexivity.
    + destruct Hsave as [Hnil Hsaved].
      apply (extends_In_saved _ _ _ Hext).
      unfold check_and_log. rewrite bind_run, Hnil. cbn [ret snd].
      rewrite Hsaved. apply in_or_app. right. left. reflexivity.
  - apply (extends_In_logged _ _ _ Hext).
    unfold check_and_log. rewrite bind_run, H.
    rewrite (CheckDomain_lookup_failed env s d w1 err E).
    cbn [log_Printf fst snd logged Error].
    apply in_or_app. right. left. reflexivity.
Qed.

(** C5 at the batch of five domains. *)
Lemma CheckAllDomains_isolates_failures_witness :
  db_FindActive batch_env = inl batch /\
  fst (CheckAllDomains batch_env sample_monitor empty_world) = None.
Proof.
  split; [reflexivity|].
  apply (proj1 CheckAllDomains_isolates_failures batch_env sample_monitor
               batch empty_world eq_refl).
Defined.

(** ** Claims about the channel senders *)

Lemma HasPrefix_spec p : forall s,
  HasPrefix s p = true <-> exists post, s = p ++ post.
Proof.
  induction p as [|b p IH]; intros s.
  - cbn. split; [intros _; exists s; reflexivity | reflexivity].
  - destruct s as [|a s]; cbn.
    + split; [discriminate | intros [post H]; discriminate].
    + rewrite andb_true_iff, Ascii.eqb_eq, IH. split.
      * intros [-> [post ->]]. exists post. reflexivity.
      * intros [post H]. injection H as -> ->. split; [reflexivity|].
        exists post. reflexivity.
Qed.

(** [Contains] is the substring test. *)
Lemma Contains_spec substr : forall s,
  Contains s substr = true <-> exists pre post, s = pre ++ substr ++ post.
Proof.
  induction s as [|a s IH].
  - cbn [Contains]. rewrite orb_false_r, HasPrefix_spec. split.
    + intros [post H]. exists "", post. exact H.
    + intros (pre & post & H). destruct pre as [|c pre]; [|discriminate].
      exists post. exact H.
  - cbn [Contains]. rewrite orb_true_iff, HasPrefix_spec, IH. split.
    + intros [[post H]|(pre & post & H)].
      * exists "", post. exact H.
      * exists (String a pre), post. cbn. rewrite H. reflexivity.
    + intros (pre & post & H). destruct pre as [|c pre].
      * left. exists post. exact H.
      * right. cbn in H. injection H as _ H. exists pre, post. exact H.
Qed.

(** C8. [EmailNotifier.Send] makes one SMTP call. When the call returns no
    error the send succeeds; when it returns an error whose message
    contains "short response" the error is dropped and the send succeeds;
    any other error comes back wrapped under "failed to send email: ...".
    The three cases are shown on a sample configuration first. *)
Theorem EmailNotifier_Send_suppresses_short_response :
  (let send answer :=
     fst (EmailNotifier_Send (env_with_smtp answer) sample_email
                             sample_domain 7 (mkSys 0 [] [])) in
   send None = None /\
   send (Some (errorString "short response: 250 Ok: queued")) = None /\
   send (Some (errorString "535 authentication failed")) =
     Some (wrapError "failed to send email: 535 authentication failed"
                     (errorString "535 authentication failed"))) /\
  forall (env : Env) (config : EmailConfig.t) (domain : Domain.t) (n : Z)
         (s : Sys),
    let out := EmailNotifier_Send env config domain n s in
    let addr :=
      EmailConfig.SMTPHost config ++ ":"
        ++ FormatInt (EmailConfig.SMTPPort config) in
    let auth :=
      (EmailConfig.From config, EmailConfig.Password config,
       EmailConfig.SMTPHost config) in
    exists msg : string,
      outbox (snd out) =
        (outbox s ++
           [OutSendMail addr (EmailConfig.From config)
                        (EmailConfig.To config) msg])%list /\
      match smtp_SendMail env addr auth (EmailConfig.From config)
                          (EmailConfig.To config) msg with
      | None => fst out = None
      | Some err =>
          ((exists pre post, Error err = pre ++ "short response" ++ post) ->
           fst out = None) /\
          (~ (exists pre post, Error err = pre ++ "short response" ++ post) ->
           fst out =
             Some (wrapError ("failed to send email: " ++ Error err) err))
      end.
Proof.
  split; [repeat split|].
  intros env config domain n s out addr auth. subst out addr auth.
  unfold EmailNotifier_Send. cbv zeta.
  rewrite bind_run. cbn [Now fst snd].
  rewrite bind_run. cbn [outbound fst snd].
  match goal with
  | |- context [smtp_SendMail env ?a ?b ?c ?d ?m] =>
      exists m; destruct (smtp_SendMail env a b c d m) as [err|] eqn:Es
  end.
  - destruct (Contains (Error err) "short response") eqn:Ec; cbn [negb].
    + rewrite !bind_run. cbn [Printf ret fst snd outbox]. split; [reflexivity|].
      split; [reflexivity|].
      intros Hno. exfalso. apply Hno. apply Contains_spec. exact Ec.
    + cbn [ret fst snd outbox]. split; [reflexivity|].
      split; [|reflexivity].
      intros Hyes. apply Contains_spec in Hyes. congruence.
  - rewrite !bind_run. cbn [Printf ret fst snd outbox]. split; reflexivity.
Qed.

Lemma bytes_of_string_app s1 s2 :
  bytes_of_string (s1 ++ s2) = (bytes_of_string s1 ++ bytes_of_string s2)%list.
Proof.
  unfold bytes_of_string. rewrite <- map_app. f_equal.
  induction s1 as [|c s1 IH]; [reflexivity|].
  cbn. rewrite IH. reflexivity.
Qed.

(** C7. The signature of the signed webhook is the standard base64
    encoding of the HMAC-SHA256, keyed by the bytes of the secret, of the
    bytes of the timestamp, one line feed, and the bytes of the secret; for
    the secret "s3cret" and the timestamp "1700000000000" it is the string
    below, byte for byte. *)
Theorem generateSign_hmac_sha256 :
  (forall timestamp secret : string,
      generateSign timestamp secret =
      base64.EncodeToString
        (hmac.Sum_sha256
           (bytes_of_string secret)
           (bytes_of_string timestamp ++ 10 :: bytes_of_string secret)%list)) /\
  generateSign "1700000000000" "s3cret" =
    base64.EncodeToString
      (hmac.Sum_sha256 (bytes_of_string "s3cret")
                       (bytes_of_string ("1700000000000" ++ newline ++ "s3cret"))) /\
  generateSign "1700000000000" "s3cret" =
    "MT7bXSNfVTPzQMEuLWvmMNbmZSCUY1X6YKn9AxBnLsI=".
Proof.
  split; [|split].
  - intros timestamp secret. unfold generateSign.
    unfold hmac.Sum, hmac.Write, hmac.New.
    cbn [hmac.key hmac.written app].
    rewrite bytes_of_string_app. reflexivity.
  - reflexivity.
  - vm_compute. reflexivity.
Qed.


(** ** The day count in the audit record *)

Lemma length_append (s1 s2 : string) :
  String.length (s1 ++ s2) = (String.length s1 + String.length s2)%nat.
Proof. induction s1 as [|c s1 IH]; cbn; [reflexivity | rewrite IH; reflexivity]. Qed.

Lemma append_assoc_r (a b c : string) : (a ++ b) ++ c = a ++ (b ++ c).
Proof.
  induction a as [|x a IH]; [reflexivity|].
  cbn [append]. rewrite IH. reflexivity.
Qed.

Lemma append_inv_head (s x y : string) : s ++ x = s ++ y -> x = y.
Proof.
  induction s as [|c s IH]; cbn; intros H; [exact H|].
  injection H as H. exact (IH H).
Qed.

Lemma append_inv_tail (s : string) : forall x y, x ++ s = y ++ s -> x = y.
Proof.
  induction x as [|c x IH]; intros [|c' y] H.
  - reflexivity.
  - apply (f_equal String.length) in H. cbn in H.
    rewrite length_append in H. lia.
  - apply (f_equal String.length) in H. cbn in H.
    rewrite length_append in H. lia.
  - cbn in H. injection H as -> H. f_equal. exact (IH y H).
Qed.

(** Two integers print alike only when they are equal. *)
Lemma FormatInt_inj (a b : Z) : FormatInt a = FormatInt b -> a = b.
Proof.
  unfold FormatInt. intros H.
  assert (ok : forall z, Z.to_int z <> Decimal.Pos Decimal.Nil /\
                         Z.to_int z <> Decimal.Neg Decimal.Nil).
  { intros [|p|p]; cbn; split; try discriminate;
      intros E; injection E as E;
      exact (DecimalPos.Unsigned.to_uint_nonnil p E). }
  apply (f_equal NilZero.int_of_string) in H.
  rewrite !NilZero.isi in H by apply ok.
  injection H as H. apply DecimalZ.to_int_inj. exact H.
Qed.

Lemma audit_content_inj domain a b :
  audit_content domain a = audit_content domain b -> a = b.
Proof.
  unfold audit_content. intros H.
  apply append_inv_head in H. apply append_inv_head in H.
  apply append_inv_head in H. apply append_inv_tail in H.
  apply FormatInt_inj. exact H.
Qed.

(** What each of the other senders delivers: the day count it was handed. *)
Lemma EmailNotifier_Send_carries_days :
  (forall (env : Env) (config : EmailConfig.t) (domain : Domain.t) (n : Z)
          (s : Sys),
      exists addr head mid tail : string,
        outbox (snd (EmailNotifier_Send env config domain n s)) =
          (outbox s ++
             [OutSendMail
                addr (EmailConfig.From config) (EmailConfig.To config)
                (head
                   ++ "Subject: "
                   ++ ("域名到期提醒：" ++ Domain.Name domain ++ " 还有 "
                         ++ FormatInt n ++ " 天到期")
                   ++ crlf ++ mid
                   ++ "剩余天数：" ++ FormatInt n ++ " 天" ++ newline
                   ++ tail)])%list).
Proof.
  intros env config domain n s. unfold EmailNotifier_Send.
  rewrite !bind_run. cbn [Now outbound fst snd].
  eexists.
  exists ("From: " ++ EmailConfig.From config ++ crlf
            ++ "To: " ++ Join (EmailConfig.To config) "," ++ crlf).
  exists ("Content-Type: text/plain; charset=UTF-8" ++ crlf ++ crlf
            ++ newline ++ "域名到期提醒" ++ newline ++ newline
            ++ "状态："
            ++ (if n <=? 7 then "🔴 紧急"
                else if n <=? 30 then "🟡 警告" else "🟢 正常")
            ++ newline
            ++ "域名：" ++ Domain.Name domain ++ newline).
  eexists.
  match goal with
  | |- context [smtp_SendMail env ?a ?b ?c ?d ?m] =>
      destruct (smtp_SendMail env a b c d m) as [err|];
      [destruct (negb (Contains (Error err) "short response"))|]
  end;
    rewrite ?bind_run; cbn [Printf ret fst snd outbox];
    rewrite ?bind_run; cbn [Printf ret fst snd outbox];
    do 3 f_equal; rewrite !append_assoc_r; reflexivity.
Qed.

Lemma TelegramNotifier_Send_carries_days :
  (forall (env : Env) (config : TelegramConfig.t) (domain : Domain.t) (n : Z)
          (s : Sys),
      exists (client : HttpClient) (head tail : string),
        outbox (snd (TelegramNotifier_Send env config domain n s)) =
          (outbox s ++
             [OutHttpPost
                client
                ("https://api.telegram.org/bot"
                   ++ TelegramConfig.BotToken config ++ "/sendMessage")
                "application/json"
                (JObject
                   [ ("chat_id", JString (TelegramConfig.ChatID config));
                     ("text",
                       JString (head ++ "Domain: " ++ Domain.Name domain
                                  ++ newline
                                  ++ "剩余天数: " ++ FormatInt n ++ newline
                                  ++ tail)) ])])%list).
Proof.
  intros env config domain n s. unfold TelegramNotifier_Send.
  destruct (proxy_SOCKS5 env "127.0.0.1:7890") as [perr|];
    eexists; exists ("⚠️ 域名到期提醒" ++ newline ++ newline); eexists;
    repeat (rewrite ?bind_run; progress cbn [Printf outbound fst snd ret]);
    match goal with
    | |- context [http_Post env ?c ?u ?t ?b] =>
        destruct (http_Post env c u t b) as [resp|err];
        [destruct (negb (StatusCode resp =? StatusOK))|]
    end;
    cbn [ret fst snd outbox];
    rewrite !append_assoc_r; reflexivity.
Qed.

Lemma DingDingNotifier_Send_carries_days :
  (forall (env : Env) (config : DingDingConfig.t) (domain : Domain.t) (n : Z)
          (s : Sys),
      DingDingConfig.Secret config = ""
      \/ url_Parse_Error env (DingDingConfig.Webhook config) = None ->
      exists url head tail : string,
        outbox (snd (DingDingNotifier_Send env config domain n s)) =
          (outbox s ++
             [OutHttpPost
                DefaultClient url "application/json"
                (JObject
                   [ ("msgtype", JString "markdown");
                     ("markdown",
                       JObject
                         [ ("title", JString "域名到期提醒");
                           ("text",
                             JString (head ++ "**剩余天数**: " ++ FormatInt n
                                        ++ " 天" ++ tail)) ]) ])])%list).
Proof.
  intros env config domain n s Hpost. unfold DingDingNotifier_Send.
  destruct (String.eqb_spec (DingDingConfig.Secret config) "") as [He|Hne];
    cbn [negb];
    eexists;
    exists ("## "
              ++ (if n <=? 7 then "🔴" else if n <=? 30 then "🟡" else "🟢")
              ++ " 域名到期提醒" ++ newline ++ newline
              ++ "**域名**: " ++ Domain.Name domain ++ newline ++ newline);
    eexists.
  - rewrite bind_run. cbn [outbound fst snd].
    match goal with
    | |- context [http_Post env ?c ?u ?t ?b] =>
        destruct (http_Post env c u t b) as [resp|err]
    end;
      [destruct (negb (StatusCode resp =? StatusOK));
       [|destruct (json_errcode env (Body resp))]|];
      cbn [ret fst snd outbox];
      rewrite !append_assoc_r; reflexivity.
  - destruct Hpost as [Hs|Hu]; [contradiction|].
    rewrite bind_run. cbn [Now fst snd]. rewrite Hu.
    rewrite bind_run. cbn [outbound fst snd].
    match goal with
    | |- context [http_Post env ?c ?u ?t ?b] =>
        destruct (http_Post env c u t b) as [resp|err]
    end;
      [destruct (negb (StatusCode resp =? StatusOK));
       [|destruct (json_errcode env (Body resp))]|];
      cbn [ret fst snd outbox];
      rewrite !append_assoc_r; reflexivity.
Qed.

(** C10. Every record [SendNotification(domain, daysRemaining)] appends
    has the content "Domain <name> expires in <d> days" with <d> the
    record's stored days remaining, whatever [daysRemaining] is, while the
    senders are handed [daysRemaining] and deliver it: the webhook sender
    posts it as "days_remaining", the mail carries it in its subject and
    in its body, the Telegram text and the DingTalk text carry it in their
    days-remaining line (the DingTalk sender posts unless it has a secret
    and a webhook URL that does not parse), and none of the four senders
    reads the stored field. So when the argument differs from the stored
    field, the audit content is not the one that would report the
    argument, and the delivered message reports another day count than
    the audit record. *)
Theorem audit_content_reports_stored_days :
  (forall (env : Env) (s : NotifyService) (domain : Domain.t) (n : Z)
          (w : World),
      snd (SendNotification env s domain n w)
        = snd (attempts env (notifiers s) domain n w) /\
      exists recs : list Notification.t,
        notifications (snd (SendNotification env s domain n w))
          = (notifications w ++ recs)%list /\
        List.length recs = List.length (notifiers s) /\
        Forall (fun x =>
                  Notification.Content x =
                    audit_content domain (Domain.DaysRemaining domain) /\
                  (n <> Domain.DaysRemaining domain ->
                   Notification.Content x <> audit_content domain n))
               recs) /\
  (forall (env : Env) (config : WebhookConfig.t) (domain : Domain.t) (n : Z)
          (s : Sys),
      exists rest : list (string * json),
        outbox (snd (WebhookNotifier_Send env config domain n s)) =
          (outbox s ++
             [OutHttpPost DefaultClient (WebhookConfig.URL config)
                          "application/json"
                          (JObject (("domain", JString (Domain.Name domain))
                                      :: ("days_remaining", JNumber n)
                                      :: rest))])%list) /\
  (forall (env : Env) (config : EmailConfig.t) (domain : Domain.t) (n : Z)
          (s : Sys),
      exists addr head mid tail : string,
        outbox (snd (EmailNotifier_Send env config domain n s)) =
          (outbox s ++
             [OutSendMail
                addr (EmailConfig.From config) (EmailConfig.To config)
                (head
                   ++ "Subject: "
                   ++ ("域名到期提醒：" ++ Domain.Name domain ++ " 还有 "
                         ++ FormatInt n ++ " 天到期")
                   ++ crlf ++ mid
                   ++ "剩余天数：" ++ FormatInt n ++ " 天" ++ newline
                   ++ tail)])%list) /\
  (forall (env : Env) (config : TelegramConfig.t) (domain : Domain.t) (n : Z)
          (s : Sys),
      exists (client : HttpClient) (head tail : string),
        outbox (snd (TelegramNotifier_Send env config domain n s)) =
          (outbox s ++
             [OutHttpPost
                client
                ("https://api.telegram.org/bot"
                   ++ TelegramConfig.BotToken config ++ "/sendMessage")
                "application/json"
                (JObject
                   [ ("chat_id", JString (TelegramConfig.ChatID config));
                     ("text",
                       JString (head ++ "Domain: " ++ Domain.Name domain
                                  ++ newline
                                  ++ "剩余天数: " ++ FormatInt n ++ newline
                                  ++ tail)) ])])%list) /\
  (forall (env : Env) (config : DingDingConfig.t) (domain : Domain.t) (n : Z)
          (s : Sys),
      DingDingConfig.Secret config = ""
      \/ url_Parse_Error env (DingDingConfig.Webhook config) = None ->
      exists url head tail : string,
        outbox (snd (DingDingNotifier_Send env config domain n s)) =
          (outbox s ++
             [OutHttpPost
                DefaultClient url "application/json"
                (JObject
                   [ ("msgtype", JString "markdown");
                     ("markdown",
                       JObject
                         [ ("title", JString "域名到期提醒");
                           ("text",
                             JString (head ++ "**剩余天数**: " ++ FormatInt n
                                        ++ " 天" ++ tail)) ]) ])])%list) /\
  (forall (env : Env) (domain : Domain.t) (n stored : Z),
      let domain' := Domain.set_DaysRemaining stored domain in
      (forall c, EmailNotifier_Send env c domain' n
                 = EmailNotifier_Send env c domain n) /\
      (forall c, WebhookNotifier_Send env c domain' n
                 = WebhookNotifier_Send env c domain n) /\
      (forall c, TelegramNotifier_Send env c domain' n
                 = TelegramNotifier_Send env c domain n) /\
      (forall c, DingDingNotifier_Send env c domain' n
                 = DingDingNotifier_Send env c domain n)) /\
  (let out :=
     SendNotification
       sample_env
       (mkNotifyService [NewWebhookNotifier sample_env sample_webhook])
       sample_domain 30 empty_world in
   map Notification.Content (notifications (snd out)) =
     ["Domain example.com expires in 7 days"] /\
   outbox (sys (snd out)) =
     [OutHttpPost DefaultClient "https://hooks.example/notify"
                  "application/json"
                  (JObject [ ("domain", JString "example.com");
                             ("days_remaining", JNumber 30);
                             ("expiry_date", JString "");
                             ("registrar", JString "");
                             ("status", JString "") ])]).
Proof.
  split; [|split; [|split; [|split; [|split; [|split]]]]];
    [| | exact EmailNotifier_Send_carries_days
       | exact TelegramNotifier_Send_carries_days
       | exact DingDingNotifier_Send_carries_days
       | intros; repeat split |].
  - intros env s domain n w.
    rewrite SendNotification_run. cbn [snd].
    split; [reflexivity|].
    destruct (attempts_run env (notifiers s) domain n w)
      as (recs & Hn & _ & _ & _ & Ht & _ & Hc).
    exists recs. split; [exact Hn|]. split.
    + rewrite <- (length_map Notification.Type_), Ht, length_map. reflexivity.
    + eapply Forall_impl; [|exact Hc].
      intros x [_ Hx]. split; [exact Hx|].
      intros Hne Heq. apply Hne. symmetry.
      apply (audit_content_inj domain). rewrite <- Heq, Hx. reflexivity.
  - intros env config domain n s.
    unfold WebhookNotifier_Send. cbv zeta. rewrite bind_run.
    cbn [outbound fst snd].
    eexists.
    match goal with
    | |- context [http_Post env ?c ?u ?t ?b] =>
        destruct (http_Post env c u t b) as [resp|err]
    end.
    + destruct (negb (StatusCode resp =? StatusOK)); reflexivity.
    + reflexivity.
  - split; reflexivity.
Qed.


(** ** The days remaining *)





(** [int(f)] discards the fraction, whatever the sign. *)
Example int_of_float64_truncates :
  int_of_float64 2.75 = 2 /\ int_of_float64 (-2.75) = -2 /\
  int_of_float64 0.5 = 0 /\ int_of_float64 (-0.5) = 0 /\
  int_of_float64 1e18 = 10 ^ 18 /\ int_of_float64 (-0) = 0.
Proof. repeat split. Qed.

Example days_of_around_zero :
  days_of (36 * Hour) = 1 /\ days_of (- 36 * Hour) = -1 /\
  days_of (24 * Hour - 1) = 0 /\ days_of (- 12 * Hour) = 0 /\
  days_of (1 - 24 * Hour) = 0.
Proof. repeat split. Qed.

(** [Hours] rounds: one nanosecond short of 200 days is 4800 hours as a
    [float64], hence 200 days. This is why [days_of] is related to the
    exact quotient on whole hours only. *)
Example days_of_rounds_with_Hours :
  days_of (200 * 24 * Hour - 1) = 200 /\
  Z.quot (200 * 24 * Hour - 1) (24 * Hour) = 199.
Proof. split; reflexivity. Qed.





(** ** More on the monitor engine *)

Section MonitorMore.

Variable env : Env.

(** A dispatch only adds notification records. *)
Lemma SendNotification_appends s domain n w :
  exists recs : list Notification.t,
    notifications (snd (SendNotification env s domain n w)) =
      (notifications w ++ recs)%list /\
    List.length recs = List.length (notifiers s) /\
    Forall (fun x => Notification.Content x =
                       audit_content domain (Domain.DaysRemaining domain))
           recs.
Proof.
  rewrite SendNotification_run. cbn [snd].
  destruct (attempts_run env (notifiers s) domain n w)
    as (recs & Hn & _ & _ & _ & Ht & _ & Hc).
  exists recs. split; [exact Hn|]. split.
  - rewrite <- (length_map Notification.Type_), Ht, length_map. reflexivity.
  - eapply Forall_impl; [|exact Hc]. intros x [_ H]. exact H.
Qed.

Lemma CheckAndNotify_appends s domain w :
  exists recs : list Notification.t,
    notifications (snd (CheckAndNotify env s domain w)) =
      (notifications w ++ recs)%list.
Proof.
  unfold CheckAndNotify. destruct (notifyService s) as [ns|].
  - rewrite CheckAndNotify_loop_find.
    destruct (find _ (alertDays s)) as [t|].
    + unfold dispatch. rewrite bind_run. cbn [log_Printf fst snd].
      rewrite bind_run.
      match goal with
      | |- context [SendNotification env ns domain t ?w1] =>
          destruct (SendNotification_appends ns domain t w1) as (recs & Hn & _);
          destruct (SendNotification env ns domain t w1) as [[err|] w2]
      end; cbn [fst snd notifications log_Printf ret] in *;
        exists recs; exact Hn.
    + exists []. rewrite app_nil_r. reflexivity.
  - exists []. rewrite app_nil_r. reflexivity.
Qed.

End MonitorMore.

(** X1. [TriggerNotification] does not look at the alert thresholds: with a
    notification service it logs its line and makes one dispatch with the
    record's stored days remaining, whose verdict it returns, whatever the
    thresholds are; a record that [CheckAndNotify] passes over is still
    sent. Each record it appends reports the day count handed to the
    senders. Without a service it fails and touches nothing. *)
Theorem TriggerNotification_ignores_thresholds :
  forall (env : Env) (ns : NotifyService) (thresholds : list Z)
         (domain : Domain.t) (w : World),
    let s := mkMonitorService (Some ns) thresholds in
    let line :=
      "Triggering test notification for domain " ++ Domain.Name domain
        ++ " (" ++ FormatInt (Domain.DaysRemaining domain)
        ++ " days remaining)" in
    let w1 := mkWorld (sys w) (logged w ++ [line]) (saved w)
                      (notifications w) in
    let out := TriggerNotification env s domain w in
    out = SendNotification env ns domain (Domain.DaysRemaining domain) w1 /\
    logged (snd out) = (logged w ++ [line])%list /\
    saved (snd out) = saved w /\
    (exists recs : list Notification.t,
        notifications (snd out) = (notifications w ++ recs)%list /\
        List.length recs = List.length (notifiers ns) /\
        Forall (fun x => Notification.Content x =
                           audit_content domain (Domain.DaysRemaining domain))
               recs) /\
    (~ In (Domain.DaysRemaining domain) thresholds ->
     CheckAndNotify env s domain w = (tt, w)) /\
    TriggerNotification env (mkMonitorService None thresholds) domain w =
      (Some (errorString "notification service not available"), w).
Proof.
  intros env ns thresholds domain w s line w1 out.
  assert (E : out = SendNotification env ns domain
                      (Domain.DaysRemaining domain) w1).
  { subst out. unfold TriggerNotification. cbn [notifyService s].
    rewrite bind_run. reflexivity. }
  split; [exact E|]. rewrite E.
  destruct (SendNotification_frame env ns domain
              (Domain.DaysRemaining domain) w1) as [Hl Hs].
  split; [exact Hl|]. split; [exact Hs|]. split.
  - exact (SendNotification_appends env ns domain _ w1).
  - split; [|reflexivity].
    intros Hnot. unfold CheckAndNotify. cbn [notifyService alertDays s].
    rewrite CheckAndNotify_loop_find.
    destruct (find _ thresholds) as [t|] eqn:F; [|reflexivity].
    apply find_some in F. destruct F as [Hin Heq].
    apply Z.eqb_eq in Heq. rewrite <- Heq in Hin. contradiction.
Qed.

(** X2. When the lookup succeeds and the store refuses the row,
    [CheckDomain] returns the store's error wrapped under "failed to save
    domain: ", and stops there: nothing is saved, nothing is logged, no
    notification goes out and no audit record is written, even when the new
    day count is one of the thresholds. The caller's record holds the
    looked-up facts and the last-checked time all the same. *)
Theorem CheckDomain_save_failure :
  forall (env : Env) (s : MonitorService) (domain : Domain.t) (w : World)
         (info : DomainInfo.t) (e : error),
    QueryDomain env (Domain.Name domain) = inl info ->
    db_Save_Error env (checked_record env info domain w) = Some e ->
    let out := CheckDomain env s domain w in
    (exists err : error,
        snd (fst out) = Some err /\
        Error err = "failed to save domain: " ++ Error e /\
        Unwrap err = Some e) /\
    looked_up_facts info (fst (fst out)) /\
    Domain.LastChecked (fst (fst out)) = clock env (ticks (sys w)) /\
    saved (snd out) = saved w /\
    logged (snd out) = logged w /\
    notifications (snd out) = notifications w /\
    outbox (sys (snd out)) = outbox (sys w) /\
    stdout (sys (snd out)) = stdout (sys w).
Proof.
  intros env s domain w info e Hq Hsave out. subst out.
  rewrite (CheckDomain_lookup_ok env s domain w info Hq). cbv zeta.
  rewrite Hsave. cbn [fst snd saved logged notifications sys outbox stdout].
  split.
  - eexists. split; [reflexivity|]. split; reflexivity.
  - unfold looked_up_facts, checked_record.
    destruct (IsZero (DomainInfo.ExpiryDate info)); repeat split.
Qed.

(** An outside world in which lookups succeed and the store refuses every
    row. *)
Lemma CheckDomain_save_failure_witness :
  let env :=
    mkEnv (clock sample_env) (time_Format sample_env)
          (fun _ => inl sample_info)
          (db_FindActive sample_env)
          (fun _ => Some (errorString "database is locked"))
          (db_Save_writes sample_env)
          (smtp_SendMail sample_env) (http_Post sample_env)
          (proxy_SOCKS5 sample_env) (url_Parse_Error sample_env)
          (url_AddQuery sample_env) (json_errcode sample_env) in
  let out := CheckDomain env sample_monitor sample_domain empty_world in
  snd (fst out) =
    Some (wrapError "failed to save domain: database is locked"
                    (errorString "database is locked")) /\
  saved (snd out) = [] /\
  notifications (snd out) = [].
Proof.
  cbv zeta.
  pose proof
    (CheckDomain_save_failure
       (mkEnv (clock sample_env) (time_Format sample_env)
              (fun _ => inl sample_info)
              (db_FindActive sample_env)
              (fun _ => Some (errorString "database is locked"))
              (db_Save_writes sample_env)
              (smtp_SendMail sample_env) (http_Post sample_env)
              (proxy_SOCKS5 sample_env) (url_Parse_Error sample_env)
              (url_AddQuery sample_env) (json_errcode sample_env))
       sample_monitor sample_domain empty_world sample_info
       (errorString "database is locked") eq_refl eq_refl) as H.
  cbv zeta in H.
  destruct H as ((err & He & Hm & Hu) & _ & _ & Hs & _ & Hn & _).
  split; [|split; [exact Hs | exact Hn]].
  rewrite He. destruct err as [m|m inner]; [discriminate Hu|].
  cbn [Error Unwrap] in Hm, Hu. injection Hu as ->. rewrite Hm. reflexivity.
Defined.

(** X3. When the lookup and the save succeed, [CheckDomain] returns nil
    whatever the notification channels do: a dispatch that fails is logged
    and goes no further. The checked record is saved once, before any
    audit record is written; what comes back is that record as the store's
    write-back leaves it, and the first line the check logs reports the
    new day count. With two failing channels and a record at a threshold,
    the check still returns nil, and the log ends with the failure of the
    dispatch; with a store that stamps the time of the update, the record
    that comes back carries the stamp. *)
Theorem CheckDomain_hides_notification_failure :
  forall (env : Env) (s : MonitorService) (domain : Domain.t) (w : World)
         (info : DomainInfo.t),
    QueryDomain env (Domain.Name domain) = inl info ->
    let d1 := checked_record env info domain w in
    db_Save_Error env d1 = None ->
    let out := CheckDomain env s domain w in
    fst out = (written_back env d1, None) /\
    saved (snd out) = (saved w ++ [d1])%list /\
    (exists rest : list string,
        logged (snd out) =
          (logged w ++
             ("Updated domain " ++ Domain.Name domain ++ ": "
                ++ FormatInt (Domain.DaysRemaining d1)
                ++ " days remaining")%string :: rest)%list) /\
    (exists recs : list Notification.t,
        notifications (snd out) = (notifications w ++ recs)%list) /\
    (let out' :=
       CheckDomain (env_with_lookup (fun _ => inl sample_info))
                   (mkMonitorService (Some failing_channels) [30; 7; 1])
                   sample_domain empty_world in
     snd (fst out') = None /\
     map Notification.Status (notifications (snd out')) =
       ["failed"; "failed"] /\
     logged (snd out') =
       [ "Updated domain example.com: 7 days remaining";
         "Sending notification for domain example.com (7 days remaining)";
         "Failed to send notification for example.com: connection refused" ]) /\
    (let out' :=
       CheckDomain stamping_env sample_monitor sample_domain empty_world in
     Domain.UpdatedAt (fst (fst out')) = 86400 * Second /\
     map Domain.UpdatedAt (saved (snd out')) = [0]).
Proof.
  intros env s domain w info Hq d1 Hsave out. subst out.
  rewrite (CheckDomain_lookup_ok env s domain w info Hq). cbv zeta.
  fold d1. rewrite Hsave. cbn [fst snd].
  match goal with
  | |- context [CheckAndNotify env s ?d ?w1] =>
      destruct (CheckAndNotify_extends env s d w1) as [Hs [[l Hl] _]];
      destruct (CheckAndNotify_appends env s d w1) as [recs Hn]
  end.
  cbn [saved logged notifications] in Hs, Hl, Hn.
  split; [reflexivity|]. split; [exact Hs|]. split; [|split; [|split]].
  - exists l. rewrite Hl, <- app_assoc.
    destruct (checked_record_carries_facts env info domain w)
      as (_ & _ & _ & _ & _ & _ & Hname & _).
    fold d1 in Hname. rewrite Hname. reflexivity.
  - exists recs. exact Hn.
  - repeat split.
  - split; reflexivity.
Qed.

Lemma CheckDomain_hides_notification_failure_witness :
  fst (CheckDomain stamping_env sample_monitor sample_domain empty_world)
  = (written_back stamping_env
       (checked_record stamping_env sample_info sample_domain empty_world),
     None).
Proof.
  exact (proj1 (CheckDomain_hides_notification_failure
                  stamping_env sample_monitor sample_domain empty_world
                  sample_info eq_refl eq_refl)).
Defined.

(** X4. No outcome of [CheckDomain] renames the record or retags it: the
    name and the tags of the record that comes back are those it was
    given, whether the lookup failed, the save failed or the check went
    through. (Its id, its active flag and its two stamps are the store's
    to write.) *)
Theorem CheckDomain_keeps_name_and_tags :
  forall (env : Env) (s : MonitorService) (domain : Domain.t) (w : World),
    let d' := fst (fst (CheckDomain env s domain w)) in
    Domain.Name d' = Domain.Name domain /\
    Domain.Tags d' = Domain.Tags domain.
Proof.
  intros env s domain w d'. subst d'.
  destruct (QueryDomain env (Domain.Name domain)) as [info|err] eqn:E.
  - pose proof (CheckDomain_outcome env s domain w) as H. cbv zeta in H.
    rewrite E in H. destruct H as (_ & -> & _).
    destruct (checked_record_carries_facts env info domain w)
      as (_ & _ & _ & _ & _ & _ & Hn & Ht & _).
    unfold written_back. cbn [Domain.Name Domain.Tags].
    split; assumption.
  - rewrite (CheckDomain_lookup_failed env s domain w err E).
    split; reflexivity.
Qed.

(** ** More on the batch *)

Section BatchMore.

Variable env : Env.

Lemma CheckAndNotify_logs_no_failed_check s domain w :
  exists l : list string,
    logged (snd (CheckAndNotify env s domain w)) = (logged w ++ l)%list /\
    filter reports_failed_check l = [].
Proof.
  unfold CheckAndNotify. destruct (notifyService s) as [ns|].
  - rewrite CheckAndNotify_loop_find.
    destruct (find _ (alertDays s)) as [t|].
    + unfold dispatch. rewrite bind_run. cbn [log_Printf fst snd].
      rewrite bind_run.
      match goal with
      | |- context [SendNotification env ns domain t ?w1] =>
          destruct (SendNotification_frame env ns domain t w1) as [Hl _];
          destruct (SendNotification env ns domain t w1) as [[err|] w2]
      end; cbn [fst snd logged log_Printf ret] in *; rewrite Hl.
      * eexists [_; _]. rewrite <- app_assoc. split; reflexivity.
      * eexists [_]. split; reflexivity.
    + exists []. rewrite app_nil_r. split; reflexivity.
  - exists []. rewrite app_nil_r. split; reflexivity.
Qed.

(** One turn of the batch over a store that accepts every row: the row of
    a successful lookup is saved, a failed lookup gives one report. *)
Lemma check_and_log_turn s d w :
  (forall x, db_Save_Error env x = None) ->
  let w' := snd (check_and_log env s d w) in
  exists (rows : list Domain.t) (lines : list string),
    saved w' = (saved w ++ rows)%list /\
    logged w' = (logged w ++ lines)%list /\
    map Domain.Name rows =
      map Domain.Name (filter (lookup_succeeds env) [d]) /\
    map Domain.ID rows =
      map Domain.ID (filter (lookup_succeeds env) [d]) /\
    List.length (filter reports_failed_check lines) =
      List.length (filter (fun x => negb (lookup_succeeds env x)) [d]).
Proof.
  intros Hstore w'. subst w'. unfold check_and_log. rewrite bind_run.
  cbn [filter]. unfold lookup_succeeds.
  destruct (QueryDomain env (Domain.Name d)) as [info|err] eqn:E.
  - rewrite (CheckDomain_lookup_ok env s d w info E). cbv zeta.
    rewrite Hstore. cbn [fst snd ret].
    match goal with
    | |- context [CheckAndNotify env s ?d1 ?w1] =>
        destruct (CheckAndNotify_extends env s d1 w1) as [Hs _];
        destruct (CheckAndNotify_logs_no_failed_check s d1 w1)
          as (l & Hl & Hf)
    end.
    cbn [saved logged] in Hs, Hl.
    eexists [_], (_ :: l). rewrite Hs, Hl, <- app_assoc.
    split; [reflexivity|]. split; [reflexivity|].
    destruct (checked_record_carries_facts env info d w)
      as (_ & _ & _ & _ & _ & Hid & Hname & _).
    cbn [map negb filter]. rewrite Hid, Hname.
    split; [reflexivity|]. split; [reflexivity|].
    rewrite Hf. reflexivity.
  - rewrite (CheckDomain_lookup_failed env s d w err E).
    cbn [fst snd log_Printf saved logged].
    exists [], [("Error checking domain " ++ Domain.Name d ++ ": "
                   ++ "WHOIS query failed: " ++ Error err)%string].
    rewrite app_nil_r. repeat split.
Qed.

Lemma CheckAllDomains_loop_turns s :
  (forall x, db_Save_Error env x = None) ->
  forall domains w,
    let w' := snd (CheckAllDomains_loop env s domains w) in
    exists (rows : list Domain.t) (lines : list string),
      saved w' = (saved w ++ rows)%list /\
      logged w' = (logged w ++ lines)%list /\
      map Domain.Name rows =
        map Domain.Name (filter (lookup_succeeds env) domains) /\
      map Domain.ID rows =
        map Domain.ID (filter (lookup_succeeds env) domains) /\
      List.length (filter reports_failed_check lines) =
        List.length (filter (fun x => negb (lookup_succeeds env x)) domains).
Proof.
  intros Hstore. induction domains as [|d rest IH]; intros w w'; subst w'.
  - exists [], []. cbn. rewrite !app_nil_r. repeat split.
  - rewrite CheckAllDomains_loop_cons.
    destruct (check_and_log_turn s d w Hstore)
      as (r1 & l1 & Hs1 & Hl1 & Hn1 & Hi1 & Hc1).
    destruct (IH (snd (check_and_log env s d w)))
      as (r2 & l2 & Hs2 & Hl2 & Hn2 & Hi2 & Hc2).
    exists (r1 ++ r2)%list, (l1 ++ l2)%list.
    rewrite Hs2, Hs1, Hl2, Hl1, <- !app_assoc.
    split; [reflexivity|]. split; [reflexivity|].
    change (d :: rest) with ([d] ++ rest)%list.
    rewrite !filter_app, !map_app, !length_app, Hn1, Hn2, Hi1, Hi2, Hc1, Hc2.
    repeat split.
Qed.

End BatchMore.

(** X5. When the query for the active domains fails, [CheckAllDomains]
    returns that error wrapped under "failed to fetch domains: " and does
    nothing else: no domain is checked, nothing is logged or saved. *)
Theorem CheckAllDomains_fetch_failure :
  forall (env : Env) (s : MonitorService) (w : World) (err : error),
    db_FindActive env = inr err ->
    exists e : error,
      CheckAllDomains env s w = (Some e, w) /\
      Error e = "failed to fetch domains: " ++ Error err /\
      Unwrap e = Some err.
Proof.
  intros env s w err E. unfold CheckAllDomains. rewrite E.
  eexists. split; [reflexivity|]. split; reflexivity.
Qed.

Lemma CheckAllDomains_fetch_failure_witness :
  exists e : error,
    CheckAllDomains
      (mkEnv (clock sample_env) (time_Format sample_env)
             (QueryDomain sample_env)
             (inr (errorString "no such table: domains"))
             (db_Save_Error sample_env)
             (db_Save_writes sample_env)
             (smtp_SendMail sample_env) (http_Post sample_env)
             (proxy_SOCKS5 sample_env) (url_Parse_Error sample_env)
             (url_AddQuery sample_env) (json_errcode sample_env))
      sample_monitor empty_world = (Some e, empty_world) /\
    Error e = "failed to fetch domains: no such table: domains" /\
    Unwrap e = Some (errorString "no such table: domains").
Proof.
  exact (CheckAllDomains_fetch_failure
           (mkEnv (clock sample_env) (time_Format sample_env)
                  (QueryDomain sample_env)
                  (inr (errorString "no such table: domains"))
                  (db_Save_Error sample_env)
                  (db_Save_writes sample_env)
                  (smtp_SendMail sample_env) (http_Post sample_env)
                  (proxy_SOCKS5 sample_env) (url_Parse_Error sample_env)
                  (url_AddQuery sample_env) (json_errcode sample_env))
           sample_monitor empty_world
           (errorString "no such table: domains") eq_refl).
Defined.

(** X6. Over a store that accepts every row, a batch saves one row for
    each domain whose lookup succeeds and for no other, in the order of the
    batch, and logs one "Error checking domain" line for each domain whose
    lookup fails; the first line it logs gives the size of the batch. An
    empty batch logs that line and nothing else. *)
Theorem CheckAllDomains_saves_successful_lookups_in_order :
  forall (env : Env) (s : MonitorService) (w : World)
         (domains : list Domain.t),
    db_FindActive env = inl domains ->
    (forall x, db_Save_Error env x = None) ->
    let out := CheckAllDomains env s w in
    fst out = None /\
    exists (rows : list Domain.t) (lines : list string),
      saved (snd out) = (saved w ++ rows)%list /\
      logged (snd out) =
        (logged w ++
           ("Checking " ++ FormatInt (Z.of_nat (List.length domains))
              ++ " domains...")%string :: lines)%list /\
      map Domain.Name rows =
        map Domain.Name (filter (lookup_succeeds env) domains) /\
      map Domain.ID rows =
        map Domain.ID (filter (lookup_succeeds env) domains) /\
      List.length (filter reports_failed_check lines) =
        List.length (filter (fun x => negb (lookup_succeeds env x)) domains) /\
      (domains = [] -> rows = [] /\ lines = []).
Proof.
  intros env s w domains Hfetch Hstore out. subst out.
  unfold CheckAllDomains. rewrite Hfetch. rewrite !bind_run.
  cbn [fst snd ret log_Printf].
  split; [reflexivity|].
  match goal with
  | |- context [CheckAllDomains_loop env s domains ?w1] =>
      destruct (CheckAllDomains_loop_turns env s Hstore domains w1)
        as (rows & lines & Hs & Hl & Hn & Hi & Hc)
  end.
  cbn [saved logged] in Hs, Hl.
  exists rows, lines. rewrite Hs, Hl, <- app_assoc.
  repeat split; try assumption.
  - subst domains. destruct rows; [reflexivity | discriminate Hn].
  - subst domains. cbn in Hc. destruct lines as [|x lines]; [reflexivity|].
    cbn [saved logged snd CheckAllDomains_loop ret] in Hl.
    apply (f_equal (@List.length string)) in Hl.
    rewrite !length_app in Hl. cbn [List.length] in Hl. lia.
Qed.

(** The batch of five domains, the third of which cannot be looked up. *)
Lemma CheckAllDomains_saves_successful_lookups_in_order_witness :
  let out := CheckAllDomains batch_env sample_monitor empty_world in
  fst out = None /\
  map Domain.Name (saved (snd out)) =
    ["one.example"; "two.example"; "four.example"; "five.example"] /\
  List.length (filter reports_failed_check (logged (snd out))) = 1%nat.
Proof.
  cbv zeta.
  destruct (CheckAllDomains_saves_successful_lookups_in_order
              batch_env sample_monitor empty_world batch eq_refl
              (fun _ => eq_refl))
    as (Hr & rows & lines & Hs & Hl & Hn & _ & Hc & _).
  split; [exact Hr|]. cbn [saved logged empty_world app] in Hs, Hl.
  rewrite Hs, Hl, Hn. cbn [filter].
  replace (reports_failed_check _) with false by reflexivity.
  rewrite Hc. split; reflexivity.
Defined.

(** ** More on the channel senders *)

(** X7. With no channel enabled in the configuration the service has no
    sender, and a dispatch reports success although nothing was sent: no
    outbound call, no audit record, no output; the world is as it was. *)
Theorem SendNotification_all_channels_disabled :
  forall (env : Env) (cfg : NotificationsConfig.t) (domain : Domain.t)
         (n : Z) (w : World),
    EmailConfig.Enabled (NotificationsConfig.Email cfg) = false ->
    WebhookConfig.Enabled (NotificationsConfig.Webhook cfg) = false ->
    TelegramConfig.Enabled (NotificationsConfig.Telegram cfg) = false ->
    DingDingConfig.Enabled (NotificationsConfig.DingDing cfg) = false ->
    notifiers (NewNotifyService env cfg) = [] /\
    SendNotification env (NewNotifyService env cfg) domain n w = (None, w) /\
    TriggerNotification
      env (mkMonitorService (Some (NewNotifyService env cfg)) []) domain w
    = (None,
       mkWorld (sys w)
         (logged w ++
            [("Triggering test notification for domain "
                ++ Domain.Name domain ++ " ("
                ++ FormatInt (Domain.DaysRemaining domain)
                ++ " days remaining)")%string])
         (saved w) (notifications w)).
Proof.
  intros env cfg domain n w He Hw Ht Hd.
  assert (E : NewNotifyService env cfg = mkNotifyService []).
  { unfold NewNotifyService. rewrite He, Hw, Ht, Hd. reflexivity. }
  rewrite E. repeat split.
Qed.

Lemma SendNotification_all_channels_disabled_witness :
  SendNotification
    sample_env
    (NewNotifyService sample_env
       (NotificationsConfig.mk
          (EmailConfig.mk false "smtp.example" 465 "monitor@example" "secret"
                          ["ops@example"])
          (WebhookConfig.mk false "https://hooks.example/notify")
          (TelegramConfig.mk false "" "")
          (DingDingConfig.mk false "" "")))
    sample_domain 7 empty_world
  = (None, empty_world).
Proof.
  exact (proj1 (proj2 (SendNotification_all_channels_disabled
                         sample_env
                         (NotificationsConfig.mk
                            (EmailConfig.mk false "smtp.example" 465
                                            "monitor@example" "secret"
                                            ["ops@example"])
                            (WebhookConfig.mk false
                                              "https://hooks.example/notify")
                            (TelegramConfig.mk false "" "")
                            (DingDingConfig.mk false "" ""))
                         sample_domain 7 empty_world
                         eq_refl eq_refl eq_refl eq_refl))).
Defined.

(** X8. [WebhookNotifier.Send] makes exactly one POST, of a JSON body to
    the configured URL, carrying the domain's name and the day count it was
    given; it reads no clock and prints nothing. It returns nil
    exactly when the answer has status 200: a transport error comes back
    as it is (not wrapped), and any other status, another 2xx included, is
    the error "webhook returned status N". With the webhook as the only
    channel and an endpoint answering 204, the dispatch fails and the
    audit record reads "failed". *)
Theorem WebhookNotifier_Send_succeeds_only_on_200 :
  forall (env : Env) (config : WebhookConfig.t) (domain : Domain.t) (n : Z)
         (s : Sys),
    let out := WebhookNotifier_Send env config domain n s in
    exists fields : list (string * json),
      let body := JObject fields in
      In ("domain", JString (Domain.Name domain)) fields /\
      In ("days_remaining", JNumber n) fields /\
      snd out =
        mkSys (ticks s) (stdout s)
              (outbox s ++
                 [OutHttpPost DefaultClient (WebhookConfig.URL config)
                              "application/json" body]) /\
      let answer :=
        http_Post env DefaultClient (WebhookConfig.URL config)
                  "application/json" body in
      (fst out = None <->
       exists resp, answer = inl resp /\ StatusCode resp = 200) /\
      (forall err, answer = inr err -> fst out = Some err) /\
      (forall resp,
          answer = inl resp -> StatusCode resp <> 200 ->
          fst out =
            Some (errorString ("webhook returned status "
                                 ++ FormatInt (StatusCode resp)))) /\
      (let env204 :=
         mkEnv (clock sample_env) (time_Format sample_env)
               (QueryDomain sample_env) (db_FindActive sample_env)
               (db_Save_Error sample_env)
               (db_Save_writes sample_env) (smtp_SendMail sample_env)
               (fun _ _ _ _ => inl (mkHttpResponse 204 ""))
               (proxy_SOCKS5 sample_env) (url_Parse_Error sample_env)
               (url_AddQuery sample_env) (json_errcode sample_env) in
       let out204 :=
         SendNotification
           env204
           (mkNotifyService [NewWebhookNotifier env204 sample_webhook])
           sample_domain 7 empty_world in
       fst out204 = Some (errorString "webhook returned status 204") /\
       map Notification.Status (notifications (snd out204)) = ["failed"]).
Proof.
  intros env config domain n s out. subst out.
  unfold WebhookNotifier_Send.
  match goal with
  | |- context [http_Post env DefaultClient _ _ (JObject ?p)] => exists p
  end.
  cbv zeta. split; [left; reflexivity|].
  split; [right; left; reflexivity|].
  rewrite bind_run. cbn [outbound fst snd].
  destruct (http_Post env DefaultClient (WebhookConfig.URL config) _ _)
    as [resp|err] eqn:E.
  - unfold StatusOK.
    destruct (Z.eqb_spec (StatusCode resp) 200) as [H200|Hnot];
      cbn [negb ret fst snd].
    + split; [reflexivity|]. split; [|split; [|split]].
      * split; [intros _; exists resp; split; [reflexivity | exact H200]
               | reflexivity].
      * intros err Herr. discriminate Herr.
      * intros r Hr Hne. injection Hr as <-. contradiction.
      * split; reflexivity.
    + split; [reflexivity|]. split; [|split; [|split]].
      * split; [discriminate|].
        intros (r & Hr & H200). injection Hr as <-. contradiction.
      * intros err Herr. discriminate Herr.
      * intros r Hr _. injection Hr as <-. reflexivity.
      * split; reflexivity.
  - cbn [ret fst snd]. split; [reflexivity|].
    split; [|split; [|split]].
    + split; [discriminate|]. intros (r & Hr & _). discriminate Hr.
    + intros e He. injection He as <-. reflexivity.
    + intros r Hr. discriminate Hr.
    + split; reflexivity.
Qed.

(** X9. A failure to build the SOCKS5 proxy dialer never makes
    [TelegramNotifier.Send] fail: it prints the failure and sends through a
    direct client with the same 30 s timeout, and the dialer's error is
    not returned. Either way exactly one POST goes to the bot's
    sendMessage URL; the call returns nil exactly when the answer has
    status 200, and an error of the POST itself, that of a proxy that
    cannot be reached included, comes back as it is. *)
Theorem TelegramNotifier_Send_falls_back_to_direct :
  forall (env : Env) (config : TelegramConfig.t) (domain : Domain.t) (n : Z)
         (s : Sys),
    let out := TelegramNotifier_Send env config domain n s in
    let url :=
      "https://api.telegram.org/bot" ++ TelegramConfig.BotToken config
        ++ "/sendMessage" in
    let client :=
      match proxy_SOCKS5 env "127.0.0.1:7890" with
      | Some _ => TimeoutClient (30 * Second)
      | None => Socks5Client (30 * Second) "127.0.0.1:7890"
      end in
    let line :=
      match proxy_SOCKS5 env "127.0.0.1:7890" with
      | Some err =>
          "[TELEGRAM] Failed to create SOCKS5 proxy: " ++ Error err ++ newline
      | None => "[TELEGRAM] Using SOCKS5 proxy: 127.0.0.1:7890" ++ newline
      end in
    exists text : string,
      let body :=
        JObject [ ("chat_id", JString (TelegramConfig.ChatID config));
                  ("text", JString text) ] in
      snd out =
        mkSys (ticks s) (stdout s ++ [line])
              (outbox s ++ [OutHttpPost client url "application/json" body]) /\
      let answer := http_Post env client url "application/json" body in
      (fst out = None <->
       exists resp, answer = inl resp /\ StatusCode resp = 200) /\
      (forall err, answer = inr err -> fst out = Some err) /\
      (forall resp,
          answer = inl resp -> StatusCode resp <> 200 ->
          fst out =
            Some (errorString ("telegram API returned status "
                                 ++ FormatInt (StatusCode resp)))).
Proof.
  intros env config domain n s out url client line.
  subst out url client line. unfold TelegramNotifier_Send.
  match goal with
  | |- context [("text", JString ?m)] => exists m
  end.
  destruct (proxy_SOCKS5 env "127.0.0.1:7890") as [perr|];
    cbv zeta;
    repeat (rewrite ?bind_run; progress cbn [Printf outbound fst snd ret]);
    match goal with
    | |- context [http_Post env ?c ?u ?t ?b] =>
        destruct (http_Post env c u t b) as [resp|err] eqn:E
    end;
    try (unfold StatusOK;
         destruct (Z.eqb_spec (StatusCode resp) 200) as [H200|Hnot]);
    cbn [negb ret fst snd stdout ticks outbox];
    (split; [reflexivity|]); (split; [|split]);
    try (split; [intros _; exists resp; split; [reflexivity | exact H200]
                | reflexivity]);
    try (split; [discriminate|];
         intros (r & Hr & H200); try discriminate Hr;
         injection Hr as <-; contradiction);
    try (intros e He; try discriminate He; injection He as <-; reflexivity);
    try (intros r Hr Hne; try discriminate Hr; injection Hr as <-;
         try contradiction; reflexivity).
Qed.

(** X10. [DingDingNotifier.Send] signs only when a secret is configured.
    Without a secret it reads no clock and posts to the configured webhook
    URL as it is. With a secret it reads the clock once and adds to the
    URL's query the timestamp, in milliseconds since the Unix epoch, and
    the signature of that same timestamp under the secret; if the URL does
    not parse it returns the error wrapped under "invalid webhook URL: "
    and posts nothing. *)
Theorem DingDingNotifier_Send_signs_with_sent_timestamp :
  forall (env : Env) (config : DingDingConfig.t) (domain : Domain.t) (n : Z)
         (s : Sys),
    let out := DingDingNotifier_Send env config domain n s in
    let webhook := DingDingConfig.Webhook config in
    let secret := DingDingConfig.Secret config in
    stdout (snd out) = stdout s /\
    (secret = "" ->
     ticks (snd out) = ticks s /\
     exists body,
       outbox (snd out) =
         (outbox s ++
            [OutHttpPost DefaultClient webhook "application/json" body])%list)
    /\
    (secret <> "" ->
     ticks (snd out) = S (ticks s) /\
     let timestamp := FormatInt (UnixMilli (clock env (ticks s))) in
     match url_Parse_Error env webhook with
     | Some err =>
         outbox (snd out) = outbox s /\
         fst out = Some (wrapError ("invalid webhook URL: " ++ Error err) err)
     | None =>
         exists body,
           outbox (snd out) =
             (outbox s ++
                [OutHttpPost
                   DefaultClient
                   (url_AddQuery env webhook
                      [("timestamp", timestamp);
                       ("sign", generateSign timestamp secret)])
                   "application/json" body])%list
     end).
Proof.
  intros env config domain n s out webhook secret. subst out webhook secret.
  unfold DingDingNotifier_Send.
  destruct (String.eqb_spec (DingDingConfig.Secret config) "") as [He|Hne];
    cbn [negb].
  - rewrite bind_run. cbn [outbound fst snd].
    match goal with
    | |- context [http_Post env ?c ?u ?t ?b] =>
        destruct (http_Post env c u t b) as [resp|err]
    end;
      [destruct (negb (StatusCode resp =? StatusOK));
       [|destruct (json_errcode env (Body resp))]|];
      cbn [ret fst snd stdout ticks outbox];
      (split; [reflexivity|]);
      (split; [intros _; split; [reflexivity | eexists; reflexivity]
              | intros H; contradiction]).
  - rewrite bind_run. cbn [Now fst snd].
    destruct (url_Parse_Error env (DingDingConfig.Webhook config)) as [perr|].
    + cbn [ret fst snd stdout ticks outbox].
      split; [reflexivity|]. split; [intros H; contradiction|].
      intros _. repeat split.
    + rewrite bind_run. cbn [outbound fst snd].
      match goal with
      | |- context [http_Post env ?c ?u ?t ?b] =>
          destruct (http_Post env c u t b) as [resp|err]
      end;
        [destruct (negb (StatusCode resp =? StatusOK));
         [|destruct (json_errcode env (Body resp))]|];
        cbn [ret fst snd stdout ticks outbox];
        (split; [reflexivity|]);
        (split; [intros H; contradiction
                | intros _; split; [reflexivity | eexists; reflexivity]]).
Qed.

(** X11. Once it posts, [DingDingNotifier.Send] returns nil exactly when
    the answer has status 200 and its body reports no non-zero errcode: a
    transport error comes back as it is, another status is "dingding
    webhook returned status N", and a 200 answer whose body carries a
    non-zero errcode is "dingding API error: " followed by its errmsg. *)
Theorem DingDingNotifier_Send_checks_errcode :
  forall (env : Env) (config : DingDingConfig.t) (domain : Domain.t) (n : Z)
         (s : Sys),
    let out := DingDingNotifier_Send env config domain n s in
    forall url body,
      outbox (snd out) =
        (outbox s ++
           [OutHttpPost DefaultClient url "application/json" body])%list ->
      let answer := http_Post env DefaultClient url "application/json" body in
      (fst out = None <->
       exists resp,
         answer = inl resp /\ StatusCode resp = 200 /\
         json_errcode env (Body resp) = None) /\
      (forall err, answer = inr err -> fst out = Some err) /\
      (forall resp,
          answer = inl resp -> StatusCode resp <> 200 ->
          fst out =
            Some (errorString ("dingding webhook returned status "
                                 ++ FormatInt (StatusCode resp)))) /\
      (forall resp errmsg,
          answer = inl resp -> StatusCode resp = 200 ->
          json_errcode env (Body resp) = Some errmsg ->
          fst out = Some (errorString ("dingding API error: " ++ errmsg))).
Proof.
  intros env config domain n s out url body Hout answer. subst out answer.
  revert Hout. unfold DingDingNotifier_Send.
  assert (Hpost :
    forall u b s0,
      let post :=
        bind (outbound (OutHttpPost DefaultClient u "application/json" b))
             (fun _ =>
                match http_Post env DefaultClient u "application/json" b with
                | inr err => ret (Some err)
                | inl resp =>
                    if negb (StatusCode resp =? StatusOK) then
                      ret (Some (errorString
                                   ("dingding webhook returned status "
                                      ++ FormatInt (StatusCode resp))))
                    else
                      match json_errcode env (Body resp) with
                      | Some errmsg =>
                          ret (Some (errorString
                                       ("dingding API error: " ++ errmsg)))
                      | None => ret None
                      end
                end) s0 in
      outbox (snd post) =
        (outbox s0 ++
           [OutHttpPost DefaultClient url "application/json" body])%list ->
      let answer := http_Post env DefaultClient url "application/json" body in
      (fst post = None <->
       exists resp,
         answer = inl resp /\ StatusCode resp = 200 /\
         json_errcode env (Body resp) = None) /\
      (forall err, answer = inr err -> fst post = Some err) /\
      (forall resp,
          answer = inl resp -> StatusCode resp <> 200 ->
          fst post =
            Some (errorString ("dingding webhook returned status "
                                 ++ FormatInt (StatusCode resp)))) /\
      (forall resp errmsg,
          answer = inl resp -> StatusCode resp = 200 ->
          json_errcode env (Body resp) = Some errmsg ->
          fst post = Some (errorString ("dingding API error: " ++ errmsg)))).
  { intros u b s0 post Hout answer. subst post answer. revert Hout.
    rewrite bind_run. cbn [outbound fst snd].
    intros Hout.
    assert (Hub : u = url /\ b = body).
    { destruct (http_Post env DefaultClient u "application/json" b)
        as [resp|err];
        [destruct (negb (StatusCode resp =? StatusOK));
         [|destruct (json_errcode env (Body resp))]|];
        cbn [ret snd outbox] in Hout;
        apply app_inv_head in Hout; injection Hout as -> ->;
        split; reflexivity. }
    destruct Hub as [-> ->]. clear Hout.
    destruct (http_Post env DefaultClient url "application/json" body)
      as [resp|err].
    - unfold StatusOK.
      destruct (Z.eqb_spec (StatusCode resp) 200) as [H200|Hnot];
        cbn [negb].
      + destruct (json_errcode env (Body resp)) as [msg|] eqn:J;
          cbn [ret fst]; (split; [|split; [|split]]).
        * split; [discriminate|].
          intros (r & Hr & _ & Hj). injection Hr as <-. congruence.
        * intros e He. discriminate He.
        * intros r Hr Hne. injection Hr as <-. contradiction.
        * intros r m Hr _ Hm. injection Hr as <-. congruence.
        * split; [|reflexivity]. intros _. exists resp. repeat split; assumption.
        * intros e He. discriminate He.
        * intros r Hr Hne. injection Hr as <-. contradiction.
        * intros r m Hr _ Hm. injection Hr as <-. congruence.
      + cbn [ret fst]. split; [|split; [|split]].
        * split; [discriminate|].
          intros (r & Hr & H200 & _). injection Hr as <-. contradiction.
        * intros e He. discriminate He.
        * intros r Hr _. injection Hr as <-. reflexivity.
        * intros r m Hr H200 _. injection Hr as <-. contradiction.
    - cbn [ret fst]. split; [|split; [|split]].
      + split; [discriminate|]. intros (r & Hr & _). discriminate Hr.
      + intros e He. injection He as <-. reflexivity.
      + intros r Hr. discriminate Hr.
      + intros r m Hr. discriminate Hr. }
  destruct (negb (DingDingConfig.Secret config =? "")%string).
  - rewrite bind_run. cbn [Now fst snd].
    destruct (url_Parse_Error env (DingDingConfig.Webhook config)) as [perr|].
    + cbn [ret snd outbox]. intros Hout. exfalso.
      apply (f_equal (@List.length Outbound)) in Hout.
      rewrite length_app in Hout. cbn [List.length] in Hout. lia.
    + intros Hout. apply (Hpost _ _ _ Hout).
  - intros Hout. apply (Hpost _ _ _ Hout).
Qed.

(** An endpoint that answers 200 with errcode 310000. *)
Lemma DingDingNotifier_Send_checks_errcode_witness :
  let env :=
    mkEnv (clock sample_env) (time_Format sample_env)
          (QueryDomain sample_env) (db_FindActive sample_env)
          (db_Save_Error sample_env)
          (db_Save_writes sample_env) (smtp_SendMail sample_env)
          (http_Post sample_env)
          (proxy_SOCKS5 sample_env) (url_Parse_Error sample_env)
          (url_AddQuery sample_env)
          (fun _ => Some "sign not match") in
  fst (DingDingNotifier_Send
         env (DingDingConfig.mk true "https://oapi.example/robot" "")
         sample_domain 7 (mkSys 0 [] []))
  = Some (errorString "dingding API error: sign not match").
Proof.
  cbv zeta.
  refine (proj2 (proj2 (proj2
    (DingDingNotifier_Send_checks_errcode
       (mkEnv (clock sample_env) (time_Format sample_env)
              (QueryDomain sample_env) (db_FindActive sample_env)
              (db_Save_Error sample_env)
              (db_Save_writes sample_env) (smtp_SendMail sample_env)
              (http_Post sample_env)
              (proxy_SOCKS5 sample_env) (url_Parse_Error sample_env)
              (url_AddQuery sample_env)
              (fun _ => Some "sign not match"))
       (DingDingConfig.mk true "https://oapi.example/robot" "")
       sample_domain 7 (mkSys 0 [] [])
       "https://oapi.example/robot" _ eq_refl)))
    (mkHttpResponse 200 "") "sign not match" eq_refl eq_refl eq_refl).
Defined.

(** X12. The mail and the DingTalk message show the same urgency, decided
    by the day count handed to the sender alone: critical up to 7 days,
    expired domains included, warning from 8 to 30 days, normal above. The
    mail carries it in its status line, the DingTalk message at the head of
    its text. *)
Theorem senders_urgency_tiers :
  forall (env : Env) (n : Z),
    (urgency_of n = Critical <-> n <= 7) /\
    (urgency_of n = Warning <-> 8 <= n <= 30) /\
    (urgency_of n = Normal <-> 30 < n) /\
    (forall (config : EmailConfig.t) (domain : Domain.t) (s : Sys),
        exists addr head tail : string,
          outbox (snd (EmailNotifier_Send env config domain n s)) =
            (outbox s ++
               [OutSendMail addr (EmailConfig.From config)
                  (EmailConfig.To config)
                  (head ++ "状态：" ++ mail_status (urgency_of n) ++ newline
                     ++ "域名：" ++ Domain.Name domain ++ newline
                     ++ tail)])%list) /\
    (forall (config : DingDingConfig.t) (domain : Domain.t) (s : Sys)
            (url : string) (body : json),
        outbox (snd (DingDingNotifier_Send env config domain n s)) =
          (outbox s ++
             [OutHttpPost DefaultClient url "application/json" body])%list ->
        exists tail : string,
          body =
            JObject
              [ ("msgtype", JString "markdown");
                ("markdown",
                  JObject
                    [ ("title", JString "域名到期提醒");
                      ("text",
                        JString ("## " ++ dingtalk_mark (urgency_of n)
                                   ++ " 域名到期提醒" ++ newline ++ newline
                                   ++ "**域名**: " ++ Domain.Name domain
                                   ++ tail)) ]) ]).
Proof.
  intros env n.
  assert (Hm : (if n <=? 7 then "🔴 紧急"
                else if n <=? 30 then "🟡 警告" else "🟢 正常")
               = mail_status (urgency_of n)).
  { unfold urgency_of. destruct (n <=? 7), (n <=? 30); reflexivity. }
  assert (Hd : (if n <=? 7 then "🔴"
                else if n <=? 30 then "🟡" else "🟢")
               = dingtalk_mark (urgency_of n)).
  { unfold urgency_of. destruct (n <=? 7), (n <=? 30); reflexivity. }
  split; [|split; [|split; [|split]]].
  - unfold urgency_of.
    destruct (Z.leb_spec n 7), (Z.leb_spec n 30);
      split; intros H1; try discriminate H1; try reflexivity; lia.
  - unfold urgency_of.
    destruct (Z.leb_spec n 7), (Z.leb_spec n 30);
      split; intros H1; try discriminate H1; try reflexivity; lia.
  - unfold urgency_of.
    destruct (Z.leb_spec n 7), (Z.leb_spec n 30);
      split; intros H1; try discriminate H1; try reflexivity; lia.
  - intros config domain s. unfold EmailNotifier_Send.
    rewrite Hm. rewrite !bind_run. cbn [Now outbound fst snd].
    eexists.
    exists ("From: " ++ EmailConfig.From config ++ crlf
              ++ "To: " ++ Join (EmailConfig.To config) "," ++ crlf
              ++ "Subject: "
              ++ ("域名到期提醒：" ++ Domain.Name domain ++ " 还有 "
                    ++ FormatInt n ++ " 天到期")
              ++ crlf
              ++ "Content-Type: text/plain; charset=UTF-8" ++ crlf
              ++ crlf
              ++ newline ++ "域名到期提醒" ++ newline ++ newline).
    eexists.
    match goal with
    | |- context [smtp_SendMail env ?a ?b ?c ?d ?m] =>
        destruct (smtp_SendMail env a b c d m) as [err|];
        [destruct (negb (Contains (Error err) "short response"))|]
    end;
      rewrite ?bind_run; cbn [Printf ret fst snd outbox];
      rewrite ?bind_run; cbn [Printf ret fst snd outbox];
      do 3 f_equal; rewrite !append_assoc_r; reflexivity.
  - intros config domain s url body. unfold DingDingNotifier_Send.
    rewrite Hd.
    destruct (negb (DingDingConfig.Secret config =? "")%string).
    + rewrite bind_run. cbn [Now fst snd].
      destruct (url_Parse_Error env (DingDingConfig.Webhook config))
        as [perr|].
      * cbn [ret snd outbox]. intros Hout. exfalso.
        apply (f_equal (@List.length Outbound)) in Hout.
        rewrite length_app in Hout. cbn [List.length] in Hout. lia.
      * rewrite bind_run. cbn [outbound fst snd].
        match goal with
        | |- context [http_Post env ?c ?u ?t ?b] =>
            destruct (http_Post env c u t b) as [resp|err]
        end;
          [destruct (negb (StatusCode resp =? StatusOK));
           [|destruct (json_errcode env (Body resp))]|];
          cbn [ret snd outbox]; intros Hout;
          apply app_inv_head in Hout; injection Hout as _ <-;
          eexists; reflexivity.
    + rewrite bind_run. cbn [outbound fst snd].
      match goal with
      | |- context [http_Post env ?c ?u ?t ?b] =>
          destruct (http_Post env c u t b) as [resp|err]
      end;
        [destruct (negb (StatusCode resp =? StatusOK));
         [|destruct (json_errcode env (Body resp))]|];
        cbn [ret snd outbox]; intros Hout;
        apply app_inv_head in Hout; injection Hout as _ <-;
        eexists; reflexivity.
Qed.

(** ** The WHOIS lookup *)

Section WhoisFacts.

Variable wenv : WhoisEnv.

(** [parseDate] gives the parse under the first layout that accepts the
    string, and the zero Time with an error when none does. *)
Lemma parseDate_loop_find dateStr : forall formats,
  parseDate_loop wenv formats dateStr =
  match find (fun layout =>
                match time_Parse wenv layout dateStr with
                | inl _ => true
                | inr _ => false
                end) formats with
  | Some layout =>
      match time_Parse wenv layout dateStr with
      | inl t => (t, None)
      | inr _ => (0, Some (errorString ("unable to parse date: " ++ dateStr)))
      end
  | None => (0, Some (errorString ("unable to parse date: " ++ dateStr)))
  end.
Proof.
  induction formats as [|layout rest IH]; [reflexivity|].
  cbn [parseDate_loop find].
  destruct (time_Parse wenv layout dateStr) as [t|e] eqn:E.
  - rewrite E. reflexivity.
  - exact IH.
Qed.

Lemma nameServers_loop_strings : forall vs acc,
  nameServers_loop vs acc = (acc ++ strings_of vs)%list.
Proof.
  induction vs as [|v vs IH]; intros acc.
  - cbn. rewrite app_nil_r. reflexivity.
  - cbn [nameServers_loop]. unfold strings_of. cbn [flat_map].
    fold (strings_of vs).
    destruct v; cbn [assert_string]; rewrite IH; cbn [app];
      try reflexivity.
    rewrite <- app_assoc. reflexivity.
Qed.

(** A date field of the data, by what the field holds. *)
Lemma date_field_cases result key :
  match map_index result key with
  | VString dateStr =>
      match find (fun layout =>
                    match time_Parse wenv layout dateStr with
                    | inl _ => true
                    | inr _ => false
                    end)
                 [ RFC3339; "2006-01-02T15:04:05Z"; "2006-01-02 15:04:05";
                   "2006-01-02" ] with
      | Some layout =>
          time_Parse wenv layout dateStr = inl (date_field wenv result key)
      | None => date_field wenv result key = 0
      end
  | _ => date_field wenv result key = 0
  end.
Proof.
  unfold date_field.
  destruct (map_index result key) as [| | |dateStr| |];
    cbn [assert_string]; try reflexivity.
  unfold parseDate. rewrite parseDate_loop_find.
  destruct (find _ _) as [layout|] eqn:F; [|reflexivity].
  apply find_some in F. destruct F as [_ F].
  destruct (time_Parse wenv layout dateStr) as [t|e];
    [reflexivity | discriminate F].
Qed.

(** The lookup, when the API's answer is one it takes facts from. *)
Lemma WhoisService_QueryDomain_data s domain resp apiResponse result :
  api_url_Parse_Error wenv (APIURL s) = None ->
  http_Get wenv (Timeout s) (url_SetQuery wenv (APIURL s) [("domain", domain)])
    = inl resp ->
  StatusCode resp = 200 ->
  json_Decode wenv (Body resp) = inl apiResponse ->
  Code apiResponse = 0 ->
  Data apiResponse = Some result ->
  exists info : DomainInfo.t,
    WhoisService_QueryDomain wenv s domain = inl info /\
    DomainInfo.Domain info = domain /\
    DomainInfo.ExpiryDate info = date_field wenv result "expirationDate" /\
    DomainInfo.CreatedDate info = date_field wenv result "creationDate" /\
    DomainInfo.UpdatedDate info = date_field wenv result "updatedDate" /\
    DomainInfo.Registrar info =
      match map_index result "registrar" with
      | VString registrar => registrar
      | _ => ""
      end /\
    DomainInfo.NameServers info =
      match map_index result "nameServers" with
      | VArray elems => strings_of elems
      | _ => []
      end /\
    DomainInfo.Status info =
      match map_index result "status" with
      | VArray (VObject statusObj :: _) =>
          match map_index statusObj "text" with
          | VString statusText => statusText
          | _ => ""
          end
      | _ => ""
      end.
Proof.
  intros Hurl Hget Hstatus Hdec Hcode Hdata.
  unfold WhoisService_QueryDomain.
  rewrite Hurl, Hget, Hstatus, Hdec, Hcode, Hdata. cbn [Z.eqb negb StatusOK].
  eexists. split; [reflexivity|].
  cbn [DomainInfo.Domain DomainInfo.ExpiryDate DomainInfo.CreatedDate
       DomainInfo.UpdatedDate DomainInfo.Registrar DomainInfo.NameServers
       DomainInfo.Status].
  repeat (split; [reflexivity|]).
  split; [|split].
  - destruct (map_index result "registrar"); reflexivity.
  - destruct (map_index result "nameServers") as [| | | |elems|];
      cbn [assert_array]; try reflexivity.
    rewrite nameServers_loop_strings. reflexivity.
  - destruct (map_index result "status") as [| | | |elems|];
      cbn [assert_array]; try reflexivity.
    destruct elems as [|first rest]; [reflexivity|].
    destruct first as [| | | | |statusObj]; cbn [assert_map]; try reflexivity.
    destruct (map_index statusObj "text"); reflexivity.
Qed.

End WhoisFacts.

(** X13. [WhoisService.QueryDomain] succeeds exactly when the API URL
    parses, the GET goes through with status 200, the body decodes, its
    code is 0 and it has data: what the data holds never makes the lookup
    fail. The facts it returns name the domain that was asked for. A status
    other than 200 is reported without reading the body, and a non-zero
    code is reported with the API's message whether or not data came with
    it. *)
Theorem WhoisService_QueryDomain_succeeds_iff_envelope_ok :
  forall (wenv : WhoisEnv) (s : WhoisService) (domain : string),
    let answer := WhoisService_QueryDomain wenv s domain in
    let url := url_SetQuery wenv (APIURL s) [("domain", domain)] in
    ((exists info, answer = inl info) <-> envelope_ok wenv s domain = true) /\
    (forall info, answer = inl info -> DomainInfo.Domain info = domain) /\
    (forall resp,
        api_url_Parse_Error wenv (APIURL s) = None ->
        http_Get wenv (Timeout s) url = inl resp ->
        StatusCode resp <> 200 ->
        answer = inr (errorString ("WHOIS API returned status "
                                     ++ FormatInt (StatusCode resp)))) /\
    (forall resp apiResponse,
        api_url_Parse_Error wenv (APIURL s) = None ->
        http_Get wenv (Timeout s) url = inl resp ->
        StatusCode resp = 200 ->
        json_Decode wenv (Body resp) = inl apiResponse ->
        Code apiResponse <> 0 ->
        answer = inr (errorString ("WHOIS API error: " ++ Msg apiResponse))).
Proof.
  intros wenv s domain answer url. subst answer url.
  unfold WhoisService_QueryDomain, envelope_ok, StatusOK.
  destruct (api_url_Parse_Error wenv (APIURL s)) as [uerr|] eqn:Eu.
  { split; [|split; [|split]].
    - split; [intros [info H]; discriminate H | discriminate].
    - intros info H. discriminate H.
    - intros resp H. discriminate H.
    - intros resp r H. discriminate H. }
  destruct (http_Get wenv (Timeout s) _) as [resp|gerr] eqn:Eg.
  2:{ split; [|split; [|split]].
      - split; [intros [info H]; discriminate H | discriminate].
      - intros info H. discriminate H.
      - intros resp _ H. discriminate H.
      - intros resp r _ H. discriminate H. }
  destruct (Z.eqb_spec (StatusCode resp) 200) as [H200|Hnot]; cbn [negb andb].
  2:{ split; [|split; [|split]].
      - split; [intros [info H]; discriminate H | discriminate].
      - intros info H. discriminate H.
      - intros r _ Hr _. injection Hr as <-. reflexivity.
      - intros r a _ Hr H200. injection Hr as <-. contradiction. }
  destruct (json_Decode wenv (Body resp)) as [r|derr] eqn:Ed.
  2:{ split; [|split; [|split]].
      - split; [intros [info H]; discriminate H | discriminate].
      - intros info H. discriminate H.
      - intros r _ Hr Hne. injection Hr as <-. contradiction.
      - intros r a _ Hr _ Ha. injection Hr as <-. congruence. }
  destruct (Z.eqb_spec (Code r) 0) as [Hc|Hc]; cbn [negb andb].
  2:{ split; [|split; [|split]].
      - split; [intros [info H]; discriminate H | discriminate].
      - intros info H. discriminate H.
      - intros r' _ Hr Hne. injection Hr as <-. contradiction.
      - intros r' a _ Hr _ Ha _. injection Hr as <-.
        rewrite Ed in Ha. injection Ha as <-. reflexivity. }
  destruct (Data r) as [result|].
  2:{ split; [|split; [|split]].
      - split; [intros [info H]; discriminate H | discriminate].
      - intros info H. discriminate H.
      - intros r' _ Hr Hne. injection Hr as <-. contradiction.
      - intros r' a _ Hr _ Ha Hne. injection Hr as <-.
        rewrite Ed in Ha. injection Ha as <-. contradiction. }
  split; [|split; [|split]].
  - split; [reflexivity|]. intros _. eexists. reflexivity.
  - intros info H. injection H as <-. reflexivity.
  - intros r' _ Hr Hne. injection Hr as <-. contradiction.
  - intros r' a _ Hr _ Ha Hne. injection Hr as <-.
    rewrite Ed in Ha. injection Ha as <-. contradiction.
Qed.

(** X14. From an answer with code 0 and data, [WhoisService.QueryDomain]
    reads each fact leniently. The registrar is the data's string, empty if
    it is missing or not a string; the status is the text of the first
    entry of the status list only; the name servers are the strings of the
    list, in order, other entries dropped; each of the three dates is the
    parse of its string under the first of the four layouts that accepts
    it, and the zero Time when the field is missing, not a string, or
    accepted by no layout. *)
Theorem WhoisService_QueryDomain_reads_facts :
  forall (wenv : WhoisEnv) (s : WhoisService) (domain : string)
         (resp : HttpResponse) (apiResponse : ApiResponse)
         (result : list (string * jsonValue)),
    api_url_Parse_Error wenv (APIURL s) = None ->
    http_Get wenv (Timeout s)
             (url_SetQuery wenv (APIURL s) [("domain", domain)]) = inl resp ->
    StatusCode resp = 200 ->
    json_Decode wenv (Body resp) = inl apiResponse ->
    Code apiResponse = 0 ->
    Data apiResponse = Some result ->
    exists info : DomainInfo.t,
      WhoisService_QueryDomain wenv s domain = inl info /\
      DomainInfo.Domain info = domain /\
      date_read wenv (map_index result "expirationDate")
                (DomainInfo.ExpiryDate info) /\
      date_read wenv (map_index result "creationDate")
                (DomainInfo.CreatedDate info) /\
      date_read wenv (map_index result "updatedDate")
                (DomainInfo.UpdatedDate info) /\
      DomainInfo.Registrar info =
        match map_index result "registrar" with
        | VString registrar => registrar
        | _ => ""
        end /\
      DomainInfo.NameServers info =
        match map_index result "nameServers" with
        | VArray elems => strings_of elems
        | _ => []
        end /\
      DomainInfo.Status info =
        match map_index result "status" with
        | VArray (VObject statusObj :: _) =>
            match map_index statusObj "text" with
            | VString statusText => statusText
            | _ => ""
            end
        | _ => ""
        end.
Proof.
  intros wenv s domain resp apiResponse result Hurl Hget Hstatus Hdec Hcode
         Hdata.
  destruct (WhoisService_QueryDomain_data
              wenv s domain resp apiResponse result
              Hurl Hget Hstatus Hdec Hcode Hdata)
    as (info & Hq & Hd & He & Hc & Hu & Hr & Hn & Hs).
  exists info. rewrite He, Hc, Hu.
  split; [exact Hq|]. split; [exact Hd|].
  split; [apply date_field_cases|].
  split; [apply date_field_cases|].
  split; [apply date_field_cases|].
  split; [exact Hr|]. split; [exact Hn | exact Hs].
Qed.

(** The sample answer: the expiry parses as a date, the creation date does
    not parse, the update date is missing; the second status and the null
    name server are dropped. *)
Lemma WhoisService_QueryDomain_reads_facts_witness :
  WhoisService_QueryDomain (whois_env_with_data sample_data) sample_whois
                           "example.com"
  = inl (DomainInfo.mk "example.com" "Example Registrar"
                       (741077 * 24 * Hour) 0 0 "clientTransferProhibited"
                       ["ns1.example"; "ns2.example"] "{}").
Proof.
  destruct (WhoisService_QueryDomain_reads_facts
              (whois_env_with_data sample_data) sample_whois "example.com"
              (mkHttpResponse 200 "")
              (mkApiResponse 0 "success" (Some sample_data)) sample_data
              eq_refl eq_refl eq_refl eq_refl eq_refl eq_refl)
    as (info & Hq & Hd & He & Hc & Hu & Hr & Hn & Hs).
  rewrite Hq. destruct info as [d r e c u st ns raw].
  cbn [DomainInfo.Domain DomainInfo.Registrar DomainInfo.ExpiryDate
       DomainInfo.CreatedDate DomainInfo.UpdatedDate DomainInfo.Status
       DomainInfo.NameServers] in Hd, He, Hc, Hu, Hr, Hn, Hs.
  vm_compute in He, Hc, Hu.
  injection He as He. subst d r e c u st ns.
  vm_compute in Hq. injection Hq as <-. reflexivity.
Defined.

(** X15. A lookup whose expiry is missing, is not a string or is accepted
    by no layout still succeeds, with a zero expiry. Over a store that
    accepts the row, [CheckDomain] with that lookup returns nil, overwrites
    the record's expiry date with the zero Time and leaves its days
    remaining as they were; the row saved is that record as it was handed
    to the store, and what comes back is that row as the store's
    write-back leaves it. *)
Theorem CheckDomain_unparsed_expiry_clears_date :
  forall (env : Env) (wenv : WhoisEnv) (svc : WhoisService)
         (s : MonitorService) (domain : Domain.t) (w : World)
         (resp : HttpResponse) (apiResponse : ApiResponse)
         (result : list (string * jsonValue)),
    api_url_Parse_Error wenv (APIURL svc) = None ->
    http_Get wenv (Timeout svc)
             (url_SetQuery wenv (APIURL svc)
                           [("domain", Domain.Name domain)]) = inl resp ->
    StatusCode resp = 200 ->
    json_Decode wenv (Body resp) = inl apiResponse ->
    Code apiResponse = 0 ->
    Data apiResponse = Some result ->
    (forall dateStr,
        map_index result "expirationDate" = VString dateStr ->
        forall layout,
          In layout date_layouts -> accepted_by wenv dateStr layout = false) ->
    (forall x, db_Save_Error env x = None) ->
    let out := CheckDomain (with_whois env wenv svc) s domain w in
    let d' := fst (fst out) in
    snd (fst out) = None /\
    Domain.ExpiryDate d' = 0 /\
    Domain.DaysRemaining d' = Domain.DaysRemaining domain /\
    exists d1 : Domain.t,
      saved (snd out) = (saved w ++ [d1])%list /\
      d' = written_back env d1.
Proof.
  intros env wenv svc s domain w resp apiResponse result
         Hurl Hget Hstatus Hdec Hcode Hdata Hdate Hstore out d'.
  subst d' out.
  destruct (WhoisService_QueryDomain_data
              wenv svc (Domain.Name domain) resp apiResponse result
              Hurl Hget Hstatus Hdec Hcode Hdata)
    as (info & Hq & _ & He & _).
  assert (Hzero : DomainInfo.ExpiryDate info = 0).
  { rewrite He.
    pose proof (date_field_cases wenv result "expirationDate") as Hc.
    destruct (map_index result "expirationDate") as [| | |dateStr| |];
      try exact Hc.
    destruct (find _ _) as [layout|] eqn:F; [|exact Hc].
    apply find_some in F. destruct F as [Hin Hacc].
    specialize (Hdate dateStr eq_refl layout Hin).
    unfold accepted_by in Hdate. rewrite Hdate in Hacc. discriminate Hacc. }
  pose proof (CheckDomain_outcome (with_whois env wenv svc) s domain w) as H.
  cbv zeta in H.
  change (QueryDomain (with_whois env wenv svc) (Domain.Name domain))
    with (WhoisService_QueryDomain wenv svc (Domain.Name domain)) in H.
  rewrite Hq in H.
  change (db_Save_Error (with_whois env wenv svc)) with (db_Save_Error env) in H.
  rewrite Hstore in H.
  destruct H as (_ & Hd & Hnil & Hs).
  rewrite Hs, Hd. split; [exact Hnil|].
  unfold checked_record. rewrite Hzero.
  split; [reflexivity|]. split; [reflexivity|].
  eexists. split; reflexivity.
Qed.

(** An API whose data has no expiry at all. *)
Lemma CheckDomain_unparsed_expiry_clears_date_witness :
  let out :=
    CheckDomain
      (with_whois sample_env
                  (whois_env_with_data [("registrar", VString "R")])
                  sample_whois)
      sample_monitor
      (Domain.mk 1 "example.com" "" (741077 * 24 * Hour) 0 0 "" 7 "" 0 true
                 0 0)
      empty_world in
  snd (fst out) = None /\
  Domain.ExpiryDate (fst (fst out)) = 0 /\
  Domain.DaysRemaining (fst (fst out)) = 7.
Proof.
  cbv zeta.
  destruct (CheckDomain_unparsed_expiry_clears_date
              sample_env
              (whois_env_with_data [("registrar", VString "R")])
              sample_whois sample_monitor
              (Domain.mk 1 "example.com" "" (741077 * 24 * Hour) 0 0 "" 7 ""
                         0 true 0 0)
              empty_world
              (mkHttpResponse 200 "")
              (mkApiResponse 0 "success" (Some [("registrar", VString "R")]))
              [("registrar", VString "R")]
              eq_refl eq_refl eq_refl eq_refl eq_refl eq_refl)
    as (H1 & H2 & H3 & _).
  - intros dateStr H. discriminate H.
  - intros x. reflexivity.
  - split; [exact H1|]. split; [exact H2 | exact H3].
Defined.

(** ** The settings of the database *)

(** *** [strings.Split] over [strings.Join] *)

Lemma Split_from_comma_piece x : forall rest piece,
  (forall c, In c (list_ascii_of_string x) -> c <> ","%char) ->
  Split_from (x ++ rest) "," 0 piece = Split_from rest "," 0 (piece ++ x).
Proof.
  induction x as [|c x IH]; intros rest piece Hx.
  - cbn [append]. f_equal. clear. induction piece as [|a p IHp];
      [reflexivity | cbn [append]; rewrite <- IHp; reflexivity].
  - cbn [append Split_from HasPrefix].
    destruct (Ascii.eqb_spec c ","%char) as [->|Hc].
    + exfalso. apply (Hx ","%char); [left|]; reflexivity.
    + cbn [andb]. rewrite IH.
      * rewrite append_assoc_r. reflexivity.
      * intros a Ha. apply Hx. right. exact Ha.
Qed.

Lemma Split_Join_comma : forall pieces,
  pieces <> [] ->
  (forall x, In x pieces ->
             forall c, In c (list_ascii_of_string x) -> c <> ","%char) ->
  Split (Join pieces ",") "," = pieces.
Proof.
  unfold Split. induction pieces as [|x rest IH]; intros Hne Hall;
    [congruence|].
  assert (Hx : forall c, In c (list_ascii_of_string x) -> c <> ","%char).
  { apply Hall. left. reflexivity. }
  destruct rest as [|y rest].
  - cbn [Join].
    replace x with (x ++ "") at 1
      by (clear; induction x as [|a p IHp];
          [reflexivity | cbn [append]; rewrite IHp; reflexivity]).
    rewrite Split_from_comma_piece by exact Hx. reflexivity.
  - change (Join (x :: y :: rest) ",")
      with (x ++ String ","%char (Join (y :: rest) ",")).
    rewrite Split_from_comma_piece by exact Hx.
    cbn [append Split_from HasPrefix].
    rewrite Ascii.eqb_refl. cbn [andb String.length Nat.sub].
    f_equal. apply IH; [discriminate|].
    intros z Hz. apply Hall. right. exact Hz.
Qed.

(** *** [strings.TrimSpace] and [strconv.Atoi] over a printed integer *)

Lemma printed_byte_plain c :
  printed_byte c ->
  asciiSpace c = false /\
  (forall c2, space2 c c2 = false) /\
  (forall c2 c3, space3 c c2 c3 = false) /\
  c <> ","%char /\ c <> "+"%char /\ c <> " "%char.
Proof.
  unfold printed_byte. cbn [list_ascii_of_string In].
  intros H.
  repeat (destruct H as [<-|H];
          [repeat split; try reflexivity; discriminate|]).
  destruct H.
Qed.

Lemma string_of_uint_printed d :
  Forall printed_byte (list_ascii_of_string (NilEmpty.string_of_uint d)).
Proof.
  induction d; cbn [NilEmpty.string_of_uint list_ascii_of_string];
    constructor; try exact IHd;
    unfold printed_byte; cbn [list_ascii_of_string In]; tauto.
Qed.

Lemma FormatInt_printed n :
  exists c l,
    list_ascii_of_string (FormatInt n) = c :: l /\
    Forall printed_byte (c :: l).
Proof.
  unfold FormatInt.
  assert (Hu : forall d,
             exists c l,
               list_ascii_of_string (NilZero.string_of_uint d) = c :: l /\
               Forall printed_byte (c :: l)).
  { intros d. pose proof (string_of_uint_printed d) as H.
    destruct d; cbn [NilZero.string_of_uint] in *;
      try (cbn [NilEmpty.string_of_uint list_ascii_of_string] in *;
           eexists; eexists; split; [reflexivity | exact H]).
    exists "0"%char, []. split; [reflexivity|].
    constructor; [|constructor].
    unfold printed_byte. cbn [list_ascii_of_string In]. tauto. }
  destruct (Z.to_int n) as [d|d]; cbn [NilZero.string_of_int].
  - apply Hu.
  - destruct (Hu d) as (c & l & E & H).
    exists "-"%char, (c :: l). cbn [list_ascii_of_string]. rewrite E.
    split; [reflexivity|]. constructor; [|exact H].
    unfold printed_byte. cbn [list_ascii_of_string In]. tauto.
Qed.

Lemma list_ascii_of_string_app s1 s2 :
  list_ascii_of_string (s1 ++ s2) =
  (list_ascii_of_string s1 ++ list_ascii_of_string s2)%list.
Proof.
  induction s1 as [|c s1 IH]; [reflexivity|].
  cbn [append list_ascii_of_string app]. rewrite IH. reflexivity.
Qed.

Lemma list_ascii_of_spaces k :
  list_ascii_of_string (spaces k) = repeat " "%char k.
Proof.
  induction k as [|k IH]; [reflexivity|].
  cbn [spaces list_ascii_of_string repeat]. rewrite IH. reflexivity.
Qed.

Lemma trim_head_spaces k l :
  trim_head (repeat " "%char k ++ l) = trim_head l.
Proof. induction k as [|k IH]; [reflexivity | exact IH]. Qed.

Lemma trim_tail_rev_spaces k l :
  trim_tail_rev (repeat " "%char k ++ l) = trim_tail_rev l.
Proof. induction k as [|k IH]; [reflexivity | exact IH]. Qed.

Lemma trim_head_printed c l :
  printed_byte c -> trim_head (c :: l) = c :: l.
Proof.
  intros H. destruct (printed_byte_plain c H) as (Ha & H2 & H3 & _).
  cbn [trim_head]. rewrite Ha.
  destruct l as [|c2 l]; [reflexivity|]. rewrite H2.
  destruct l as [|c3 l]; [reflexivity|]. rewrite H3. reflexivity.
Qed.

Lemma printed_byte_ends_no_space c :
  printed_byte c ->
  (forall c2, space2 c2 c = false) /\
  (forall c3 c2, space3 c3 c2 c = false).
Proof.
  unfold printed_byte. cbn [list_ascii_of_string In].
  intros H.
  repeat (destruct H as [<-|H];
          [split; intros; unfold space2, space3; cbv zeta;
           repeat match goal with
                  | |- context [N_of_ascii ?x] =>
                      is_var x; generalize (N_of_ascii x); intro
                  end;
           cbn [N_of_ascii N_of_digits N.add N.mul Pos.add Pos.mul Pos.succ];
           repeat match goal with
                  | |- context [N.eqb (Npos ?p) (Npos ?q)] =>
                      change (N.eqb (Npos p) (Npos q)) with false
                  | |- context [N.leb (Npos ?p) (Npos ?q)] =>
                      change (N.leb (Npos p) (Npos q)) with false
                  end;
           rewrite ?andb_false_r; cbn [orb andb];
           rewrite ?andb_false_r; reflexivity|]).
  destruct H.
Qed.

Lemma trim_tail_rev_printed c l :
  printed_byte c -> trim_tail_rev (c :: l) = c :: l.
Proof.
  intros H. destruct (printed_byte_plain c H) as (Ha & _).
  destruct (printed_byte_ends_no_space c H) as (H2 & H3).
  cbn [trim_tail_rev]. rewrite Ha.
  destruct l as [|c2 l]; [reflexivity|]. rewrite H2.
  destruct l as [|c3 l]; [reflexivity|]. rewrite H3. reflexivity.
Qed.

Lemma TrimSpace_alert_day_entry item :
  TrimSpace (alert_day_entry item) = FormatInt (snd (fst item)).
Proof.
  destruct item as [[l d] r]. unfold alert_day_entry, TrimSpace.
  cbn [fst snd].
  rewrite !list_ascii_of_string_app, !list_ascii_of_spaces.
  rewrite trim_head_spaces.
  destruct (FormatInt_printed d) as (c & body & E & Hp). rewrite E.
  cbn [app]. rewrite trim_head_printed by (inversion Hp; assumption).
  change (c :: (body ++ repeat " "%char r)%list)
    with ((c :: body) ++ repeat " "%char r)%list.
  rewrite rev_app_distr, rev_repeat, trim_tail_rev_spaces.
  assert (Hrev : exists c' l', rev (c :: body) = c' :: l' /\ printed_byte c').
  { destruct (rev (c :: body)) as [|c' l'] eqn:R.
    - apply (f_equal (@List.length ascii)) in R.
      rewrite length_rev in R. discriminate R.
    - exists c', l'. split; [reflexivity|].
      assert (Hin : In c' (rev (c :: body))) by (rewrite R; left; reflexivity).
      apply in_rev in Hin. rewrite Forall_forall in Hp. exact (Hp c' Hin). }
  destruct Hrev as (c' & l' & R & Hc'). rewrite R.
  rewrite trim_tail_rev_printed by exact Hc'.
  rewrite <- R, rev_involutive, <- E.
  apply string_of_list_ascii_of_string.
Qed.

Lemma Atoi_FormatInt n :
  minInt <= n <= maxInt -> Atoi (FormatInt n) = Some n.
Proof.
  intros Hn. unfold Atoi.
  destruct (FormatInt_printed n) as (c & body & E & Hp).
  assert (Hplus : c <> "+"%char).
  { inversion Hp as [|? ? Hc _]. apply (printed_byte_plain c Hc). }
  assert (Hparse : NilZero.int_of_string (FormatInt n) = Some (Z.to_int n)).
  { unfold FormatInt. apply NilZero.isi.
    - destruct n as [|p|p]; cbn; try discriminate.
      intros H. injection H as H.
      exact (DecimalPos.Unsigned.to_uint_nonnil p H).
    - destruct n as [|p|p]; cbn; try discriminate.
      intros H. injection H as H.
      exact (DecimalPos.Unsigned.to_uint_nonnil p H). }
  destruct (FormatInt n) as [|a s] eqn:F; [discriminate E|].
  cbn [list_ascii_of_string] in E. injection E as -> _.
  assert (Hm : match String c s with
               | String "+"%char digits =>
                   option_map Decimal.Pos (NilZero.uint_of_string digits)
               | _ => NilZero.int_of_string (String c s)
               end = NilZero.int_of_string (String c s)).
  { destruct c as [[|] [|] [|] [|] [|] [|] [|] [|]];
      try reflexivity. contradiction Hplus. reflexivity. }
  rewrite Hm, Hparse. cbv zeta. rewrite DecimalZ.of_to.
  destruct Hn as [Hlo Hhi].
  apply Z.leb_le in Hlo. apply Z.leb_le in Hhi. rewrite Hlo, Hhi.
  reflexivity.
Qed.

Lemma alert_day_entry_no_comma item :
  forall c, In c (list_ascii_of_string (alert_day_entry item)) ->
            c <> ","%char.
Proof.
  destruct item as [[l d] r]. unfold alert_day_entry. cbn [fst snd].
  intros c. rewrite !list_ascii_of_string_app, !list_ascii_of_spaces.
  rewrite !in_app_iff. intros [H|[H|H]].
  - apply repeat_spec in H. subst c. discriminate.
  - destruct (FormatInt_printed d) as (c0 & body & E & Hp).
    rewrite E in H. rewrite Forall_forall in Hp.
    apply (printed_byte_plain c (Hp c H)).
  - apply repeat_spec in H. subst c. discriminate.
Qed.

Lemma alert_days_loop_entries : forall items days,
  (forall item, In item items -> minInt <= snd (fst item) <= maxInt) ->
  alert_days_loop (map alert_day_entry items) days =
  (days ++ map (fun item => snd (fst item)) items)%list.
Proof.
  induction items as [|item items IH]; intros days Hr.
  - cbn. rewrite app_nil_r. reflexivity.
  - cbn [map alert_days_loop].
    rewrite TrimSpace_alert_day_entry, Atoi_FormatInt
      by (apply Hr; left; reflexivity).
    rewrite IH by (intros i Hi; apply Hr; right; exact Hi).
    rewrite <- app_assoc. reflexivity.
Qed.

(** *** What [loadSettingsFromDB] leaves alone *)

Lemma if_set_keeps {A : Type} (P : Config.t -> A) m key assign cfg :
  (forall v c, P (assign v c) = P c) ->
  P (if_set m key assign cfg) = P cfg.
Proof.
  intros H. unfold if_set. destruct (m key); [apply H | reflexivity].
Qed.

(** Settles that an assignment of [loadSettingsFromDB] keeps a part of the
    configuration. *)
Ltac keeps_part :=
  let v := fresh "v" in
  let c := fresh "c" in
  intros v c; cbv beta zeta;
  try match goal with
      | |- context [Atoi v] => destruct (Atoi v)
      end;
  repeat match goal with
         | |- context [if ?b then _ else _] => destruct b
         end;
  reflexivity.

Lemma Atoi_in_range s n : Atoi s = Some n -> minInt <= n <= maxInt.
Proof.
  unfold Atoi.
  destruct (match s with
            | String "+"%char digits =>
                option_map Decimal.Pos (NilZero.uint_of_string digits)
            | _ => NilZero.int_of_string s
            end) as [d|]; [|discriminate].
  cbv zeta.
  destruct (Z.leb_spec minInt (Z.of_int d)), (Z.leb_spec (Z.of_int d) maxInt);
    cbn [andb]; intros Hs; try discriminate Hs.
  injection Hs as <-. split; assumption.
Qed.

Lemma alert_days_loop_in_range : forall pieces days,
  Forall (fun n => minInt <= n <= maxInt) days ->
  Forall (fun n => minInt <= n <= maxInt) (alert_days_loop pieces days).
Proof.
  induction pieces as [|d rest IH]; intros days Hd; [exact Hd|].
  cbn [alert_days_loop].
  destruct (Atoi (TrimSpace d)) as [day|] eqn:E; apply IH; [|exact Hd].
  apply Forall_app. split; [exact Hd|].
  constructor; [exact (Atoi_in_range _ _ E) | constructor].
Qed.

Lemma alert_day_entry_not_empty item : alert_day_entry item <> "".
Proof.
  intros H. apply (f_equal list_ascii_of_string) in H.
  destruct item as [[l d] r]. unfold alert_day_entry in H. cbn [fst snd] in H.
  rewrite !list_ascii_of_string_app in H.
  destruct (FormatInt_printed d) as (c & body & E & _). rewrite E in H.
  apply (f_equal (@List.length ascii)) in H.
  rewrite !length_app in H. cbn [List.length list_ascii_of_string] in H. lia.
Qed.

Lemma Join_not_empty x rest sep : x <> "" -> Join (x :: rest) sep <> "".
Proof.
  intros Hx. destruct rest as [|y rest]; [exact Hx|].
  cbn [Join]. destruct x as [|c x]; [congruence | discriminate].
Qed.

(** X16. An alert-days setting is read back as it was written: for a
    non-empty list of days in the range of [int], stored as their decimals
    joined by commas, each with any number of spaces around it,
    [loadSettingsFromDB] sets the thresholds to exactly that list, in
    order. With several rows of the key, the last one counts. *)
Theorem loadSettingsFromDB_reads_alert_days :
  forall (settings : list Setting.t) (cfg : Config.t) (w : World)
         (items : list (nat * Z * nat)),
    items <> [] ->
    (forall item, In item items -> minInt <= snd (fst item) <= maxInt) ->
    settings_map settings "monitor.alert_days"
      = Some (Join (map alert_day_entry items) ",") ->
    MonitorConfig.AlertDays
      (Config.Monitor (fst (loadSettingsFromDB (Some (inl settings)) cfg w)))
    = map (fun item => snd (fst item)) items.
Proof.
  intros settings cfg w items Hne Hrange Hset.
  unfold loadSettingsFromDB. rewrite bind_run. cbn [fst snd ret log_Printf].
  cbv zeta.
  repeat (rewrite (if_set_keeps Config.Monitor) by keeps_part).
  unfold if_set at 1. rewrite Hset.
  assert (Hval : (Join (map alert_day_entry items) "," =? "")%string = false).
  { apply String.eqb_neq. destruct items as [|item items]; [congruence|].
    cbn [map]. apply Join_not_empty, alert_day_entry_not_empty. }
  rewrite Hval. cbn [negb].
  rewrite Split_Join_comma.
  - rewrite alert_days_loop_entries by exact Hrange. cbn [app].
    destruct items as [|item items]; [congruence|].
    cbn [map List.length]. rewrite Nat2Z.inj_succ.
    destruct (Z.gtb_spec (Z.succ (Z.of_nat (List.length
                (map (fun item0 => snd (fst item0)) items)))) 0) as [_|Hle];
      [reflexivity | lia].
  - destruct items; [congruence | discriminate].
  - intros x Hx. apply in_map_iff in Hx. destruct Hx as (item & <- & _).
    apply alert_day_entry_no_comma.
Qed.

(** The setting "30, 7,1 ", later in the table than an older "60". *)
Lemma loadSettingsFromDB_reads_alert_days_witness :
  MonitorConfig.AlertDays
    (Config.Monitor
       (fst (loadSettingsFromDB
               (Some (inl [ Setting.mk "monitor.alert_days" "60";
                            Setting.mk "monitor.alert_days" "30, 7,1 " ]))
               sample_config empty_world)))
  = [30; 7; 1].
Proof.
  exact (loadSettingsFromDB_reads_alert_days
           [ Setting.mk "monitor.alert_days" "60";
             Setting.mk "monitor.alert_days" "30, 7,1 " ]
           sample_config empty_world
           [(0%nat, 30, 0%nat); (1%nat, 7, 0%nat); (0%nat, 1, 1%nat)]
           ltac:(discriminate)
           ltac:(intros item [<-|[<-|[<-|[]]]]; vm_compute; split; discriminate)
           eq_refl).
Defined.

(** X17. A channel's stored "enabled" setting turns the channel on only
    if it is exactly the string "true"; any other value, "True", "1" or
    the empty string included, turns it off, whatever the configuration
    file said; without the setting the file's value stays. So a database
    that stores "True" and "1" for the two channels the file enables
    leaves the notification service without any sender. *)
Theorem loadSettingsFromDB_enabled_only_when_true :
  forall (settings : list Setting.t) (cfg : Config.t) (w : World),
    let cfg' := fst (loadSettingsFromDB (Some (inl settings)) cfg w) in
    let stored key (fromFile : bool) :=
      match settings_map settings key with
      | Some val => (val =? "true")%string
      | None => fromFile
      end in
    EmailConfig.Enabled (Config.Email cfg')
      = stored "email.enabled" (EmailConfig.Enabled (Config.Email cfg)) /\
    WebhookConfig.Enabled (Config.Webhook cfg')
      = stored "webhook.enabled" (WebhookConfig.Enabled (Config.Webhook cfg)) /\
    TelegramConfig.Enabled (Config.Telegram cfg')
      = stored "telegram.enabled"
               (TelegramConfig.Enabled (Config.Telegram cfg)) /\
    DingDingConfig.Enabled (Config.DingDing cfg')
      = stored "dingding.enabled"
               (DingDingConfig.Enabled (Config.DingDing cfg)) /\
    (forall env,
        notifiers
          (NewNotifyService
             env
             (Config.Notifications
                (fst (loadSettingsFromDB
                        (Some (inl [ Setting.mk "email.enabled" "True";
                                     Setting.mk "webhook.enabled" "1" ]))
                        sample_config w))))
        = []).
Proof.
  intros settings cfg w cfg' stored. subst cfg' stored.
  unfold loadSettingsFromDB. rewrite bind_run. cbn [fst snd ret log_Printf].
  cbv zeta.
  split; [|split; [|split; [|split]]].
  - repeat (rewrite (if_set_keeps
                       (fun c => EmailConfig.Enabled (Config.Email c)))
              by keeps_part).
    unfold if_set at 1.
    destruct (settings_map settings "email.enabled"); [reflexivity|].
    repeat (rewrite (if_set_keeps
                       (fun c => EmailConfig.Enabled (Config.Email c)))
              by keeps_part).
    reflexivity.
  - repeat (rewrite (if_set_keeps
                       (fun c => WebhookConfig.Enabled (Config.Webhook c)))
              by keeps_part).
    unfold if_set at 1.
    destruct (settings_map settings "webhook.enabled"); [reflexivity|].
    repeat (rewrite (if_set_keeps
                       (fun c => WebhookConfig.Enabled (Config.Webhook c)))
              by keeps_part).
    reflexivity.
  - repeat (rewrite (if_set_keeps
                       (fun c => TelegramConfig.Enabled (Config.Telegram c)))
              by keeps_part).
    unfold if_set at 1.
    destruct (settings_map settings "telegram.enabled"); [reflexivity|].
    repeat (rewrite (if_set_keeps
                       (fun c => TelegramConfig.Enabled (Config.Telegram c)))
              by keeps_part).
    reflexivity.
  - repeat (rewrite (if_set_keeps
                       (fun c => DingDingConfig.Enabled (Config.DingDing c)))
              by keeps_part).
    unfold if_set at 1.
    destruct (settings_map settings "dingding.enabled"); [reflexivity|].
    repeat (rewrite (if_set_keeps
                       (fun c => DingDingConfig.Enabled (Config.DingDing c)))
              by keeps_part).
    reflexivity.
  - intros env. reflexivity.
Qed.

(** X18. [loadSettingsFromDB] changes only the monitor and notification
    parts of the configuration, and never empties the thresholds: the
    server, database and WHOIS parts stay; the thresholds either stay or
    become a non-empty list of integers in the range of [int], entries
    that are no integer being skipped ("30, x,7 ,, 1" gives 30, 7, 1 and
    "soon" changes nothing). Without a database, with a failing query or
    with an empty settings table the configuration is returned as it
    was; only the failing query and the loaded table leave a log line. *)
Theorem loadSettingsFromDB_keeps_the_rest :
  forall (cfg : Config.t) (w : World),
    (forall settings,
        let cfg' := fst (loadSettingsFromDB (Some (inl settings)) cfg w) in
        Config.Server cfg' = Config.Server cfg /\
        Config.Database cfg' = Config.Database cfg /\
        Config.Whois cfg' = Config.Whois cfg /\
        (MonitorConfig.AlertDays (Config.Monitor cfg')
           = MonitorConfig.AlertDays (Config.Monitor cfg) \/
         MonitorConfig.AlertDays (Config.Monitor cfg') <> [] /\
         Forall (fun n => minInt <= n <= maxInt)
                (MonitorConfig.AlertDays (Config.Monitor cfg')))) /\
    loadSettingsFromDB None cfg w = (cfg, w) /\
    (forall err,
        loadSettingsFromDB (Some (inr err)) cfg w =
        (cfg,
         mkWorld (sys w)
           (logged w ++
              [("Warning: Failed to load settings from database: "
                  ++ Error err)%string])
           (saved w) (notifications w))) /\
    loadSettingsFromDB (Some (inl [])) cfg w =
      (cfg,
       mkWorld (sys w)
         (logged w ++
            ["Settings loaded from database and applied to configuration"])
         (saved w) (notifications w)) /\
    MonitorConfig.AlertDays
      (Config.Monitor
         (fst (loadSettingsFromDB
                 (Some (inl [Setting.mk "monitor.alert_days" "30, x,7 ,, 1"]))
                 cfg w)))
      = [30; 7; 1] /\
    MonitorConfig.AlertDays
      (Config.Monitor
         (fst (loadSettingsFromDB
                 (Some (inl [Setting.mk "monitor.alert_days" "soon"]))
                 cfg w)))
      = MonitorConfig.AlertDays (Config.Monitor cfg).
Proof.
  intros cfg w. split; [|repeat split].
  intros settings cfg'. subst cfg'.
  unfold loadSettingsFromDB. rewrite bind_run. cbn [fst snd ret log_Printf].
  cbv zeta.
  split; [|split; [|split]].
  - repeat (rewrite (if_set_keeps Config.Server) by keeps_part). reflexivity.
  - repeat (rewrite (if_set_keeps Config.Database) by keeps_part). reflexivity.
  - repeat (rewrite (if_set_keeps Config.Whois) by keeps_part). reflexivity.
  - repeat (rewrite (if_set_keeps
                       (fun c => MonitorConfig.AlertDays (Config.Monitor c)))
              by keeps_part).
    match goal with
    | |- context [if_set ?m "monitor.alert_days" ?f ?c] =>
        set (c0 := c); set (X := if_set m "monitor.alert_days" f c0)
    end.
    assert (H0 : MonitorConfig.AlertDays (Config.Monitor c0)
                 = MonitorConfig.AlertDays (Config.Monitor cfg)).
    { subst c0.
      apply (if_set_keeps
               (fun c => MonitorConfig.AlertDays (Config.Monitor c))).
      keeps_part. }
    rewrite <- H0. subst X. unfold if_set.
    destruct (settings_map settings "monitor.alert_days") as [val|];
      [|left; reflexivity].
    destruct (negb (val =? "")%string); [|left; reflexivity].
    pose proof (alert_days_loop_in_range (Split val ",") []
                  (Forall_nil _)) as Hr.
    destruct (alert_days_loop (Split val ",") []) as [|day days].
    + left. reflexivity.
    + right.
      replace (Z.of_nat (List.length (day :: days)) >? 0) with true
        by (symmetry; apply Z.gtb_lt; cbn [List.length]; lia).
      cbn. split; [discriminate | exact Hr].
Qed.

(** ** The scheduled job and the handlers *)

Section JobFacts.

Variable env : Env.

Lemma CheckAndNotify_logs_monitor_lines s domain w :
  exists l : list string,
    logged (snd (CheckAndNotify env s domain w)) = (logged w ++ l)%list /\
    forallb monitor_line l = true.
Proof.
  unfold CheckAndNotify. destruct (notifyService s) as [ns|].
  - rewrite CheckAndNotify_loop_find.
    destruct (find _ (alertDays s)) as [t|].
    + unfold dispatch. rewrite bind_run. cbn [log_Printf fst snd].
      rewrite bind_run.
      match goal with
      | |- context [SendNotification env ns domain t ?w1] =>
          destruct (SendNotification_frame env ns domain t w1) as [Hl _];
          destruct (SendNotification env ns domain t w1) as [[err|] w2]
      end; cbn [fst snd logged log_Printf ret] in *; rewrite Hl.
      * eexists [_; _]. rewrite <- app_assoc. split; reflexivity.
      * eexists [_]. split; reflexivity.
    + exists []. rewrite app_nil_r. split; reflexivity.
  - exists []. rewrite app_nil_r. split; reflexivity.
Qed.

Lemma check_and_log_logs_monitor_lines s d w :
  exists l : list string,
    logged (snd (check_and_log env s d w)) = (logged w ++ l)%list /\
    forallb monitor_line l = true.
Proof.
  unfold check_and_log. rewrite bind_run.
  destruct (QueryDomain env (Domain.Name d)) as [info|err] eqn:E.
  - rewrite (CheckDomain_lookup_ok env s d w info E). cbv zeta.
    destruct (db_Save_Error env (checked_record env info d w)) as [e|].
    + cbn [fst snd log_Printf logged]. eexists [_]. split; reflexivity.
    + cbn [fst snd ret].
      match goal with
      | |- context [CheckAndNotify env s ?d1 ?w1] =>
          destruct (CheckAndNotify_logs_monitor_lines s d1 w1)
            as (l & Hl & Hm)
      end.
      cbn [logged] in Hl. rewrite Hl, <- app_assoc.
      eexists (_ :: l). split; [reflexivity|].
      cbn [forallb app]. rewrite Hm. reflexivity.
  - rewrite (CheckDomain_lookup_failed env s d w err E).
    cbn [fst snd log_Printf logged]. eexists [_]. split; reflexivity.
Qed.

Lemma CheckAllDomains_loop_logs_monitor_lines s : forall domains w,
  exists l : list string,
    logged (snd (CheckAllDomains_loop env s domains w))
      = (logged w ++ l)%list /\
    forallb monitor_line l = true.
Proof.
  induction domains as [|d rest IH]; intros w.
  - exists []. cbn. rewrite app_nil_r. split; reflexivity.
  - rewrite CheckAllDomains_loop_cons.
    destruct (check_and_log_logs_monitor_lines s d w) as (l1 & H1 & M1).
    destruct (IH (snd (check_and_log env s d w))) as (l2 & H2 & M2).
    exists (l1 ++ l2)%list. rewrite H2, H1, <- app_assoc.
    split; [reflexivity|]. rewrite forallb_app, M1, M2. reflexivity.
Qed.

End JobFacts.

Lemma monitor_line_not_job_failure line :
  monitor_line line = true ->
  HasPrefix line "Scheduled check failed: " = false.
Proof.
  unfold monitor_line. rewrite !orb_true_iff.
  intros [[[H|H]|H]|H]; apply HasPrefix_spec in H;
    destruct H as [rest ->]; reflexivity.
Qed.

(** X19. The scheduled job always frames its run with "Starting scheduled
    domain check..." and "Scheduled domain check completed", and it
    reports "Scheduled check failed" in exactly one case: when the list of
    domains cannot be fetched, with that error, and then nothing is checked
    or saved. When the list is fetched, no failure of a lookup, of a save
    or of a notification gives that report. *)
Theorem Scheduler_job_reports_only_fetch_failure :
  forall (env : Env) (s : MonitorService) (w : World),
    let w' := snd (Scheduler_job env s w) in
    exists middle : list string,
      logged w' =
        (logged w ++ "Starting scheduled domain check..." :: middle
                  ++ ["Scheduled domain check completed"])%list /\
      match db_FindActive env with
      | inr err =>
          middle = [("Scheduled check failed: failed to fetch domains: "
                       ++ Error err)%string] /\
          saved w' = saved w /\
          notifications w' = notifications w /\
          sys w' = sys w
      | inl domains =>
          exists lines : list string,
            middle =
              ("Checking " ++ FormatInt (Z.of_nat (List.length domains))
                 ++ " domains...")%string :: lines /\
            forallb (fun line =>
                       negb (HasPrefix line "Scheduled check failed: "))
                    middle = true
      end.
Proof.
  intros env s w w'. subst w'. unfold Scheduler_job, CheckAllDomains.
  rewrite bind_run. cbn [log_Printf fst snd].
  destruct (db_FindActive env) as [domains|err].
  - rewrite !bind_run. cbn [log_Printf ret fst snd].
    match goal with
    | |- context [CheckAllDomains_loop env s domains ?w1] =>
        destruct (CheckAllDomains_loop_logs_monitor_lines env s domains w1)
          as (l & Hl & Hm)
    end.
    cbn [logged] in Hl. cbn [logged]. rewrite Hl.
    eexists (_ :: l). split.
    + rewrite <- !app_assoc. reflexivity.
    + exists l. split; [reflexivity|].
      cbn [forallb]. 
      replace (negb (HasPrefix _ "Scheduled check failed: ")) with true
        by reflexivity.
      cbn [andb]. clear Hl.
      induction l as [|x l IH]; [reflexivity|].
      cbn [forallb] in Hm |- *. apply andb_true_iff in Hm.
      destruct Hm as [Hx Hm].
      rewrite (monitor_line_not_job_failure x Hx), (IH Hm). reflexivity.
  - rewrite !bind_run. cbn [log_Printf ret fst snd logged saved notifications
                             sys Error Errorf_w].
    eexists [_]. split.
    + rewrite <- !app_assoc. reflexivity.
    + repeat split.
Qed.

(** X20. [RefreshDomain] answers 400 to an id that is no decimal
    unsigned 32-bit integer (a sign, a letter, nothing, 2^32) and 404 to
    an id the store does not know, in both cases without running a check.
    Otherwise it answers 200 exactly when the lookup and the save succeed,
    whatever the notification channels do; the body is the checked record
    as the store's write-back leaves it, stamps included, and the row
    saved is the checked record. A failed lookup gives 500 with "WHOIS
    query failed: ..." and a failed save 500 with "failed to save domain:
    ...", nothing being saved. Over a store that stamps the time of the
    update, the body carries the stamp. *)
Theorem RefreshDomain_status :
  forall (env : Env) (db_First : Z -> Domain.t + error) (s : MonitorService)
         (id_param : string) (w : World),
    let out := RefreshDomain env db_First s id_param w in
    (ParseUint32 id_param = None ->
     out = (mkResponse 400 (H_error "Invalid domain ID"), w)) /\
    (forall id e,
        ParseUint32 id_param = Some id -> db_First id = inr e ->
        out = (mkResponse 404 (H_error "Domain not found"), w)) /\
    (forall id domain,
        ParseUint32 id_param = Some id -> db_First id = inl domain ->
        match QueryDomain env (Domain.Name domain) with
        | inr err =>
            out = (mkResponse 500 (H_error ("WHOIS query failed: "
                                              ++ Error err)), w)
        | inl info =>
            let d1 := checked_record env info domain w in
            match db_Save_Error env d1 with
            | Some e =>
                fst out = mkResponse 500 (H_error ("failed to save domain: "
                                                     ++ Error e)) /\
                saved (snd out) = saved w
            | None =>
                fst out = mkResponse 200 (DomainBody (written_back env d1)) /\
                saved (snd out) = (saved w ++ [d1])%list
            end
        end) /\
    (exists d' : Domain.t,
        fst (RefreshDomain stamping_env (fun _ => inl sample_domain)
                           sample_monitor "1" empty_world)
          = mkResponse 200 (DomainBody d') /\
        Domain.UpdatedAt d' = 86400 * Second /\
        Domain.UpdatedAt sample_domain = 0) /\
    ParseUint32 "-1" = None /\ ParseUint32 "+1" = None /\
    ParseUint32 "" = None /\ ParseUint32 "1a" = None /\
    ParseUint32 "4294967296" = None /\
    ParseUint32 "4294967295" = Some 4294967295 /\
    ParseUint32 "007" = Some 7.
Proof.
  intros env db_First s id_param w out. subst out. unfold RefreshDomain.
  split; [|split; [|split; [|split; [|repeat split]]]].
  4:{ eexists. split; [reflexivity|]. split; reflexivity. }
  - intros ->. reflexivity.
  - intros id e -> ->. reflexivity.
  - intros id domain -> ->. rewrite bind_run.
    pose proof (CheckDomain_outcome env s domain w) as H. cbv zeta in H.
    destruct (QueryDomain env (Domain.Name domain)) as [info|err] eqn:E.
    + destruct H as (_ & Hd & H). cbv zeta.
      destruct (db_Save_Error env (checked_record env info domain w))
        as [e|] eqn:Es.
      * rewrite H. cbn [ret fst snd Error]. split; [reflexivity|].
        rewrite (CheckDomain_lookup_ok env s domain w info E). cbv zeta.
        rewrite Es. reflexivity.
      * destruct H as [Hn Hs]. rewrite Hn, Hd. cbn [ret fst snd].
        split; [reflexivity | exact Hs].
    + rewrite (CheckDomain_lookup_failed env s domain w err E).
      reflexivity.
Qed.

(** X21. [TestNotification] answers 200 "Test notification sent
    successfully" exactly when the dispatch returns nil: when at least one
    channel succeeds, and also when the service has no channel at all and
    nothing was sent. It answers 500 with the last channel's error when
    there are channels and all of them fail, and 500 "notification service
    not available" without a service. The thresholds play no part. *)
Theorem TestNotification_status :
  forall (env : Env) (db_First : Z -> Domain.t + error)
         (thresholds : list Z) (id_param : string) (w : World)
         (id : Z) (domain : Domain.t),
    ParseUint32 id_param = Some id ->
    db_First id = inl domain ->
    (fst (TestNotification env db_First (mkMonitorService None thresholds)
                           id_param w)
     = mkResponse 500 (H_error "notification service not available")) /\
    (forall ns : NotifyService,
        let out :=
          TestNotification env db_First
                           (mkMonitorService (Some ns) thresholds)
                           id_param w in
        let rs :=
          fst (attempts env (notifiers ns) domain
                 (Domain.DaysRemaining domain)
                 (snd (log_Printf
                         ("Triggering test notification for domain "
                            ++ Domain.Name domain ++ " ("
                            ++ FormatInt (Domain.DaysRemaining domain)
                            ++ " days remaining)") w))) in
        let sent :=
          mkResponse 200 (H_message "Test notification sent successfully") in
        (status (fst out) = 200 \/ status (fst out) = 500) /\
        (notifiers ns = [] -> out = (sent, snd out) /\
                              notifications (snd out) = notifications w /\
                              outbox (sys (snd out)) = outbox (sys w)) /\
        (In None rs -> fst out = sent) /\
        (rs <> [] -> (forall r, In r rs -> r <> None) ->
         exists err : error,
           last rs None = Some err /\
           fst out = mkResponse 500 (H_error (Error err)))).
Proof.
  intros env db_First thresholds id_param w id domain Hid Hdb.
  unfold TestNotification. rewrite Hid, Hdb.
  split; [reflexivity|].
  intros ns. cbv zeta.
  unfold TriggerNotification. cbn [notifyService].
  rewrite !bind_run. cbn [fst snd].
  rewrite SendNotification_run. cbn [fst snd].
  match goal with
  | |- context [attempts env (notifiers ns) domain ?n ?w1] =>
      set (rs := fst (attempts env (notifiers ns) domain n w1))
  end.
  split; [|split; [|split]].
  - destruct ((successes rs >? 0) && notNil (last_error None rs));
      [left; reflexivity|].
    destruct (last_error None rs); [right | left]; reflexivity.
  - intros Hnil. subst rs. rewrite Hnil. cbn. repeat split.
  - intros Hin. apply successes_pos in Hin.
    destruct (Z.gtb_spec (successes rs) 0) as [_|Hle]; [|lia].
    cbn [andb]. destruct (last_error None rs); reflexivity.
  - intros Hne Hall.
    rewrite (successes_all_failed rs Hall). cbn [Z.gtb Z.compare andb].
    rewrite (last_error_all_failed rs None Hne Hall).
    destruct (last rs None) as [err|] eqn:L.
    + exists err. split; reflexivity.
    + exfalso. apply (Hall None); [|reflexivity].
      destruct rs as [|x rs']; [congruence|].
      apply (@exists_last _ (x :: rs')) in Hne.
      destruct Hne as (l & a & E). rewrite E, last_last in L. subst a.
      rewrite E. apply in_or_app. right. left. reflexivity.
Qed.

(** The record 1 of the store, and no channel configured. *)
Lemma TestNotification_status_witness :
  fst (TestNotification sample_env (fun _ => inl sample_domain)
                        (mkMonitorService (Some (mkNotifyService [])) [])
                        "1" empty_world)
  = mkResponse 200 (H_message "Test notification sent successfully").
Proof.
  destruct (TestNotification_status
              sample_env (fun _ => inl sample_domain) [] "1" empty_world
              1 sample_domain eq_refl eq_refl) as [_ H].
  destruct (H (mkNotifyService [])) as (_ & Hnone & _).
  destruct (Hnone eq_refl) as [E _]. rewrite E. reflexivity.
Defined.

(** ** The shape of a DingTalk signature *)

Lemma round_length s kw : List.length (sha256.round s kw) = List.length s.
Proof.
  unfold sha256.round.
  destruct s as [|a [|b [|c [|d [|e [|f [|g [|h [|i s]]]]]]]]]; reflexivity.
Qed.

Lemma fold_round_length kws : forall s,
  List.length (fold_left sha256.round kws s) = List.length s.
Proof.
  induction kws as [|kw kws IH]; intros s; [reflexivity|].
  cbn [fold_left]. rewrite IH. apply round_length.
Qed.

Lemma block_length h chunk :
  List.length (sha256.block h chunk) = List.length h.
Proof.
  unfold sha256.block. cbv zeta.
  rewrite length_map, length_combine, fold_round_length.
  apply Nat.min_id.
Qed.

Lemma blocks_length p h :
  List.length (sha256.blocks h p) = List.length h.
Proof.
  unfold sha256.blocks. generalize (seq 0 (List.length p / 64)).
  intros chunks. revert h.
  induction chunks as [|i chunks IH]; intros h; [reflexivity|].
  cbn [fold_left]. rewrite IH. apply block_length.
Qed.

Lemma be_bytes_bytes k : forall n,
  List.length (sha256.be_bytes k n) = k /\
  Forall (fun b => 0 <= b < 256) (sha256.be_bytes k n).
Proof.
  induction k as [|k IH]; intros n; [split; [reflexivity | constructor]|].
  cbn [sha256.be_bytes]. destruct (IH (n / 256)) as [Hl Hf].
  rewrite length_app, Hl. cbn [List.length]. split; [lia|].
  apply Forall_app. split; [exact Hf|].
  constructor; [|constructor]. apply Z.mod_pos_bound. lia.
Qed.

Lemma Sum256_bytes data :
  List.length (sha256.Sum256 data) = 32%nat /\
  Forall (fun b => 0 <= b < 256) (sha256.Sum256 data).
Proof.
  unfold sha256.Sum256. cbv zeta.
  pose proof (blocks_length
                (data ++ sha256.padding (Z.of_nat (List.length data)))
                sha256.init) as Hl.
  change (List.length sha256.init) with 8%nat in Hl.
  revert Hl.
  generalize (sha256.blocks
                sha256.init
                (data ++ sha256.padding (Z.of_nat (List.length data)))).
  intros ws Hl.
  assert (H : forall l : list Z,
             List.length (flat_map (sha256.be_bytes 4) l)
               = (4 * List.length l)%nat /\
             Forall (fun b => 0 <= b < 256) (flat_map (sha256.be_bytes 4) l)).
  { induction l as [|x l [IHl IHf]]; [split; [reflexivity | constructor]|].
    cbn [flat_map]. destruct (be_bytes_bytes 4 x) as [Hx Hfx].
    rewrite length_app, Hx, IHl. cbn [List.length]. split; [lia|].
    apply Forall_app. split; assumption. }
  destruct (H ws) as [H1 H2]. rewrite H1, Hl. split; [reflexivity | exact H2].
Qed.

Lemma digit_one_byte x :
  0 <= x < 64 -> exists c, base64.digit x = String c "".
Proof.
  intros Hx. unfold base64.digit.
  assert (Hn : (Z.to_nat x < 64)%nat) by lia.
  revert Hn. generalize (Z.to_nat x). intros n Hn.
  do 64 (destruct n as [|n]; [eexists; reflexivity|]).
  lia.
Qed.

Lemma encode_group b0 b1 b2 rest :
  0 <= b0 < 256 -> 0 <= b1 < 256 -> 0 <= b2 < 256 ->
  exists c1 c2 c3 c4,
    base64.EncodeToString (b0 :: b1 :: b2 :: rest) =
    String c1 (String c2 (String c3 (String c4
                                       (base64.EncodeToString rest)))).
Proof.
  intros H0 H1 H2.
  destruct (digit_one_byte (b0 / 4)) as [c1 E1];
    [Z.to_euclidean_division_equations; lia|].
  destruct (digit_one_byte (b0 mod 4 * 16 + b1 / 16)) as [c2 E2];
    [Z.to_euclidean_division_equations; lia|].
  destruct (digit_one_byte (b1 mod 16 * 4 + b2 / 64)) as [c3 E3];
    [Z.to_euclidean_division_equations; lia|].
  destruct (digit_one_byte (b2 mod 64)) as [c4 E4];
    [Z.to_euclidean_division_equations; lia|].
  exists c1, c2, c3, c4.
  change (base64.EncodeToString (b0 :: b1 :: b2 :: rest))
    with (base64.digit (b0 / 4) ++ base64.digit (b0 mod 4 * 16 + b1 / 16)
            ++ base64.digit (b1 mod 16 * 4 + b2 / 64)
            ++ base64.digit (b2 mod 64)
            ++ base64.EncodeToString rest).
  rewrite E1, E2, E3, E4. reflexivity.
Qed.

Lemma encode_pair b0 b1 :
  0 <= b0 < 256 -> 0 <= b1 < 256 ->
  exists c1 c2 c3,
    base64.EncodeToString [b0; b1] = String c1 (String c2 (String c3 "=")).
Proof.
  intros H0 H1.
  destruct (digit_one_byte (b0 / 4)) as [c1 E1];
    [Z.to_euclidean_division_equations; lia|].
  destruct (digit_one_byte (b0 mod 4 * 16 + b1 / 16)) as [c2 E2];
    [Z.to_euclidean_division_equations; lia|].
  destruct (digit_one_byte (b1 mod 16 * 4)) as [c3 E3];
    [Z.to_euclidean_division_equations; lia|].
  exists c1, c2, c3.
  change (base64.EncodeToString [b0; b1])
    with (base64.digit (b0 / 4) ++ base64.digit (b0 mod 4 * 16 + b1 / 16)
            ++ base64.digit (b1 mod 16 * 4) ++ "=").
  rewrite E1, E2, E3. reflexivity.
Qed.

(** X22. Whatever the timestamp and the secret, the signature
    [generateSign] returns is 44 bytes long and ends with one padding
    sign: the base64 of a 32-byte MAC. It is never empty, not even for an
    empty secret. *)
Theorem generateSign_is_44_bytes :
  forall (timestamp secret : string),
    exists body : string,
      generateSign timestamp secret = body ++ "=" /\
      String.length body = 43%nat /\
      String.length (generateSign timestamp secret) = 44%nat.
Proof.
  intros timestamp secret. unfold generateSign. cbv zeta.
  unfold hmac.Sum, hmac.Write, hmac.New. cbn [hmac.key hmac.written app].
  unfold hmac.Sum_sha256. cbv zeta.
  match goal with
  | |- context [base64.EncodeToString (sha256.Sum256 ?d)] =>
      destruct (Sum256_bytes d) as [Hl Hf];
      generalize dependent (sha256.Sum256 d)
  end.
  intros mac Hl Hf.
  do 32 (destruct mac as [|? mac]; [discriminate Hl|]).
  destruct mac; [|discriminate Hl]. clear Hl.
  repeat match goal with
         | H : Forall _ (_ :: _) |- _ => inversion H; subst; clear H
         end.
  repeat match goal with
         | |- context [base64.EncodeToString (?b0 :: ?b1 :: ?b2 :: ?rest)] =>
             let E := fresh "E" in
             destruct (encode_group b0 b1 b2 rest) as (? & ? & ? & ? & E);
             [assumption | assumption | assumption | rewrite E; clear E]
         end.
  match goal with
  | |- context [base64.EncodeToString [?b0; ?b1]] =>
      let E := fresh "E" in
      destruct (encode_pair b0 b1) as (? & ? & ? & E);
      [assumption | assumption | rewrite E; clear E]
  end.
  eexists (String _ (String _ (String _ (String _ (String _ (String _
          (String _ (String _ (String _ (String _ (String _ (String _
          (String _ (String _ (String _ (String _ (String _ (String _
          (String _ (String _ (String _ (String _ (String _ (String _
          (String _ (String _ (String _ (String _ (String _ (String _
          (String _ (String _ (String _ (String _ (String _ (String _
          (String _ (String _ (String _ (String _ (String _ (String _
          (String _ ""))))))))))))))))))))))))))))))))))))))))))).
  split; [reflexivity|]. split; reflexivity.
Qed.

(** ** Repeated checks, and the recipients of the mail *)

Section Repeats.

Variable env : Env.

Lemma dispatch_appends ns domain threshold w :
  exists recs : list Notification.t,
    notifications (snd (dispatch env ns domain threshold w)) =
      (notifications w ++ recs)%list /\
    List.length recs = List.length (notifiers ns).
Proof.
  unfold dispatch. rewrite bind_run. cbn [log_Printf fst snd].
  rewrite bind_run.
  match goal with
  | |- context [SendNotification env ns domain threshold ?w1] =>
      destruct (SendNotification_appends env ns domain threshold w1)
        as (recs & Hn & Hlen & _);
      destruct (SendNotification env ns domain threshold w1) as [[err|] w2]
  end; cbn [fst snd notifications log_Printf ret] in *;
    exists recs; split; assumption.
Qed.

Lemma find_threshold (x : Z) thresholds :
  In x thresholds -> find (fun t => x =? t) thresholds = Some x.
Proof.
  induction thresholds as [|t rest IH]; intros Hin; [destruct Hin|].
  cbn [find]. destruct (Z.eqb_spec x t) as [->|Hne]; [reflexivity|].
  destruct Hin as [->|Hin]; [congruence | exact (IH Hin)].
Qed.

End Repeats.

(** X23. [CheckAndNotify] keeps no memory of what it has sent: called
    twice on a record whose days remaining are one of the thresholds, it
    dispatches twice, and every channel gets a second message and a second
    audit record. *)
Theorem CheckAndNotify_does_not_deduplicate :
  forall (env : Env) (ns : NotifyService) (thresholds : list Z)
         (domain : Domain.t) (w : World),
    In (Domain.DaysRemaining domain) thresholds ->
    let s := mkMonitorService (Some ns) thresholds in
    let w1 := snd (CheckAndNotify env s domain w) in
    let w2 := snd (CheckAndNotify env s domain w1) in
    dispatches_since w w2 = 2%nat /\
    exists recs : list Notification.t,
      notifications w2 = (notifications w ++ recs)%list /\
      List.length recs = (2 * List.length (notifiers ns))%nat.
Proof.
  intros env ns thresholds domain w Hin s w1 w2. subst w2 w1 s.
  unfold CheckAndNotify. cbn [notifyService alertDays].
  rewrite !CheckAndNotify_loop_find, (find_threshold _ _ Hin).
  set (t := Domain.DaysRemaining domain).
  set (w1 := snd (dispatch env ns domain t w)).
  destruct (dispatch_run env ns domain t w) as (_ & f1 & Hl1 & Hf1).
  destruct (dispatch_run env ns domain t w1) as (_ & f2 & Hl2 & Hf2).
  destruct (dispatch_appends env ns domain t w) as (r1 & Hn1 & Hr1).
  destruct (dispatch_appends env ns domain t w1) as (r2 & Hn2 & Hr2).
  fold w1 in Hl1, Hn1. split.
  - rewrite (dispatches_since_app
               w _ (announcement domain :: f1 ++ announcement domain :: f2)).
    + cbn [filter].
      replace (announces_dispatch (announcement domain)) with true
        by reflexivity.
      rewrite filter_app. cbn [filter].
      replace (announces_dispatch (announcement domain)) with true
        by reflexivity.
      rewrite Hf1, Hf2. reflexivity.
    + rewrite Hl2, Hl1, <- app_assoc. reflexivity.
  - exists (r1 ++ r2)%list. rewrite Hn2, Hn1, <- app_assoc.
    split; [reflexivity|]. rewrite length_app, Hr1, Hr2. lia.
Qed.

(** Three channels, a record at 7 days, thresholds 30, 7 and 1: six
    records after two calls. *)
Lemma CheckAndNotify_does_not_deduplicate_witness :
  List.length
    (notifications
       (snd (CheckAndNotify
               sample_env sample_monitor sample_domain
               (snd (CheckAndNotify sample_env sample_monitor sample_domain
                                    empty_world)))))
  = 6%nat.
Proof.
  destruct (CheckAndNotify_does_not_deduplicate
              sample_env three_channels [30; 7; 1] sample_domain empty_world
              ltac:(right; left; reflexivity))
    as (_ & recs & Hn & Hlen).
  change (mkMonitorService (Some three_channels) [30; 7; 1])
    with sample_monitor in Hn.
  rewrite Hn. cbn [notifications empty_world app]. exact Hlen.
Defined.

Lemma Split_from_not_empty s sep : forall skip piece,
  Split_from s sep skip piece <> [].
Proof.
  induction s as [|c s IH]; intros skip piece; [discriminate|].
  cbn [Split_from]. destruct skip as [|skip]; [|apply IH].
  destruct (HasPrefix (String c s) sep); [discriminate | apply IH].
Qed.

Lemma Join_cons x rest sep :
  rest <> [] -> Join (x :: rest) sep = x ++ sep ++ Join rest sep.
Proof. destruct rest; [congruence | reflexivity]. Qed.

Lemma append_nil_r (s : string) : s ++ "" = s.
Proof.
  induction s as [|c s IH]; [reflexivity|].
  cbn [append]. rewrite IH. reflexivity.
Qed.

Lemma Join_Split_from_comma s : forall piece,
  Join (Split_from s "," 0 piece) "," = piece ++ s.
Proof.
  induction s as [|c s IH]; intros piece;
    [cbn [Split_from Join]; symmetry; apply append_nil_r|].
  cbn [Split_from HasPrefix].
  destruct (Ascii.eqb_spec c ","%char) as [->|Hc]; cbn [andb].
  - cbn [String.length Nat.sub].
    rewrite Join_cons by apply Split_from_not_empty.
    rewrite IH. reflexivity.
  - rewrite IH, append_assoc_r. reflexivity.
Qed.

(** X24. The recipients setting is cut at its commas and nothing else:
    [loadSettingsFromDB] takes the pieces as they are, spaces included, as
    the recipients (unlike the alert days, they are not trimmed), and
    joining them gives the setting back, so the mail's To header is the
    stored string, verbatim. *)
Theorem loadSettingsFromDB_email_to_verbatim :
  forall (settings : list Setting.t) (cfg : Config.t) (w : World)
         (val : string),
    settings_map settings "email.to" = Some val ->
    val <> "" ->
    let config :=
      Config.Email (fst (loadSettingsFromDB (Some (inl settings)) cfg w)) in
    EmailConfig.To config = Split val "," /\
    Join (EmailConfig.To config) "," = val /\
    (forall (env : Env) (domain : Domain.t) (n : Z) (s : Sys),
        exists addr head tail : string,
          outbox (snd (EmailNotifier_Send env config domain n s)) =
            (outbox s ++
               [OutSendMail addr (EmailConfig.From config) (Split val ",")
                            (head ++ "To: " ++ val ++ crlf ++ tail)])%list) /\
    Split "ops@example.org, dns@example.org" ","
      = ["ops@example.org"; " dns@example.org"].
Proof.
  intros settings cfg w val Hset Hval config.
  assert (Hto : EmailConfig.To config = Split val ",").
  { subst config.
    unfold loadSettingsFromDB. rewrite bind_run. cbn [fst snd ret log_Printf].
    cbv zeta.
    repeat (rewrite (if_set_keeps (fun c => EmailConfig.To (Config.Email c)))
              by keeps_part).
    unfold if_set at 1. rewrite Hset.
    apply String.eqb_neq in Hval. rewrite Hval. reflexivity. }
  assert (Hjoin : Join (EmailConfig.To config) "," = val).
  { rewrite Hto. unfold Split. apply Join_Split_from_comma. }
  split; [exact Hto|]. split; [exact Hjoin|]. split; [|reflexivity].
  intros env domain n s. unfold EmailNotifier_Send.
  rewrite !bind_run. cbn [Now outbound fst snd].
  rewrite Hjoin, Hto.
  eexists. exists ("From: " ++ EmailConfig.From config ++ crlf). eexists.
  match goal with
  | |- context [smtp_SendMail env ?a ?b ?c ?d ?m] =>
      destruct (smtp_SendMail env a b c d m) as [err|];
      [destruct (negb (Contains (Error err) "short response"))|]
  end;
    rewrite ?bind_run; cbn [Printf ret fst snd outbox];
    rewrite ?bind_run; cbn [Printf ret fst snd outbox];
    do 3 f_equal; rewrite !append_assoc_r; reflexivity.
Qed.

Lemma loadSettingsFromDB_email_to_verbatim_witness :
  EmailConfig.To
    (Config.Email
       (fst (loadSettingsFromDB
               (Some (inl [Setting.mk "email.to"
                                      "ops@example.org, dns@example.org"]))
               sample_config empty_world)))
  = ["ops@example.org"; " dns@example.org"].
Proof.
  destruct (loadSettingsFromDB_email_to_verbatim
              [Setting.mk "email.to" "ops@example.org, dns@example.org"]
              sample_config empty_world "ops@example.org, dns@example.org"
              eq_refl ltac:(discriminate))
    as (Hto & _ & _ & Hex).
  rewrite Hto. exact Hex.
Defined.

(** X25. An expiry the API gives as a string that one of the layouts
    accepts reaches the record: over a store that accepts the row,
    [CheckDomain] sets the record's expiry date to the parse under the
    first accepting layout and, when that is not the zero Time, its days
    remaining to the days from the check's second clock reading to it;
    the first clock reading is the last-checked time. The row saved is
    that record as it was handed to the store, and what comes back is that
    row as the store's write-back leaves it. *)
Theorem CheckDomain_takes_parsed_expiry :
  forall (env : Env) (wenv : WhoisEnv) (svc : WhoisService)
         (s : MonitorService) (domain : Domain.t) (w : World)
         (resp : HttpResponse) (apiResponse : ApiResponse)
         (result : list (string * jsonValue))
         (dateStr layout : string) (t : Time),
    api_url_Parse_Error wenv (APIURL svc) = None ->
    http_Get wenv (Timeout svc)
             (url_SetQuery wenv (APIURL svc)
                           [("domain", Domain.Name domain)]) = inl resp ->
    StatusCode resp = 200 ->
    json_Decode wenv (Body resp) = inl apiResponse ->
    Code apiResponse = 0 ->
    Data apiResponse = Some result ->
    map_index result "expirationDate" = VString dateStr ->
    find (accepted_by wenv dateStr) date_layouts = Some layout ->
    time_Parse wenv layout dateStr = inl t ->
    IsZero t = false ->
    (forall x, db_Save_Error env x = None) ->
    let out := CheckDomain (with_whois env wenv svc) s domain w in
    let d' := fst (fst out) in
    snd (fst out) = None /\
    Domain.ExpiryDate d' = t /\
    Domain.DaysRemaining d'
      = days_of (Sub t (clock env (S (ticks (sys w))))) /\
    Domain.LastChecked d' = clock env (ticks (sys w)) /\
    exists d1 : Domain.t,
      saved (snd out) = (saved w ++ [d1])%list /\
      d' = written_back env d1.
Proof.
  intros env wenv svc s domain w resp apiResponse result dateStr layout t
         Hurl Hget Hstatus Hdec Hcode Hdata Hfield Hfind Hparse Hnz Hstore
         out d'.
  subst d' out.
  destruct (WhoisService_QueryDomain_data
              wenv svc (Domain.Name domain) resp apiResponse result
              Hurl Hget Hstatus Hdec Hcode Hdata)
    as (info & Hq & _ & He & _).
  assert (Ht : DomainInfo.ExpiryDate info = t).
  { rewrite He.
    pose proof (date_field_cases wenv result "expirationDate") as Hc.
    rewrite Hfield in Hc. fold (accepted_by wenv dateStr) in Hc.
    fold date_layouts in Hc. rewrite Hfind, Hparse in Hc.
    injection Hc as Hc. symmetry. exact Hc. }
  pose proof (CheckDomain_outcome (with_whois env wenv svc) s domain w) as H.
  cbv zeta in H.
  change (QueryDomain (with_whois env wenv svc) (Domain.Name domain))
    with (WhoisService_QueryDomain wenv svc (Domain.Name domain)) in H.
  rewrite Hq in H.
  change (db_Save_Error (with_whois env wenv svc)) with (db_Save_Error env) in H.
  rewrite Hstore in H.
  destruct H as (_ & Hd & Hnil & Hs).
  rewrite Hs, Hd. split; [exact Hnil|].
  unfold checked_record. rewrite Ht, Hnz.
  split; [reflexivity|]. split; [reflexivity|]. split; [reflexivity|].
  eexists. split; reflexivity.
Qed.

(** The sample answer, whose expiry is 1 January 2030, checked when the
    clock reads 1 January 2029. *)
Lemma CheckDomain_takes_parsed_expiry_witness :
  let env :=
    mkEnv (fun _ => 740712 * 24 * Hour)
          (time_Format sample_env) (QueryDomain sample_env)
          (db_FindActive sample_env) (db_Save_Error sample_env)
          (db_Save_writes sample_env)
          (smtp_SendMail sample_env) (http_Post sample_env)
          (proxy_SOCKS5 sample_env) (url_Parse_Error sample_env)
          (url_AddQuery sample_env) (json_errcode sample_env) in
  let out :=
    CheckDomain (with_whois env (whois_env_with_data sample_data)
                            sample_whois)
                sample_monitor sample_domain empty_world in
  Domain.ExpiryDate (fst (fst out)) = 741077 * 24 * Hour /\
  Domain.DaysRemaining (fst (fst out)) = 365.
Proof.
  cbv zeta.
  destruct (CheckDomain_takes_parsed_expiry
              (mkEnv (fun _ => 740712 * 24 * Hour)
                     (time_Format sample_env) (QueryDomain sample_env)
                     (db_FindActive sample_env) (db_Save_Error sample_env)
                     (db_Save_writes sample_env)
                     (smtp_SendMail sample_env) (http_Post sample_env)
                     (proxy_SOCKS5 sample_env) (url_Parse_Error sample_env)
                     (url_AddQuery sample_env) (json_errcode sample_env))
              (whois_env_with_data sample_data) sample_whois
              sample_monitor sample_domain empty_world
              (mkHttpResponse 200 "")
              (mkApiResponse 0 "success" (Some sample_data)) sample_data
              "2030-01-01" "2006-01-02" (741077 * 24 * Hour)
              eq_refl eq_refl eq_refl eq_refl eq_refl eq_refl
              eq_refl eq_refl eq_refl eq_refl (fun _ => eq_refl))
    as (_ & He & Hd & _).
  split; [exact He|]. rewrite Hd. vm_compute. reflexivity.
Defined.
